(** * Daily metrics engine of crypto-market-analytics

    A shallow embedding of [scripts/compute_metrics.py]: the SQL statement
    [METRICS_SQL] (three common table expressions and the final INSERT),
    the transactional driver [compute_metrics], the null-count auditor
    [log_validation_summary] and the entry point [main].

    Conventions.
    - A NUMERIC value is a rational ([Q]); a nullable column is an
      [option].  Values are compared with [==] ([Qeq]).  The rounding a
      column of declared scale applies when a row is stored is not
      modelled: it changes neither the nullness of a value nor the values
      0, 1 and 100 the statements below mention.
    - A table is the list of its rows.
    - A statement that fails raises an exception: [result] is either a
      value or the exception raised.
    - The square root inside STDDEV_POP is the database's numeric routine,
      which is not part of the repository: it is the parameter [sqrt_num]
      of the sections below. *)

From Stdlib Require Import String.
From Stdlib Require Import List ZArith QArith Qfield Bool Lia Permutation Sorted.
Import ListNotations.

Local Close Scope Q_scope.
Local Open Scope nat_scope.

(** ** Exceptions and fallible computations *)

Inductive exn : Type :=
| DivisionByZero                 (* psycopg2.errors.DivisionByZero *)
| OperationalError (code : nat)  (* connection and server failures *)
| InterfaceError                 (* use of a closed connection *)
| KeyboardInterrupt.             (* a BaseException that is no Exception *)

(** The exceptions [except Exception] catches. *)
Definition is_Exception (e : exn) : bool :=
  match e with
  | KeyboardInterrupt => false
  | _ => true
  end.

Inductive result (A : Type) : Type :=
| Ok (a : A)
| Raise (e : exn).

Arguments Ok {A} a.
Arguments Raise {A} e.

Definition bind {A B : Type} (r : result A) (k : A -> result B) : result B :=
  match r with
  | Ok a => k a
  | Raise e => Raise e
  end.

Declare Scope result_scope.
Delimit Scope result_scope with result.
Notation "x <- c ;; k" := (bind c (fun x => k))
  (at level 61, c at next level, right associativity) : result_scope.
Local Open Scope result_scope.

(** The SELECT list is evaluated once per row of a partition, the rows
    taken in the partition's order; [k] is the 0-based position of the
    first row of [rows] within its partition. *)
Fixpoint for_each_row_from {A B : Type} (f : nat -> A -> result B)
         (k : nat) (rows : list A) : result (list B) :=
  match rows with
  | [] => Ok []
  | r :: rest =>
      y <- f k r ;;
      ys <- for_each_row_from f (S k) rest ;;
      Ok (y :: ys)
  end.

Definition for_each_row {A B : Type} (f : nat -> A -> result B)
           (rows : list A) : result (list B) :=
  for_each_row_from f 0 rows.

Fixpoint sequence {A : Type} (rs : list (result A)) : result (list A) :=
  match rs with
  | [] => Ok []
  | r :: rest => x <- r ;; xs <- sequence rest ;; Ok (x :: xs)
  end.

(** ** SQL values and operators *)

Definition is_not_null {A : Type} (v : option A) : bool :=
  match v with Some _ => true | None => false end.

(** [v] holds the number [q]. *)
Definition holds (v : option Q) (q : Q) : Prop :=
  match v with Some x => (x == q)%Q | None => False end.

(** The arithmetic operators are strict: NULL in, NULL out. *)
Definition sql_sub (a b : option Q) : option Q :=
  match a, b with
  | Some x, Some y => Some (x - y)%Q
  | _, _ => None
  end.

Definition sql_mul (a b : option Q) : option Q :=
  match a, b with
  | Some x, Some y => Some (x * y)%Q
  | _, _ => None
  end.

(** Division raises on a zero divisor; being strict, it is not evaluated
    at all when an operand is NULL. *)
Definition sql_div (a b : option Q) : result (option Q) :=
  match a, b with
  | Some x, Some y =>
      if Qeq_bool y 0%Q then Raise DivisionByZero else Ok (Some (x / y)%Q)
  | _, _ => Ok None
  end.

Definition NULLIF (a : option Q) (v : Q) : option Q :=
  match a with
  | Some x => if Qeq_bool x v then None else Some x
  | None => None
  end.

(** ** Window frames and aggregates *)

(** The non-null values of a column, in order. *)
Fixpoint values {A : Type} (col : list (option A)) : list A :=
  match col with
  | [] => []
  | Some x :: rest => x :: values rest
  | None :: rest => values rest
  end.

(** [ROWS BETWEEN p PRECEDING AND q PRECEDING] at row [i] of a partition
    ([q = 0] is CURRENT ROW): the rows at positions [i - p .. i - q],
    those before the start of the partition left out. *)
Definition rows_between {A : Type} (p q i : nat) (col : list A) : list A :=
  skipn (i - p) (firstn (S i - q) col).

(** [LAG(col, 1)]: the value on the previous row, NULL on the first. *)
Definition LAG {A : Type} (col : list (option A)) (i : nat) : option A :=
  match i with
  | 0 => None
  | S j => nth j col None
  end.

Definition COUNT {A : Type} (col : list (option A)) : nat :=
  length (values col).

Definition Qsum (xs : list Q) : Q := fold_right Qplus 0%Q xs.

Definition Qcount (xs : list Q) : Q := inject_Z (Z.of_nat (length xs)).

Definition AVG (col : list (option Q)) : option Q :=
  match values col with
  | [] => None
  | xs => Some (Qsum xs / Qcount xs)%Q
  end.

(** Population variance: the mean of the squares minus the square of the
    mean. *)
Definition var_pop (xs : list Q) : Q :=
  (Qsum (map (fun x => x * x)%Q xs) / Qcount xs
   - (Qsum xs / Qcount xs) * (Qsum xs / Qcount xs))%Q.

(** ** Ordering and partitioning *)

(** A stable insertion sort on an integer key: ORDER BY [key]. *)
Fixpoint insert_by {A : Type} (key : A -> Z) (x : A) (l : list A) : list A :=
  match l with
  | [] => [x]
  | y :: rest =>
      if (key x <=? key y)%Z then x :: l else y :: insert_by key x rest
  end.

Definition order_by {A : Type} (key : A -> Z) (l : list A) : list A :=
  fold_right (insert_by key) [] l.

(** PARTITION BY [pkey] ORDER BY [okey]: the partition of key [k]. *)
Definition partition_of {A : Type} (pkey okey : A -> Z) (rows : list A)
           (k : Z) : list A :=
  order_by okey (filter (fun r => (pkey r =? k)%Z) rows).

Definition partition_keys {A : Type} (pkey : A -> Z) (rows : list A) : list Z :=
  nodup Z.eq_dec (map pkey rows).

(** A SELECT whose window functions all run over the same partitioning:
    [f] computes the output rows of one partition. *)
Definition over_partitions {A B : Type} (pkey okey : A -> Z)
           (f : list A -> result (list B)) (rows : list A) : result (list B) :=
  parts <- sequence (map (fun k => f (partition_of pkey okey rows k))
                         (partition_keys pkey rows)) ;;
  Ok (concat parts).

(** ** Tables *)

(** A row of assets; the columns the engine does not read (name, category,
    launch_date, created_at) are left out. *)
Record asset_row : Type := {
  a_asset_id : Z;
  a_symbol : string;
  a_is_active : bool
}.

(** A row of daily_prices, and of the CTE base_data, which selects these
    columns of it (price_id and market_cap_usd are left out).  Dates are
    day numbers. *)
Record price_row : Type := {
  dp_asset_id : Z;
  dp_date : Z;
  dp_open : option Q;
  dp_high : option Q;
  dp_low : option Q;
  dp_close : option Q;
  dp_volume_usd : option Q
}.

(** A row of the CTE with_returns. *)
Record returns_row : Type := {
  wr_asset_id : Z;
  wr_date : Z;
  wr_close : option Q;
  wr_volume_usd : option Q;
  wr_daily_return_pct : option Q;
  wr_daily_range_pct : option Q
}.

(** A row of daily_metrics: the columns the INSERT lists.  The surrogate
    key metric_id, which the table's sequence assigns, is left out. *)
Record metric_row : Type := {
  dm_asset_id : Z;
  dm_date : Z;
  dm_daily_return_pct : option Q;
  dm_daily_range_pct : option Q;
  dm_vol_7d : option Q;
  dm_vol_30d : option Q;
  dm_sma_7 : option Q;
  dm_sma_30 : option Q;
  dm_volume_ratio_30d : option Q
}.

Record database : Type := {
  assets : list asset_row;
  daily_prices : list price_row;
  daily_metrics : list metric_row
}.

(** ** METRICS_SQL *)

(** CTE 1: daily_prices joined with the active assets. *)
Definition base_data (db : database) : list price_row :=
  order_by dp_asset_id
    (order_by dp_date
       (flat_map
          (fun dp =>
             map (fun _ => dp)
                 (filter (fun a => (a_asset_id a =? dp_asset_id dp)%Z
                                   && a_is_active a)
                         (assets db)))
          (daily_prices db))).

(** CTE 2, metric 1, at row [i] of the partition [part]. *)
Definition daily_return_pct (part : list price_row) (i : nat)
           (bd : price_row) : result (option Q) :=
  let lag_close := LAG (map dp_close part) i in
  if is_not_null lag_close
  then d <- sql_div (sql_sub (dp_close bd) lag_close) lag_close ;;
       Ok (sql_mul d (Some 100%Q))
  else Ok None.

(** CTE 2, metric 2. *)
Definition daily_range_pct (bd : price_row) : result (option Q) :=
  if is_not_null (dp_high bd) && is_not_null (dp_low bd)
  then d <- sql_div (sql_sub (dp_high bd) (dp_low bd)) (dp_low bd) ;;
       Ok (sql_mul d (Some 100%Q))
  else Ok None.

Definition with_returns_rows (part : list price_row) : result (list returns_row) :=
  for_each_row
    (fun i bd =>
       ret <- daily_return_pct part i bd ;;
       rng <- daily_range_pct bd ;;
       Ok {| wr_asset_id := dp_asset_id bd;
             wr_date := dp_date bd;
             wr_close := dp_close bd;
             wr_volume_usd := dp_volume_usd bd;
             wr_daily_return_pct := ret;
             wr_daily_range_pct := rng |})
    part.

Definition with_returns (bd : list price_row) : result (list returns_row) :=
  over_partitions dp_asset_id dp_date with_returns_rows bd.

Section Metrics.

Variable sqrt_num : Q -> Q.

Definition STDDEV_POP (col : list (option Q)) : option Q :=
  match values col with
  | [] => None
  | xs => Some (sqrt_num (var_pop xs))
  end.

(** CTE 3, metrics 3 and 4: [n] is 7 or 30, the frame is
    [n - 1] PRECEDING to CURRENT ROW. *)
Definition vol (n : nat) (part : list returns_row) (i : nat) : option Q :=
  let w := rows_between (n - 1) 0 i (map wr_daily_return_pct part) in
  if COUNT w =? n then STDDEV_POP w else None.

(** CTE 3, metrics 5 and 6. *)
Definition sma (n : nat) (part : list returns_row) (i : nat) : option Q :=
  let w := rows_between (n - 1) 0 i (map wr_close part) in
  if COUNT w =? n then AVG w else None.

(** CTE 3, metric 7: the frame is 30 PRECEDING to 1 PRECEDING. *)
Definition volume_ratio_30d (part : list returns_row) (i : nat)
           (wr : returns_row) : result (option Q) :=
  let w := rows_between 30 1 i (map wr_volume_usd part) in
  if COUNT w =? 30
  then sql_div (wr_volume_usd wr) (NULLIF (AVG w) 0%Q)
  else Ok None.

Definition with_all_metrics_rows (part : list returns_row)
  : result (list metric_row) :=
  for_each_row
    (fun i wr =>
       vr <- volume_ratio_30d part i wr ;;
       Ok {| dm_asset_id := wr_asset_id wr;
             dm_date := wr_date wr;
             dm_daily_return_pct := wr_daily_return_pct wr;
             dm_daily_range_pct := wr_daily_range_pct wr;
             dm_vol_7d := vol 7 part i;
             dm_vol_30d := vol 30 part i;
             dm_sma_7 := sma 7 part i;
             dm_sma_30 := sma 30 part i;
             dm_volume_ratio_30d := vr |})
    part.

Definition with_all_metrics (wr : list returns_row) : result (list metric_row) :=
  over_partitions wr_asset_id wr_date with_all_metrics_rows wr.

(** The metrics of one asset's series, the rows ordered by date: CTE 2
    then CTE 3 on a single partition. *)
Definition series_metrics (series : list price_row) : result (list metric_row) :=
  wr <- with_returns_rows series ;;
  with_all_metrics_rows wr.

(** The rows the statement inserts into daily_metrics. *)
Definition METRICS_SQL (db : database) : result (list metric_row) :=
  wr <- with_returns (base_data db) ;;
  wam <- with_all_metrics wr ;;
  Ok (order_by dm_asset_id (order_by dm_date wam)).

End Metrics.

(** ** The auditor's query *)

Record validation_row : Type := {
  v_symbol : string;
  v_asset_id : Z;
  total_rows : nat;
  null_return : nat;
  null_range : nat;
  null_vol7 : nat;
  null_vol30 : nat;
  null_sma7 : nat;
  null_sma30 : nat;
  null_volratio : nat
}.

(** [COUNT( * ) - COUNT(col)] over the rows of a group. *)
Definition null_count (col : metric_row -> option Q)
           (group : list metric_row) : nat :=
  length group - COUNT (map col group).

Definition group_key_dec (k1 k2 : string * Z) : {k1 = k2} + {k1 <> k2}.
Proof. decide equality; [apply Z.eq_dec | apply string_dec]. Defined.

Definition validation_sql (db : database) : list validation_row :=
  let joined :=
    flat_map
      (fun dm =>
         map (fun a => (a_symbol a, dm))
             (filter (fun a => (a_asset_id a =? dm_asset_id dm)%Z) (assets db)))
      (daily_metrics db) in
  let key := fun p : string * metric_row => (fst p, dm_asset_id (snd p)) in
  let groups := order_by snd (nodup group_key_dec (map key joined)) in
  map (fun k =>
         let g := map snd
                      (filter (fun p => if group_key_dec (key p) k
                                        then true else false) joined) in
         {| v_symbol := fst k;
            v_asset_id := snd k;
            total_rows := length g;
            null_return := null_count dm_daily_return_pct g;
            null_range := null_count dm_daily_range_pct g;
            null_vol7 := null_count dm_vol_7d g;
            null_vol30 := null_count dm_vol_30d g;
            null_sma7 := null_count dm_sma_7 g;
            null_sma30 := null_count dm_sma_30 g;
            null_volratio := null_count dm_volume_ratio_30d g |})
      groups.

(** ** The process: server, connection and log *)

Inductive log_level : Type := INFO | WARNING | ERROR.

Inductive log_arg : Type :=
| arg_s (s : string)
| arg_d (n : Z).

Record log_record : Type := {
  level : log_level;
  msg : string;
  args : list log_arg
}.

(** A connection with [autocommit = False]: [txn] is the database as the
    open transaction sees it. *)
Record connection : Type := {
  txn : database;
  closed : bool
}.

(** [server] is the committed state of the database; [conn] is the
    variable of that name in [main], [None] until a connection is made. *)
Record world : Type := {
  server : database;
  conn : option connection;
  log : list log_record
}.

(** What makes a call to the server fail for a reason the model does not
    derive from the data (a lost connection, a constraint or a declared
    precision violated, an interrupt): one entry per call that reaches the
    server, [None] when the call goes through. *)
Record environment : Type := {
  connect_error : option exn;
  delete_error : option exn;
  insert_error : option exn;
  commit_error : option exn;
  rollback_error : option exn;
  select_error : option exn
}.

Definition M (A : Type) : Type := world -> result A * world.

Definition ret {A : Type} (a : A) : M A := fun w => (Ok a, w).

Definition raise {A : Type} (e : exn) : M A := fun w => (Raise e, w).

Definition mbind {A B : Type} (m : M A) (k : A -> M B) : M B :=
  fun w =>
    match m w with
    | (Ok a, w') => k a w'
    | (Raise e, w') => (Raise e, w')
    end.

(** [try: body except Exception: handler e] *)
Definition try_except {A : Type} (body : M A) (handler : exn -> M A) : M A :=
  fun w =>
    match body w with
    | (Ok a, w') => (Ok a, w')
    | (Raise e, w') => if is_Exception e then handler e w' else (Raise e, w')
    end.

(** [try: body finally: final]; an exception raised by [final] replaces
    the outcome of [body]. *)
Definition try_finally {A : Type} (body : M A) (final : M unit) : M A :=
  fun w =>
    match body w with
    | (r, w') =>
        match final w' with
        | (Ok _, w'') => (r, w'')
        | (Raise e, w'') => (Raise e, w'')
        end
    end.

Declare Scope py_scope.
Delimit Scope py_scope with py.
Notation "x <- c ;; k" := (mbind c (fun x => k))
  (at level 61, c at next level, right associativity) : py_scope.
Notation "c ;; k" := (mbind c (fun _ => k))
  (at level 61, right associativity) : py_scope.
Local Open Scope py_scope.
Local Open Scope string_scope.

Definition logger (lv : log_level) (m : string) (a : list log_arg) : M unit :=
  fun w => (Ok tt, {| server := server w; conn := conn w;
                      log := (log w ++ [{| level := lv; msg := m; args := a |}])%list |}).

Definition set_conn (c : connection) : M unit :=
  fun w => (Ok tt, {| server := server w; conn := Some c; log := log w |}).

(** The open connection behind a call; a closed one raises. *)
Definition the_connection : M connection :=
  fun w =>
    match conn w with
    | Some c => if closed c then (Raise InterfaceError, w) else (Ok c, w)
    | None => (Raise InterfaceError, w)
    end.

Definition fault (err : option exn) : M unit :=
  match err with
  | Some e => raise e
  | None => ret tt
  end.

Definition lift {A : Type} (r : result A) : M A := fun w => (r, w).

Definition with_daily_metrics (db : database) (rows : list metric_row) : database :=
  {| assets := assets db; daily_prices := daily_prices db; daily_metrics := rows |}.

Fixpoint str_mul (s : string) (n : nat) : string :=
  match n with
  | 0 => ""
  | S k => s ++ str_mul s k
  end.

Definition d (n : nat) : log_arg := arg_d (Z.of_nat n).

Section Program.

Variable sqrt_num : Q -> Q.
Variable env : environment.

(** The connection parameters come from the process environment, which is
    not modelled: the log line is kept without its four arguments. *)
Definition get_db_connection : M unit :=
  fault (connect_error env) ;;
  w <- (fun w => (Ok w, w)) ;;
  set_conn {| txn := server w; closed := false |} ;;
  logger INFO "Connected to PostgreSQL: %s@%s:%s/%s" [].

(** [conn.cursor()] *)
Definition cursor : M unit :=
  c <- the_connection ;; ret tt.

(** [cur.execute("DELETE FROM daily_metrics;")], then [cur.rowcount]. *)
Definition execute_delete : M nat :=
  c <- the_connection ;;
  fault (delete_error env) ;;
  set_conn {| txn := with_daily_metrics (txn c) []; closed := false |} ;;
  ret (length (daily_metrics (txn c))).

(** [cur.execute(METRICS_SQL)], then [cur.rowcount]. *)
Definition execute_metrics : M nat :=
  c <- the_connection ;;
  fault (insert_error env) ;;
  rows <- lift (METRICS_SQL sqrt_num (txn c)) ;;
  set_conn {| txn := with_daily_metrics (txn c) (daily_metrics (txn c) ++ rows)%list;
              closed := false |} ;;
  ret (length rows).

(** [cur.execute(validation_sql)], then [cur.fetchall()]. *)
Definition execute_validation : M (list validation_row) :=
  c <- the_connection ;;
  fault (select_error env) ;;
  ret (validation_sql (txn c)).

(** [conn.commit()]: the transaction becomes the committed state. *)
Definition commit : M unit :=
  c <- the_connection ;;
  fault (commit_error env) ;;
  fun w => (Ok tt, {| server := txn c; conn := conn w; log := log w |}).

(** [conn.rollback()]: the transaction is abandoned.  The call goes to
    the server, and raises when the connection has been lost. *)
Definition rollback : M unit :=
  c <- the_connection ;;
  fault (rollback_error env) ;;
  w <- (fun w => (Ok w, w)) ;;
  set_conn {| txn := server w; closed := false |}.

(** [conn.close()]: closing discards the open transaction; closing twice
    is allowed. *)
Definition close : M unit :=
  fun w =>
    match conn w with
    | Some c => (Ok tt, {| server := server w;
                           conn := Some {| txn := server w; closed := true |};
                           log := log w |})
    | None => (Raise InterfaceError, w)
    end.

Definition compute_metrics : M nat :=
  cursor ;;
  logger INFO "Deleting existing rows from daily_metrics..." [] ;;
  deleted <- execute_delete ;;
  logger INFO "Deleted %d existing rows from daily_metrics." [d deleted] ;;
  logger INFO "Computing all 7 metrics via SQL CTE chain..." [] ;;
  inserted <- execute_metrics ;;
  logger INFO "Inserted %d rows into daily_metrics." [d inserted] ;;
  commit ;;
  ret inserted.

(** One test of the loop body: [if got != expected: warn; all_ok = False]. *)
Definition expect (symbol : string) (expected got : nat) (m : string)
           (all_ok : bool) : M bool :=
  if negb (got =? expected)%nat
  then logger WARNING m [arg_s symbol; d got] ;; ret false
  else ret all_ok.

Definition audit_row (row : validation_row) (all_ok : bool) : M bool :=
  let symbol := v_symbol row in
  logger INFO "%-6s %5d %6d %6d %6d %6d %6d %6d %6d"
         [arg_s symbol; d (total_rows row); d (null_return row);
          d (null_range row); d (null_vol7 row); d (null_vol30 row);
          d (null_sma7 row); d (null_sma30 row); d (null_volratio row)] ;;
  ok <- expect symbol 1 (null_return row)
          "  %s: Expected 1 NULL for daily_return_pct, got %d" all_ok ;;
  ok <- expect symbol 0 (null_range row)
          "  %s: Expected 0 NULLs for daily_range_pct, got %d" ok ;;
  ok <- expect symbol 7 (null_vol7 row)
          "  %s: Expected 7 NULLs for vol_7d, got %d" ok ;;
  ok <- expect symbol 30 (null_vol30 row)
          "  %s: Expected 30 NULLs for vol_30d, got %d" ok ;;
  ok <- expect symbol 6 (null_sma7 row)
          "  %s: Expected 6 NULLs for sma_7, got %d" ok ;;
  ok <- expect symbol 29 (null_sma30 row)
          "  %s: Expected 29 NULLs for sma_30, got %d" ok ;;
  expect symbol 30 (null_volratio row)
         "  %s: Expected 30 NULLs for volume_ratio_30d, got %d" ok.

Fixpoint audit_rows (rows : list validation_row) (all_ok : bool) : M bool :=
  match rows with
  | [] => ret all_ok
  | row :: rest => ok <- audit_row row all_ok ;; audit_rows rest ok
  end.

Definition log_validation_summary : M unit :=
  cursor ;;
  rows <- execute_validation ;;
  logger INFO (str_mul "-" 72) [] ;;
  logger INFO "NULL Waterfall Validation (expected: ret=1, rng=0, v7=7, v30=30, s7=6, s30=29, vr=30)" [] ;;
  logger INFO "%-6s %5s %6s %6s %6s %6s %6s %6s %6s"
         (map arg_s ["Symbol"; "Total"; "Ret"; "Rng"; "Vol7"; "Vol30";
                     "SMA7"; "SMA30"; "VolR"]) ;;
  logger INFO (str_mul "-" 72) [] ;;
  all_ok <- audit_rows rows true ;;
  if all_ok
  then logger INFO "NULL waterfall validation PASSED for all assets." []
  else logger WARNING "NULL waterfall validation had WARNINGS -- review output above." [].

Definition conn_is_not_None : M bool :=
  fun w => (Ok (is_not_null (conn w)), w).

(** The timing lines of [main] read the clock and are left out. *)
Definition main : M unit :=
  logger INFO (str_mul "=" 72) [] ;;
  logger INFO "Compute Daily Metrics Pipeline" [] ;;
  logger INFO (str_mul "=" 72) [] ;;
  logger INFO "Strategy: DELETE + INSERT (full recompute) in a single transaction" [] ;;
  logger INFO "Method  : SQL CTE chain with PostgreSQL window functions" [] ;;
  logger INFO "Metrics : daily_return_pct, daily_range_pct, vol_7d, vol_30d, sma_7, sma_30, volume_ratio_30d" [] ;;
  try_finally
    (try_except
       (get_db_connection ;;
        rows_inserted <- compute_metrics ;;
        logger INFO (str_mul "-" 72) [] ;;
        logger INFO "Metrics computation complete." [] ;;
        logger INFO "  Rows inserted : %d" [d rows_inserted] ;;
        log_validation_summary ;;
        logger INFO (str_mul "=" 72) [] ;;
        logger INFO "Pipeline finished successfully." [])
       (fun e =>
          logger ERROR "Fatal error during metrics computation." [] ;;
          some <- conn_is_not_None ;;
          (if some then rollback else ret tt) ;;
          raise e))
    (some <- conn_is_not_None ;;
     if some
     then close ;; logger INFO "Database connection closed." []
     else ret tt).

(** A run of the program against a server holding [db]. *)
Definition run (db : database) : result unit * world :=
  main {| server := db; conn := None; log := [] |}.

End Program.

(** * The vocabulary of the statements *)

Local Close Scope string_scope.
Local Close Scope py_scope.

(** ** Columns and series *)

(** A column that is NULL on its first [k] rows and nowhere else. *)
Definition null_before {A : Type} (k : nat) (col : list (option A)) : Prop :=
  forall j v, nth_error col j = Some v -> is_not_null v = (k <=? j).

Definition upstream_present (r : price_row) : Prop :=
  is_not_null (dp_close r) = true /\ is_not_null (dp_volume_usd r) = true
  /\ is_not_null (dp_high r) = true /\ is_not_null (dp_low r) = true.

Definition all_present (r : price_row) : Prop :=
  is_not_null (dp_open r) = true /\ upstream_present r.

(** No 30 consecutive rows of the series have volumes of mean 0. *)
Definition volume_means_nonzero (series : list price_row) : Prop :=
  forall i, 30 <= i -> i < length series ->
            ~ holds (AVG (rows_between 30 1 i (map dp_volume_usd series))) 0.

(** The price series of an asset as the statement sees it: the asset's
    rows of base_data, ordered by date. *)
Definition price_series (db : database) (a : Z) : list price_row :=
  partition_of dp_asset_id dp_date (base_data db) a.

(** The price series of an asset, read off daily_prices. *)
Definition asset_series (db : database) (a : Z) : list price_row :=
  order_by dp_date (filter (fun dp => (dp_asset_id dp =? a)%Z) (daily_prices db)).

(** The rows of daily_metrics of one asset. *)
Definition asset_metrics (rows : list metric_row) (a : Z) : list metric_row :=
  filter (fun m => (dm_asset_id m =? a)%Z) rows.

(** The null counts the auditor expects. *)
Definition expected_null_counts (ms : list metric_row) : Prop :=
  null_count dm_daily_return_pct ms = 1
  /\ null_count dm_vol_7d ms = 7
  /\ null_count dm_vol_30d ms = 30
  /\ null_count dm_sma_7 ms = 6
  /\ null_count dm_sma_30 ms = 29
  /\ null_count dm_volume_ratio_30d ms = 30
  /\ null_count dm_daily_range_pct ms = 0.

(** ** Runs *)

(** A full recompute over a fresh connection to a server that holds [db]:
    the row count returned and the database as committed. *)
Definition recompute (sqrt_num : Q -> Q) (env : environment) (db : database)
  : result (nat * database) :=
  match compute_metrics sqrt_num env
          {| server := db; conn := Some {| txn := db; closed := false |};
             log := [] |} with
  | (Ok n, w) => Ok (n, server w)
  | (Raise e, _) => Raise e
  end.

(** The delete step or the regenerate step of a run fails with [e]. *)
Definition mutation_fails (sqrt_num : Q -> Q) (env : environment)
           (db : database) (e : exn) : Prop :=
  connect_error env = None
  /\ (delete_error env = Some e
      \/ (delete_error env = None /\ insert_error env = Some e)
      \/ (delete_error env = None /\ insert_error env = None
          /\ METRICS_SQL sqrt_num db = Raise e)).

(** What a run raises when a call made after the connection is
    established raises [e]: the handler of [main] rolls back and re-raises,
    unless the rollback raises in its turn. *)
Definition reraised (env : environment) (e : exn) : result unit :=
  if is_Exception e
  then match rollback_error env with
       | Some e' => Raise e'
       | None => Raise e
       end
  else Raise e.

(** No connection is left open. *)
Definition released (w : world) : Prop :=
  match conn w with
  | Some c => closed c = true
  | None => True
  end.

(** The auditor's seven tests on one row of its query. *)
Definition row_matches (row : validation_row) : bool :=
  (null_return row =? 1) && (null_range row =? 0) && (null_vol7 row =? 7)
  && (null_vol30 row =? 30) && (null_sma7 row =? 6) && (null_sma30 row =? 29)
  && (null_volratio row =? 30).

Definition summary_line (all_ok : bool) : log_record :=
  if all_ok
  then {| level := INFO;
          msg := "NULL waterfall validation PASSED for all assets.";
          args := [] |}
  else {| level := WARNING;
          msg := "NULL waterfall validation had WARNINGS -- review output above.";
          args := [] |}.

(** ** The statements of the specification that need amending *)

(** Consecutive calendar days. *)
Fixpoint consecutive (days : list Z) : bool :=
  match days with
  | d1 :: ((d2 :: _) as rest) => (d2 =? d1 + 1)%Z && consecutive rest
  | _ => true
  end.

Definition gapless (series : list price_row) : bool :=
  consecutive (map dp_date series).

(** The boundaries as the specification gives them. *)
Definition warm_up_as_specified (sqrt_num : Q -> Q) (series : list price_row)
  : Prop :=
  forall ms, series_metrics sqrt_num series = Ok ms ->
  forall i m, nth_error ms i = Some m ->
    (is_not_null (dm_vol_7d m) = true <-> 6 <= i)
    /\ (is_not_null (dm_sma_7 m) = true <-> 6 <= i)
    /\ (is_not_null (dm_vol_30d m) = true <-> 29 <= i)
    /\ (is_not_null (dm_sma_30 m) = true <-> 29 <= i).

(** The scenario as the specification gives it. *)
Definition constant_series_as_specified (sqrt_num : Q -> Q)
           (series : list price_row) : Prop :=
  forall ms, series_metrics sqrt_num series = Ok ms ->
  forall i m, nth_error ms i = Some m ->
    (1 <= i -> holds (dm_daily_return_pct m) 0)
    /\ (6 <= i -> holds (dm_vol_7d m) 0)
    /\ (29 <= i -> holds (dm_vol_30d m) 0)
    /\ (6 <= i -> holds (dm_sma_7 m) 100)
    /\ (29 <= i -> holds (dm_sma_30 m) 100)
    /\ (30 <= i -> holds (dm_volume_ratio_30d m) 1).

(** Atomicity as the specification gives it. *)
Definition all_or_nothing_as_specified (sqrt_num : Q -> Q)
           (env : environment) (db : database) : Prop :=
  forall e, mutation_fails sqrt_num env db e ->
            fst (run sqrt_num env db) = Raise e
            /\ server (snd (run sqrt_num env db)) = db
            /\ released (snd (run sqrt_num env db)).

(** The counts as the specification gives them. *)
Definition null_counts_as_specified (sqrt_num : Q -> Q) (env : environment)
           (db : database) : Prop :=
  forall n db' a,
    recompute sqrt_num env db = Ok (n, db') ->
    In a (assets db) -> a_is_active a = true ->
    37 <= length (asset_series db (a_asset_id a)) ->
    gapless (asset_series db (a_asset_id a)) = true ->
    Forall all_present (asset_series db (a_asset_id a)) ->
    expected_null_counts (asset_metrics (daily_metrics db') (a_asset_id a)).

(** ** Keys *)

(** The key (asset_id, date) of a price row and of a metrics row: the
    UNIQUE constraint of either table. *)
Definition price_key (r : price_row) : Z * Z := (dp_asset_id r, dp_date r).

Definition metric_key (m : metric_row) : Z * Z := (dm_asset_id m, dm_date m).

(** ORDER BY asset_id, date on keys. *)
Definition key_le (k1 k2 : Z * Z) : Prop :=
  (fst k1 < fst k2)%Z \/ (fst k1 = fst k2 /\ (snd k1 <= snd k2)%Z).

(** The asset of a price row is active. *)
Definition of_active_asset (db : database) (dp : price_row) : bool :=
  existsb (fun a => (a_asset_id a =? dp_asset_id dp)%Z && a_is_active a)
          (assets db).

(** The price rows the statement reads. *)
Definition active_prices (db : database) : list price_row :=
  filter (of_active_asset db) (daily_prices db).

(** ** Reading the log *)

Definition is_warning (r : log_record) : bool :=
  match level r with
  | WARNING => true
  | _ => false
  end.

(** The number of WARNING records of a log. *)
Definition warnings (l : list log_record) : nat :=
  length (filter is_warning l).

(** The number of tests of the auditor's loop body a row fails. *)
Definition failed_tests (row : validation_row) : nat :=
  (if null_return row =? 1 then 0 else 1)
  + (if null_range row =? 0 then 0 else 1)
  + (if null_vol7 row =? 7 then 0 else 1)
  + (if null_vol30 row =? 30 then 0 else 1)
  + (if null_sma7 row =? 6 then 0 else 1)
  + (if null_sma30 row =? 29 then 0 else 1)
  + (if null_volratio row =? 30 then 0 else 1).

(** No call to the server fails for a reason of its own. *)
Definition fault_free (env : environment) : Prop :=
  connect_error env = None /\ delete_error env = None
  /\ insert_error env = None /\ commit_error env = None
  /\ select_error env = None.

Definition key_eq_dec (k1 k2 : Z * Z) : {k1 = k2} + {k1 <> k2}.
Proof. decide equality; apply Z.eq_dec. Defined.

(** ** Example data *)

(** The rows a successful statement returns. *)
Definition rows_of {A : Type} (r : result (list A)) : list A :=
  match r with
  | Ok rows => rows
  | Raise _ => []
  end.

(** An instance of the square-root parameter: the root rounded down to six
    decimal places. *)
Definition sqrt_6dp (q : Q) : Q :=
  (Z.sqrt (Qnum q * 10 ^ 12 / Zpos (Qden q)) # 1000000)%Q.

Definition flat_row (a : Z) (price volume : option Q) (day : nat) : price_row :=
  {| dp_asset_id := a; dp_date := Z.of_nat day;
     dp_open := price; dp_high := price; dp_low := price; dp_close := price;
     dp_volume_usd := volume |}.

(** [n] consecutive days at a constant price and volume. *)
Definition flat_series (a : Z) (price volume : Q) (n : nat) : list price_row :=
  map (flat_row a (Some price) (Some volume)) (seq 0 n).

Definition no_faults : environment :=
  {| connect_error := None; delete_error := None; insert_error := None;
     commit_error := None; rollback_error := None; select_error := None |}.

(** The connection is lost while the INSERT runs: the statement raises,
    and so does the rollback that follows. *)
Definition connection_lost : environment :=
  {| connect_error := None; delete_error := None;
     insert_error := Some (OperationalError 1); commit_error := None;
     rollback_error := Some InterfaceError; select_error := None |}.

Definition stale_row (a : Z) : metric_row :=
  {| dm_asset_id := a; dm_date := 0;
     dm_daily_return_pct := Some 1%Q; dm_daily_range_pct := Some 1%Q;
     dm_vol_7d := Some 1%Q; dm_vol_30d := Some 1%Q;
     dm_sma_7 := Some 1%Q; dm_sma_30 := Some 1%Q;
     dm_volume_ratio_30d := Some 1%Q |}.

Definition btc : asset_row :=
  {| a_asset_id := 1; a_symbol := "BTC"; a_is_active := true |}.

Definition eth : asset_row :=
  {| a_asset_id := 2; a_symbol := "ETH"; a_is_active := false |}.

Definition two_assets : list asset_row := [btc; eth].

(** An active asset with 40 complete days, an inactive one with 5, and
    metrics left from an earlier run for both. *)
Definition flat_db : database :=
  {| assets := two_assets;
     daily_prices := flat_series 1 100 1000 40 ++ flat_series 2 50 10 5;
     daily_metrics := [stale_row 1; stale_row 2] |}.

(** As [flat_db], the active asset having 9 days only. *)
Definition short_db : database :=
  {| assets := two_assets;
     daily_prices := flat_series 1 100 1000 9;
     daily_metrics := [stale_row 1; stale_row 2] |}.

(** As [flat_db], the low of the active asset being 0 on every day. *)
Definition zero_low_db : database :=
  {| assets := two_assets;
     daily_prices :=
       map (fun day =>
              {| dp_asset_id := 1; dp_date := Z.of_nat day;
                 dp_open := Some 100%Q; dp_high := Some 100%Q;
                 dp_low := Some 0%Q; dp_close := Some 100%Q;
                 dp_volume_usd := Some 1000%Q |}) (seq 0 40);
     daily_metrics := [stale_row 1; stale_row 2] |}.

(** As [flat_db], with 37 days and no volume traded on any of them. *)
Definition zero_volume_db : database :=
  {| assets := two_assets;
     daily_prices := flat_series 1 100 0 37;
     daily_metrics := [] |}.

(** The rows the statement computes on [flat_db] and on [short_db]. *)
Definition flat_db_rows : list metric_row :=
  Eval vm_compute in rows_of (METRICS_SQL sqrt_6dp flat_db).

Definition short_db_rows : list metric_row :=
  Eval vm_compute in rows_of (METRICS_SQL sqrt_6dp short_db).

Definition zero_volume_db_rows : list metric_row :=
  Eval vm_compute in rows_of (METRICS_SQL sqrt_6dp zero_volume_db).

Definition row_35 : metric_row :=
  Eval vm_compute in nth 35 flat_db_rows (stale_row 0).

(** ** More example data *)

(** Prices rising by 1 a day from 100, the high 2 above the close and the
    low 1 below it, the volume rising by 10 a day from 1000. *)
Definition ramp_row (a : Z) (day : nat) : price_row :=
  {| dp_asset_id := a; dp_date := Z.of_nat day;
     dp_open := Some (inject_Z (100 + Z.of_nat day));
     dp_high := Some (inject_Z (102 + Z.of_nat day));
     dp_low := Some (inject_Z (99 + Z.of_nat day));
     dp_close := Some (inject_Z (100 + Z.of_nat day));
     dp_volume_usd := Some (inject_Z (1000 + 10 * Z.of_nat day)) |}.

Definition ramp_series (a : Z) (n : nat) : list price_row :=
  map (ramp_row a) (seq 0 n).

(** A day on which nothing was recorded but the date. *)
Definition blank_row (a : Z) (day : nat) : price_row :=
  {| dp_asset_id := a; dp_date := Z.of_nat day;
     dp_open := None; dp_high := None; dp_low := None; dp_close := None;
     dp_volume_usd := None |}.

(** 40 days of rising prices, day 10 blank. *)
Definition holed_series : list price_row :=
  ramp_series 1 10 ++ [blank_row 1 10] ++ map (ramp_row 1) (seq 11 29).

(** The rising prices under another asset, every other day, without the
    opening prices. *)
Definition every_other_day (r : price_row) : price_row :=
  {| dp_asset_id := 7; dp_date := 2 * dp_date r;
     dp_open := None; dp_high := dp_high r; dp_low := dp_low r;
     dp_close := dp_close r; dp_volume_usd := dp_volume_usd r |}.

Definition ramp_rows : list metric_row :=
  Eval vm_compute in rows_of (series_metrics sqrt_6dp (ramp_series 1 40)).

Definition holed_rows : list metric_row :=
  Eval vm_compute in rows_of (series_metrics sqrt_6dp holed_series).

Definition short_rows : list metric_row :=
  Eval vm_compute in
    rows_of (series_metrics sqrt_6dp (flat_series 1 100 1000 9)).

Definition ramp_price_1 : price_row := Eval vm_compute in ramp_row 1 1.

Definition ramp_metric_1 : metric_row :=
  Eval vm_compute in nth 1 ramp_rows (stale_row 0).

Definition holed_metric_16 : metric_row :=
  Eval vm_compute in nth 16 holed_rows (stale_row 0).

Definition holed_metric_35 : metric_row :=
  Eval vm_compute in nth 35 holed_rows (stale_row 0).

(** [flat_db] without the prices of the inactive asset. *)
Definition btc_only_db : database :=
  {| assets := two_assets;
     daily_prices := flat_series 1 100 1000 40;
     daily_metrics := [] |}.

(** [flat_db] with the prices of the inactive asset only. *)
Definition inactive_only_db : database :=
  {| assets := two_assets;
     daily_prices := flat_series 2 50 10 5;
     daily_metrics := [stale_row 2] |}.

(** The server cannot be reached. *)
Definition no_server : environment :=
  {| connect_error := Some (OperationalError 2); delete_error := None;
     insert_error := None; commit_error := None;
     rollback_error := Some InterfaceError; select_error := None |}.


(** The auditor's query fails. *)
Definition select_fails : environment :=
  {| connect_error := None; delete_error := None; insert_error := None;
     commit_error := None; rollback_error := None;
     select_error := Some (OperationalError 4) |}.

(** A connection that sees the metrics computed on [short_db]. *)
Definition short_db_world : world :=
  {| server := with_daily_metrics short_db short_db_rows;
     conn := Some {| txn := with_daily_metrics short_db short_db_rows;
                     closed := false |};
     log := [] |}.

(** * Properties *)

(** ** Row-by-row evaluation *)

Lemma bind_Ok {A B : Type} (r : result A) (k : A -> result B) (b : B) :
  bind r k = Ok b -> exists a, r = Ok a /\ k a = Ok b.
Proof.
  destruct r as [a|e]; simpl; intros H; [eauto | discriminate].
Qed.

Ltac inv_bind H :=
  let x := fresh "x" in
  let Hx := fresh "Hx" in
  apply bind_Ok in H; destruct H as (x & Hx & H).

Lemma for_each_row_from_nth {A B : Type} (f : nat -> A -> result B) :
  forall rows k out,
    for_each_row_from f k rows = Ok out ->
    forall i, match nth_error rows i, nth_error out i with
              | Some r, Some o => f (k + i) r = Ok o
              | None, None => True
              | _, _ => False
              end.
Proof.
  induction rows as [|r rest IH]; intros k out H i.
  - injection H as <-. destruct i; exact I.
  - simpl in H. inv_bind H. inv_bind H. injection H as <-.
    destruct i as [|i]; simpl.
    + now rewrite Nat.add_0_r.
    + specialize (IH _ _ Hx0 i). now rewrite Nat.add_succ_r.
Qed.

Lemma for_each_row_nth {A B : Type} (f : nat -> A -> result B) rows out :
  for_each_row f rows = Ok out ->
  forall i o, nth_error out i = Some o ->
              exists r, nth_error rows i = Some r /\ f i r = Ok o.
Proof.
  intros H i o Ho. pose proof (for_each_row_from_nth _ _ _ _ H i) as Hi.
  rewrite Ho in Hi. destruct (nth_error rows i) as [r|]; [eauto | contradiction].
Qed.

Lemma for_each_row_length {A B : Type} (f : nat -> A -> result B) rows out :
  for_each_row f rows = Ok out -> length out = length rows.
Proof.
  unfold for_each_row. generalize 0. revert out.
  induction rows as [|r rest IH]; intros out k H.
  - injection H as <-. reflexivity.
  - simpl in H. inv_bind H. inv_bind H. injection H as <-. simpl.
    f_equal; eauto.
Qed.

(** A column the SELECT list copies from its input. *)
Lemma for_each_row_map {A B C : Type} (f : nat -> A -> result B)
      (g : B -> C) (h : A -> C) :
  (forall i r o, f i r = Ok o -> g o = h r) ->
  forall rows out, for_each_row f rows = Ok out -> map g out = map h rows.
Proof.
  intros Hf rows out H. unfold for_each_row in H. revert H.
  generalize 0. revert out.
  induction rows as [|r rest IH]; intros out k H.
  - injection H as <-. reflexivity.
  - simpl in H. inv_bind H. inv_bind H. injection H as <-. simpl.
    f_equal; eauto.
Qed.

Lemma for_each_row_In {A B : Type} (f : nat -> A -> result B) rows out o :
  for_each_row f rows = Ok out -> In o out ->
  exists i r, nth_error rows i = Some r /\ nth_error out i = Some o
              /\ f i r = Ok o.
Proof.
  intros H Ho. apply In_nth_error in Ho. destruct Ho as (i & Hi).
  destruct (for_each_row_nth _ _ _ H _ _ Hi) as (r & Hr & Hf). eauto.
Qed.

(** ** Counting the non-null values of a frame *)

Lemma values_app {A : Type} (l1 l2 : list (option A)) :
  values (l1 ++ l2) = values l1 ++ values l2.
Proof.
  induction l1 as [|[x|] l1 IH]; simpl; [reflexivity | now rewrite IH | exact IH].
Qed.

Lemma COUNT_cons {A : Type} (v : option A) (l : list (option A)) :
  COUNT (v :: l) = (if is_not_null v then 1 else 0) + COUNT l.
Proof. destruct v; reflexivity. Qed.

Lemma COUNT_app {A : Type} (l1 l2 : list (option A)) :
  COUNT (l1 ++ l2) = COUNT l1 + COUNT l2.
Proof. unfold COUNT. now rewrite values_app, length_app. Qed.

Lemma COUNT_le_length {A : Type} (l : list (option A)) : COUNT l <= length l.
Proof.
  induction l as [|v l IH]; [apply Nat.le_refl|].
  rewrite COUNT_cons. simpl. destruct (is_not_null v); lia.
Qed.

Lemma COUNT_full {A : Type} (l : list (option A)) :
  COUNT l = length l <-> Forall (fun v => is_not_null v = true) l.
Proof.
  induction l as [|v l IH].
  - split; [constructor | reflexivity].
  - rewrite COUNT_cons. simpl. pose proof (COUNT_le_length l) as Hle. split.
    + intros H. destruct v; simpl in *; [|lia].
      constructor; [reflexivity | apply IH; lia].
    + intros H. inversion H as [|? ? Hv Hl]; subst. rewrite Hv.
      apply IH in Hl. lia.
Qed.

Lemma COUNT_skipn {A : Type} (a : nat) (l : list (option A)) :
  COUNT (skipn a l) = COUNT l - COUNT (firstn a l).
Proof.
  rewrite <- (firstn_skipn a l) at 2. rewrite COUNT_app. lia.
Qed.

Lemma In_values {A : Type} (x : A) (l : list (option A)) :
  In x (values l) <-> In (Some x) l.
Proof.
  induction l as [|[y|] l IH]; simpl.
  - tauto.
  - rewrite IH. split; intros [H|H]; auto; left; congruence.
  - rewrite IH. split; [auto | intros [H|H]; [discriminate | exact H]].
Qed.

Lemma In_firstn {A : Type} (n : nat) (l : list A) (x : A) :
  In x (firstn n l) -> In x l.
Proof.
  intros H. rewrite <- (firstn_skipn n l). apply in_or_app. now left.
Qed.

Lemma In_skipn {A : Type} (n : nat) (l : list A) (x : A) :
  In x (skipn n l) -> In x l.
Proof.
  intros H. rewrite <- (firstn_skipn n l). apply in_or_app. now right.
Qed.

Lemma length_rows_between {A : Type} (p q i : nat) (col : list A) :
  length (rows_between p q i col) = Nat.min (S i - q) (length col) - (i - p).
Proof. unfold rows_between. now rewrite length_skipn, length_firstn. Qed.

Lemma In_rows_between {A : Type} (p q i : nat) (col : list A) (x : A) :
  In x (rows_between p q i col) -> In x col.
Proof.
  unfold rows_between. intros H.
  apply (In_firstn (S i - q)). revert H. apply In_skipn.
Qed.

(** The current row is the last row of a frame that ends at CURRENT ROW. *)
Lemma current_row_in_frame {A : Type} (p i : nat) (col : list A) (x : A) :
  nth_error col i = Some x -> In x (rows_between p 0 i col).
Proof.
  intros H. apply (nth_error_In _ (i - (i - p))).
  unfold rows_between. rewrite nth_error_skipn, nth_error_firstn.
  replace (i - p + (i - (i - p))) with i by lia.
  replace (i <? S i - 0) with true; [exact H|].
  symmetry. apply Nat.ltb_lt. lia.
Qed.

(** A frame of [n] rows ending at the current row holds [n] non-null
    values only if it lies within the partition and has no NULL. *)
Lemma COUNT_frame_full {A : Type} (n i : nat) (col : list (option A)) :
  0 < n ->
  COUNT (rows_between (n - 1) 0 i col) = n ->
  n - 1 <= i /\ i < length col
  /\ length (rows_between (n - 1) 0 i col) = n
  /\ Forall (fun v => is_not_null v = true) (rows_between (n - 1) 0 i col).
Proof.
  intros Hn H.
  pose proof (COUNT_le_length (rows_between (n - 1) 0 i col)) as Hle.
  pose proof (length_rows_between (n - 1) 0 i col) as Hlen.
  assert (Hl : length (rows_between (n - 1) 0 i col) = n) by lia.
  repeat split; try lia.
  apply COUNT_full. lia.
Qed.

(** The frame of the last [m] rows is the tail of the frame of the last
    [n] rows, for [m <= n]. *)
Lemma rows_between_narrow {A : Type} (m n i : nat) (col : list A) :
  0 < m -> m <= n -> n - 1 <= i ->
  rows_between (m - 1) 0 i col = skipn (n - m) (rows_between (n - 1) 0 i col).
Proof.
  intros Hm Hmn Hi. unfold rows_between. rewrite skipn_skipn.
  f_equal. lia.
Qed.

Lemma COUNT_frame_narrow {A : Type} (m n i : nat) (col : list (option A)) :
  0 < m -> m <= n ->
  COUNT (rows_between (n - 1) 0 i col) = n ->
  COUNT (rows_between (m - 1) 0 i col) = m.
Proof.
  intros Hm Hmn H.
  destruct (COUNT_frame_full n i col ltac:(lia) H) as (Hi & _ & Hlen & Hall).
  rewrite (rows_between_narrow m n i col Hm Hmn Hi).
  assert (Hs : Forall (fun v => is_not_null v = true)
                      (skipn (n - m) (rows_between (n - 1) 0 i col))).
  { apply Forall_forall. intros x Hx. rewrite Forall_forall in Hall.
    apply Hall. revert Hx. apply In_skipn. }
  apply COUNT_full in Hs. rewrite Hs, length_skipn, Hlen. lia.
Qed.

Lemma COUNT_firstn_null_before {A : Type} (col : list (option A)) :
  forall k b, null_before k col ->
              COUNT (firstn b col) = Nat.min b (length col) - k.
Proof.
  induction col as [|v col IH]; intros k b H.
  - rewrite firstn_nil. unfold COUNT. simpl. lia.
  - destruct b as [|b]; [unfold COUNT; simpl; lia|].
    rewrite firstn_cons, COUNT_cons.
    assert (Ht : null_before (k - 1) col).
    { intros j w Hj. rewrite (H (S j) w Hj).
      destruct (k <=? S j) eqn:E1, (k - 1 <=? j) eqn:E2; try reflexivity;
        [apply Nat.leb_le in E1; apply Nat.leb_gt in E2
        |apply Nat.leb_gt in E1; apply Nat.leb_le in E2]; lia. }
    rewrite (IH _ b Ht), (H 0 v eq_refl). simpl length.
    destruct k as [|k]; simpl Nat.leb; cbv iota; lia.
Qed.

Lemma COUNT_frame_null_before {A : Type} (k p q i : nat)
      (col : list (option A)) :
  null_before k col ->
  COUNT (rows_between p q i col)
  = (Nat.min (S i - q) (length col) - k)
    - (Nat.min (Nat.min (i - p) (S i - q)) (length col) - k).
Proof.
  intros H. unfold rows_between.
  rewrite COUNT_skipn, firstn_firstn.
  now rewrite !(COUNT_firstn_null_before _ _ _ H).
Qed.

(** The number of NULLs of such a column. *)
Lemma null_count_null_before (col : metric_row -> option Q) (k : nat)
      (rows : list metric_row) :
  null_before k (map col rows) -> k <= length rows ->
  null_count col rows = k.
Proof.
  intros H Hk. unfold null_count.
  rewrite <- (firstn_all (map col rows)).
  rewrite (COUNT_firstn_null_before _ _ _ H), length_map. lia.
Qed.

(** ** The rows of one partition *)

Lemma with_returns_rows_nth part wr i w :
  with_returns_rows part = Ok wr -> nth_error wr i = Some w ->
  exists bd, nth_error part i = Some bd
             /\ wr_asset_id w = dp_asset_id bd
             /\ wr_date w = dp_date bd
             /\ wr_close w = dp_close bd
             /\ wr_volume_usd w = dp_volume_usd bd
             /\ daily_return_pct part i bd = Ok (wr_daily_return_pct w)
             /\ daily_range_pct bd = Ok (wr_daily_range_pct w).
Proof.
  intros H Hw. destruct (for_each_row_nth _ _ _ H _ _ Hw) as (bd & Hbd & Hf).
  exists bd. split; [exact Hbd|].
  inv_bind Hf. inv_bind Hf. injection Hf as <-. simpl.
  repeat split; assumption.
Qed.

Lemma with_returns_rows_close part wr :
  with_returns_rows part = Ok wr -> map wr_close wr = map dp_close part.
Proof.
  apply for_each_row_map. intros i r o H.
  inv_bind H. inv_bind H. now injection H as <-.
Qed.

Lemma with_returns_rows_volume part wr :
  with_returns_rows part = Ok wr ->
  map wr_volume_usd wr = map dp_volume_usd part.
Proof.
  apply for_each_row_map. intros i r o H.
  inv_bind H. inv_bind H. now injection H as <-.
Qed.

Lemma with_returns_rows_date part wr :
  with_returns_rows part = Ok wr -> map wr_date wr = map dp_date part.
Proof.
  apply for_each_row_map. intros i r o H.
  inv_bind H. inv_bind H. now injection H as <-.
Qed.

Lemma with_returns_rows_asset part wr :
  with_returns_rows part = Ok wr -> map wr_asset_id wr = map dp_asset_id part.
Proof.
  apply for_each_row_map. intros i r o H.
  inv_bind H. inv_bind H. now injection H as <-.
Qed.

Lemma sql_div_not_null a b v :
  is_not_null a = true -> is_not_null b = true ->
  sql_div a b = Ok v -> is_not_null v = true.
Proof.
  destruct a as [x|], b as [y|]; try discriminate. intros _ _. simpl.
  destruct (Qeq_bool y 0); [discriminate|]. now intros [= <-].
Qed.

Lemma sql_mul_not_null a b :
  is_not_null (sql_mul a b) = is_not_null a && is_not_null b.
Proof. destruct a, b; reflexivity. Qed.

Lemma sql_sub_not_null a b :
  is_not_null (sql_sub a b) = is_not_null a && is_not_null b.
Proof. destruct a, b; reflexivity. Qed.

Lemma nth_error_map_Some {A B : Type} (f : A -> B) l i y :
  nth_error (map f l) i = Some y ->
  exists x, nth_error l i = Some x /\ y = f x.
Proof.
  rewrite nth_error_map. destruct (nth_error l i) as [x|]; simpl;
    [intros [= <-]; eauto | discriminate].
Qed.

(** With every close present, the return is NULL on the first row of the
    partition and nowhere else. *)
Lemma returns_null_before part wr :
  Forall (fun r => is_not_null (dp_close r) = true) part ->
  with_returns_rows part = Ok wr ->
  null_before 1 (map wr_daily_return_pct wr).
Proof.
  intros Hc H j v Hj.
  apply nth_error_map_Some in Hj. destruct Hj as (w & Hw & ->).
  destruct (with_returns_rows_nth _ _ _ _ H Hw)
    as (bd & Hbd & _ & _ & _ & _ & Hret & _).
  rewrite Forall_forall in Hc.
  unfold daily_return_pct in Hret. destruct j as [|j]; simpl in Hret.
  - now injection Hret as <-.
  - assert (Hlt : j < length part).
    { apply Nat.lt_succ_l. apply nth_error_Some. congruence. }
    assert (Hlag : is_not_null (nth j (map dp_close part) None) = true).
    { rewrite (nth_indep _ None (dp_close bd)) by now rewrite length_map.
      rewrite map_nth. apply Hc, nth_In, Hlt. }
    rewrite Hlag in Hret. inv_bind Hret. injection Hret as <-.
    rewrite sql_mul_not_null.
    apply sql_div_not_null in Hx; [now rewrite Hx | | exact Hlag].
    rewrite sql_sub_not_null, Hlag.
    rewrite (Hc bd (nth_error_In _ _ Hbd)). reflexivity.
Qed.

Lemma range_null_before part wr :
  Forall (fun r => is_not_null (dp_high r) = true
                   /\ is_not_null (dp_low r) = true) part ->
  with_returns_rows part = Ok wr ->
  null_before 0 (map wr_daily_range_pct wr).
Proof.
  intros Hc H j v Hj.
  apply nth_error_map_Some in Hj. destruct Hj as (w & Hw & ->).
  destruct (with_returns_rows_nth _ _ _ _ H Hw)
    as (bd & Hbd & _ & _ & _ & _ & _ & Hrng).
  rewrite Forall_forall in Hc.
  destruct (Hc bd (nth_error_In _ _ Hbd)) as (Hh & Hl).
  unfold daily_range_pct in Hrng. rewrite Hh, Hl in Hrng. simpl in Hrng.
  inv_bind Hrng. injection Hrng as <-.
  rewrite sql_mul_not_null.
  apply sql_div_not_null in Hx; [now rewrite Hx | | exact Hl].
  now rewrite sql_sub_not_null, Hh, Hl.
Qed.

Lemma null_before_all_present {A B : Type} (f : A -> option B) (l : list A) :
  Forall (fun r => is_not_null (f r) = true) l -> null_before 0 (map f l).
Proof.
  intros H j v Hj. apply nth_error_map_Some in Hj.
  destruct Hj as (x & Hx & ->). rewrite Forall_forall in H.
  apply H. eapply nth_error_In, Hx.
Qed.

Section Partition.

Variable sqrt_num : Q -> Q.

Lemma with_all_metrics_rows_nth part ms i m :
  with_all_metrics_rows sqrt_num part = Ok ms -> nth_error ms i = Some m ->
  exists wr, nth_error part i = Some wr
             /\ dm_asset_id m = wr_asset_id wr
             /\ dm_date m = wr_date wr
             /\ dm_daily_return_pct m = wr_daily_return_pct wr
             /\ dm_daily_range_pct m = wr_daily_range_pct wr
             /\ dm_vol_7d m = vol sqrt_num 7 part i
             /\ dm_vol_30d m = vol sqrt_num 30 part i
             /\ dm_sma_7 m = sma 7 part i
             /\ dm_sma_30 m = sma 30 part i
             /\ volume_ratio_30d part i wr = Ok (dm_volume_ratio_30d m).
Proof.
  intros H Hm. destruct (for_each_row_nth _ _ _ H _ _ Hm) as (wr & Hwr & Hf).
  exists wr. split; [exact Hwr|].
  inv_bind Hf. injection Hf as <-. simpl. repeat split; auto.
Qed.

Lemma with_all_metrics_rows_asset part ms :
  with_all_metrics_rows sqrt_num part = Ok ms ->
  map dm_asset_id ms = map wr_asset_id part.
Proof.
  apply for_each_row_map. intros i r o H.
  inv_bind H. now injection H as <-.
Qed.

Lemma STDDEV_POP_not_null w :
  is_not_null (STDDEV_POP sqrt_num w) = negb (COUNT w =? 0).
Proof. unfold STDDEV_POP, COUNT. now destruct (values w). Qed.

Lemma AVG_not_null w : is_not_null (AVG w) = negb (COUNT w =? 0).
Proof. unfold AVG, COUNT. now destruct (values w). Qed.

(** The exact-count rule: a windowed metric is non-null exactly when its
    frame holds [n] non-null values. *)
Lemma vol_not_null n part i :
  0 < n ->
  is_not_null (vol sqrt_num n part i)
  = (COUNT (rows_between (n - 1) 0 i (map wr_daily_return_pct part)) =? n).
Proof.
  intros Hn. unfold vol.
  destruct (Nat.eqb_spec
              (COUNT (rows_between (n - 1) 0 i
                                   (map wr_daily_return_pct part))) n)
    as [E|E]; [|reflexivity].
  rewrite STDDEV_POP_not_null, E.
  destruct n; [lia | reflexivity].
Qed.

Lemma sma_not_null n part i :
  0 < n ->
  is_not_null (sma n part i)
  = (COUNT (rows_between (n - 1) 0 i (map wr_close part)) =? n).
Proof.
  intros Hn. unfold sma.
  destruct (Nat.eqb_spec
              (COUNT (rows_between (n - 1) 0 i (map wr_close part))) n)
    as [E|E]; [|reflexivity].
  rewrite AVG_not_null, E.
  destruct n; [lia | reflexivity].
Qed.

Lemma vol_null_before n part i :
  0 < n -> i < length part ->
  null_before 1 (map wr_daily_return_pct part) ->
  is_not_null (vol sqrt_num n part i) = (n <=? i).
Proof.
  intros Hn Hi H. rewrite (vol_not_null _ _ _ Hn).
  rewrite (COUNT_frame_null_before 1 (n - 1) 0 i _ H), length_map.
  destruct (Nat.eqb_spec
              (Nat.min (S i - 0) (length part) - 1
               - (Nat.min (Nat.min (i - (n - 1)) (S i - 0)) (length part) - 1))
              n), (Nat.leb_spec n i); try reflexivity; lia.
Qed.

Lemma sma_null_before n part i :
  0 < n -> i < length part ->
  null_before 0 (map wr_close part) ->
  is_not_null (sma n part i) = (n - 1 <=? i).
Proof.
  intros Hn Hi H. rewrite (sma_not_null _ _ _ Hn).
  rewrite (COUNT_frame_null_before 0 (n - 1) 0 i _ H), length_map.
  destruct (Nat.eqb_spec
              (Nat.min (S i - 0) (length part) - 0
               - (Nat.min (Nat.min (i - (n - 1)) (S i - 0)) (length part) - 0))
              n), (Nat.leb_spec (n - 1) i); try reflexivity; lia.
Qed.

End Partition.

(** ** One asset's series *)

Section Series.

Variable sqrt_num : Q -> Q.

Lemma series_metrics_inv series ms :
  series_metrics sqrt_num series = Ok ms ->
  exists wr, with_returns_rows series = Ok wr
             /\ with_all_metrics_rows sqrt_num wr = Ok ms
             /\ length wr = length series /\ length ms = length series.
Proof.
  intros H. unfold series_metrics in H. inv_bind H. exists x.
  pose proof (for_each_row_length _ _ _ Hx) as L1.
  pose proof (for_each_row_length _ _ _ H) as L2.
  repeat split; auto. congruence.
Qed.

(** Where each windowed metric is NULL, for a series whose closes are all
    present. *)
Lemma series_warm_up series ms :
  Forall (fun r => is_not_null (dp_close r) = true) series ->
  series_metrics sqrt_num series = Ok ms ->
  forall i m, nth_error ms i = Some m ->
    is_not_null (dm_daily_return_pct m) = (1 <=? i)
    /\ is_not_null (dm_vol_7d m) = (7 <=? i)
    /\ is_not_null (dm_vol_30d m) = (30 <=? i)
    /\ is_not_null (dm_sma_7 m) = (6 <=? i)
    /\ is_not_null (dm_sma_30 m) = (29 <=? i).
Proof.
  intros Hc H i m Hm.
  destruct (series_metrics_inv _ _ H) as (wr & Hwr & Hms & Lwr & Lms).
  destruct (with_all_metrics_rows_nth _ _ _ _ _ Hms Hm)
    as (w & Hw & _ & _ & Eret & _ & E7 & E30 & S7 & S30 & _).
  assert (Hi : i < length wr) by (apply nth_error_Some; congruence).
  pose proof (returns_null_before _ _ Hc Hwr) as Hret.
  assert (Hcl : null_before 0 (map wr_close wr)).
  { rewrite (with_returns_rows_close _ _ Hwr).
    now apply null_before_all_present. }
  rewrite Eret, E7, E30, S7, S30.
  rewrite !vol_null_before, !sma_null_before by (auto; lia).
  repeat split; try reflexivity.
  apply Hret. rewrite nth_error_map, Hw. reflexivity.
Qed.

Lemma series_range_present series ms :
  Forall (fun r => is_not_null (dp_high r) = true
                   /\ is_not_null (dp_low r) = true) series ->
  series_metrics sqrt_num series = Ok ms ->
  forall i m, nth_error ms i = Some m ->
              is_not_null (dm_daily_range_pct m) = true.
Proof.
  intros Hc H i m Hm.
  destruct (series_metrics_inv _ _ H) as (wr & Hwr & Hms & Lwr & Lms).
  destruct (with_all_metrics_rows_nth _ _ _ _ _ Hms Hm)
    as (w & Hw & _ & _ & _ & Erng & _).
  rewrite Erng.
  apply (range_null_before _ _ Hc Hwr i). now rewrite nth_error_map, Hw.
Qed.

Lemma volume_ratio_not_raise part i wr :
  exists v, volume_ratio_30d part i wr = Ok v.
Proof.
  unfold volume_ratio_30d.
  destruct (COUNT _ =? 30); [|eauto].
  unfold NULLIF. destruct (AVG _) as [a|].
  - destruct (Qeq_bool a 0) eqn:E.
    + destruct (wr_volume_usd wr); simpl; eauto.
    + destruct (wr_volume_usd wr); simpl; [rewrite E|]; eauto.
  - destruct (wr_volume_usd wr); simpl; eauto.
Qed.

Lemma series_volume_ratio_present series ms :
  Forall (fun r => is_not_null (dp_volume_usd r) = true) series ->
  volume_means_nonzero series ->
  series_metrics sqrt_num series = Ok ms ->
  forall i m, nth_error ms i = Some m ->
              is_not_null (dm_volume_ratio_30d m) = (30 <=? i).
Proof.
  intros Hv Hz H i m Hm.
  destruct (series_metrics_inv _ _ H) as (wr & Hwr & Hms & Lwr & Lms).
  destruct (with_all_metrics_rows_nth _ _ _ _ _ Hms Hm)
    as (w & Hw & _ & _ & _ & _ & _ & _ & _ & _ & Hvr).
  assert (Hi : i < length series).
  { rewrite <- Lwr. apply nth_error_Some. congruence. }
  unfold volume_ratio_30d in Hvr.
  rewrite (with_returns_rows_volume _ _ Hwr) in Hvr.
  pose proof (null_before_all_present dp_volume_usd series Hv) as Hnb.
  rewrite (COUNT_frame_null_before 0 30 1 i _ Hnb), length_map in Hvr.
  destruct (Nat.leb_spec 30 i) as [Hge|Hlt].
  - replace (_ =? 30) with true in Hvr by (symmetry; apply Nat.eqb_eq; lia).
    specialize (Hz i Hge Hi).
    pose proof (AVG_not_null
                  (rows_between 30 1 i (map dp_volume_usd series))) as Ha.
    rewrite (COUNT_frame_null_before 0 30 1 i _ Hnb), length_map in Ha.
    replace (_ =? 0) with false in Ha by (symmetry; apply Nat.eqb_neq; lia).
    destruct (AVG _) as [a|]; [|discriminate]. simpl in Hz, Hvr.
    destruct (Qeq_bool a 0) eqn:E; [apply Qeq_bool_eq in E; contradiction|].
    assert (Hwv : is_not_null (wr_volume_usd w) = true).
    { assert (E2 : nth_error (map wr_volume_usd wr) i
                   = Some (wr_volume_usd w))
        by now rewrite nth_error_map, Hw.
      rewrite (with_returns_rows_volume _ _ Hwr) in E2.
      apply (Hnb i _ E2). }
    destruct (wr_volume_usd w) as [x|]; [|discriminate]. simpl in Hvr.
    rewrite E in Hvr. now injection Hvr as <-.
  - replace (_ =? 30) with false in Hvr by (symmetry; apply Nat.eqb_neq; lia).
    now injection Hvr as <-.
Qed.

End Series.

(** ** Ordering and partitions *)

Lemma insert_by_perm {A : Type} (key : A -> Z) (x : A) (l : list A) :
  Permutation (insert_by key x l) (x :: l).
Proof.
  induction l as [|y l IH]; simpl; [reflexivity|].
  destruct (key x <=? key y)%Z; [reflexivity|].
  rewrite IH. apply perm_swap.
Qed.

Lemma order_by_perm {A : Type} (key : A -> Z) (l : list A) :
  Permutation (order_by key l) l.
Proof.
  induction l as [|x l IH]; simpl; [reflexivity|].
  rewrite insert_by_perm. now constructor.
Qed.

Lemma order_by_In {A : Type} (key : A -> Z) (l : list A) (x : A) :
  In x (order_by key l) <-> In x l.
Proof.
  split; apply Permutation_in; [|symmetry]; apply order_by_perm.
Qed.

Lemma insert_by_sorted {A : Type} (key : A -> Z) (x : A) (l : list A) :
  Sorted Z.le (map key l) -> Sorted Z.le (map key (insert_by key x l)).
Proof.
  induction l as [|y l IH]; simpl; intros H.
  - repeat constructor.
  - destruct (Z.leb_spec (key x) (key y)) as [Hle|Hgt]; simpl.
    + constructor; [exact H | now constructor].
    + apply Sorted_inv in H. destruct H as (Hs & Hd).
      constructor; [now apply IH|].
      destruct l as [|z l]; simpl.
      * constructor. lia.
      * destruct (key x <=? key z)%Z; simpl; constructor;
          [lia | now apply HdRel_inv in Hd].
Qed.

Lemma order_by_sorted {A : Type} (key : A -> Z) (l : list A) :
  Sorted Z.le (map key (order_by key l)).
Proof.
  induction l as [|x l IH]; simpl; [constructor | now apply insert_by_sorted].
Qed.

(** Ordering an ordered list leaves it as it is. *)
Lemma order_by_id {A : Type} (key : A -> Z) (l : list A) :
  Sorted Z.le (map key l) -> order_by key l = l.
Proof.
  induction l as [|x l IH]; simpl; intros H; [reflexivity|].
  apply Sorted_inv in H. destruct H as (Hs & Hd).
  rewrite (IH Hs). destruct l as [|y l]; simpl; [reflexivity|].
  apply HdRel_inv in Hd.
  now replace (key x <=? key y)%Z with true by (symmetry; now apply Z.leb_le).
Qed.

Lemma Permutation_filter {A : Type} (f : A -> bool) (l l' : list A) :
  Permutation l l' -> Permutation (filter f l) (filter f l').
Proof.
  induction 1 as [|x l l' _ IH|x y l|l l' l'' _ IH1 _ IH2]; simpl.
  - constructor.
  - destruct (f x); [now constructor | exact IH].
  - destruct (f x), (f y); try reflexivity. apply perm_swap.
  - now transitivity (filter f l').
Qed.

Lemma Permutation_COUNT {A : Type} (l l' : list (option A)) :
  Permutation l l' -> COUNT l = COUNT l'.
Proof.
  induction 1 as [|x l l' _ IH|x y l|l l' l'' _ IH1 _ IH2].
  - reflexivity.
  - rewrite !COUNT_cons. now rewrite IH.
  - rewrite !COUNT_cons. lia.
  - congruence.
Qed.

Lemma Permutation_null_count (col : metric_row -> option Q) g g' :
  Permutation g g' -> null_count col g = null_count col g'.
Proof.
  intros H. unfold null_count.
  rewrite (Permutation_length H).
  now rewrite (Permutation_COUNT _ _ (Permutation_map col H)).
Qed.

Lemma filter_all {A : Type} (f : A -> bool) (l : list A) :
  Forall (fun x => f x = true) l -> filter f l = l.
Proof.
  induction 1 as [|x l Hx _ IH]; simpl; [reflexivity|].
  now rewrite Hx, IH.
Qed.

Lemma filter_none {A : Type} (f : A -> bool) (l : list A) :
  Forall (fun x => f x = false) l -> filter f l = [].
Proof.
  induction 1 as [|x l Hx _ IH]; simpl; [reflexivity|].
  now rewrite Hx.
Qed.

Lemma partition_of_key {A : Type} (pkey okey : A -> Z) rows k r :
  In r (partition_of pkey okey rows k) -> pkey r = k /\ In r rows.
Proof.
  unfold partition_of. rewrite order_by_In, filter_In.
  intros (Hin & Hk). split; [now apply Z.eqb_eq | exact Hin].
Qed.

Lemma partition_of_absent {A : Type} (pkey okey : A -> Z) rows k :
  ~ In k (partition_keys pkey rows) -> partition_of pkey okey rows k = [].
Proof.
  intros H. unfold partition_of. rewrite filter_none; [reflexivity|].
  apply Forall_forall. intros r Hr. apply Z.eqb_neq. intros <-.
  apply H. unfold partition_keys. apply nodup_In. now apply in_map.
Qed.

Lemma sequence_filter_key {B : Type} (pkey' : B -> Z)
      (g : Z -> result (list B)) :
  (forall k po, g k = Ok po -> Forall (fun r => pkey' r = k) po) ->
  forall keys parts,
    NoDup keys -> sequence (map g keys) = Ok parts ->
    forall a,
      (In a keys ->
       exists po, g a = Ok po
                  /\ filter (fun r => (pkey' r =? a)%Z) (concat parts) = po)
      /\ (~ In a keys ->
          filter (fun r => (pkey' r =? a)%Z) (concat parts) = []).
Proof.
  intros Hg. induction keys as [|k keys IH]; intros parts Hnd H a.
  - injection H as <-. simpl. split; [contradiction | reflexivity].
  - simpl in H. inv_bind H. inv_bind H. injection H as <-.
    inversion Hnd as [|? ? Hk Hnd']; subst.
    destruct (IH _ Hnd' Hx0 a) as (IH1 & IH2).
    simpl concat. rewrite filter_app.
    pose proof (Hg _ _ Hx) as Hkey.
    destruct (Z.eq_dec a k) as [->|Hne].
    + rewrite (IH2 Hk), app_nil_r. split; [intros _ | intros []; now left].
      exists x. split; [exact Hx|]. apply filter_all.
      eapply Forall_impl; [|exact Hkey]. intros r Hr. now apply Z.eqb_eq.
    + rewrite filter_none.
      2:{ eapply Forall_impl; [|exact Hkey]. intros r Hr.
          apply Z.eqb_neq. congruence. }
      simpl. split.
      * intros [E|Hin]; [congruence | now apply IH1].
      * intros Hn. apply IH2. intros Hin. apply Hn. now right.
Qed.

(** The rows a partitioned SELECT returns for one key are the rows
    computed from that key's partition. *)
Lemma over_partitions_filter {A B : Type} (pkey okey : A -> Z)
      (pkey' : B -> Z) (f : list A -> result (list B)) rows out :
  (forall part po, f part = Ok po -> map pkey' po = map pkey part) ->
  f [] = Ok [] ->
  over_partitions pkey okey f rows = Ok out ->
  forall a, exists po,
      f (partition_of pkey okey rows a) = Ok po
      /\ filter (fun r => (pkey' r =? a)%Z) out = po.
Proof.
  intros Hkey Hnil H a. unfold over_partitions in H. inv_bind H.
  injection H as <-.
  destruct (sequence_filter_key pkey'
              (fun k => f (partition_of pkey okey rows k))) with
      (keys := partition_keys pkey rows) (parts := x) (a := a) as (H1 & H2).
  - intros k po Hpo. apply Forall_forall. intros r Hr.
    pose proof (Hkey _ _ Hpo) as Hm.
    assert (Hin : In (pkey' r) (map pkey (partition_of pkey okey rows k))).
    { rewrite <- Hm. now apply in_map. }
    apply in_map_iff in Hin. destruct Hin as (r0 & E & Hr0).
    apply partition_of_key in Hr0. destruct Hr0 as (<- & _). now symmetry.
  - apply NoDup_nodup.
  - exact Hx.
  - destruct (in_dec Z.eq_dec a (partition_keys pkey rows)) as [Hin|Hn].
    + exact (H1 Hin).
    + exists []. rewrite (partition_of_absent _ _ _ _ Hn). auto.
Qed.

Lemma sequence_In {B : Type} (rs : list (result (list B))) parts o :
  sequence rs = Ok parts -> In o (concat parts) ->
  exists po, In (Ok po) rs /\ In o po.
Proof.
  revert parts. induction rs as [|r rs IH]; intros parts H Ho.
  - injection H as <-. contradiction.
  - simpl in H. inv_bind H. inv_bind H. injection H as <-.
    simpl in Ho. apply in_app_or in Ho. destruct Ho as [Ho|Ho].
    + exists x. split; [left; exact Hx | exact Ho].
    + destruct (IH _ Hx0 Ho) as (po & Hin & Hpo).
      exists po. split; [now right | exact Hpo].
Qed.

Lemma over_partitions_In {A B : Type} (pkey okey : A -> Z)
      (f : list A -> result (list B)) rows out o :
  over_partitions pkey okey f rows = Ok out -> In o out ->
  exists k po, f (partition_of pkey okey rows k) = Ok po /\ In o po.
Proof.
  intros H Ho. unfold over_partitions in H. inv_bind H. injection H as <-.
  destruct (sequence_In _ _ _ Hx Ho) as (po & Hin & Hpo).
  apply in_map_iff in Hin. destruct Hin as (k & Hk & _). eauto.
Qed.

(** ** The statement as a whole *)

Section Statement.

Variable sqrt_num : Q -> Q.

(** The rows inserted for an asset are the metrics of its series. *)
Lemma METRICS_SQL_asset db rows a :
  METRICS_SQL sqrt_num db = Ok rows ->
  exists ms, series_metrics sqrt_num (price_series db a) = Ok ms
             /\ Permutation (asset_metrics rows a) ms.
Proof.
  intros H. unfold METRICS_SQL in H. inv_bind H. inv_bind H.
  injection H as <-. rename x into wr, x0 into wam.
  destruct (over_partitions_filter dp_asset_id dp_date wr_asset_id
              with_returns_rows (base_data db) wr
              with_returns_rows_asset eq_refl Hx a) as (po2 & Hpo2 & F2).
  destruct (over_partitions_filter wr_asset_id wr_date dm_asset_id
              (with_all_metrics_rows sqrt_num) wr wam
              (with_all_metrics_rows_asset sqrt_num) eq_refl Hx0 a)
    as (po3 & Hpo3 & F3).
  unfold partition_of in Hpo3 at 1. rewrite F2 in Hpo3.
  rewrite order_by_id in Hpo3.
  2:{ rewrite (with_returns_rows_date _ _ Hpo2). apply order_by_sorted. }
  exists po3. split.
  - unfold series_metrics, price_series. rewrite Hpo2. exact Hpo3.
  - rewrite <- F3. unfold asset_metrics. apply Permutation_filter.
    now rewrite !order_by_perm.
Qed.

Lemma METRICS_SQL_In db rows m :
  METRICS_SQL sqrt_num db = Ok rows -> In m rows ->
  exists part ms, with_all_metrics_rows sqrt_num part = Ok ms /\ In m ms.
Proof.
  intros H Hm. unfold METRICS_SQL in H. inv_bind H. inv_bind H.
  injection H as <-. rewrite !order_by_In in Hm.
  destruct (over_partitions_In _ _ _ _ _ _ Hx0 Hm) as (k & po & Hpo & Hin).
  eauto.
Qed.

(** Every row of base_data is a price row of an active asset. *)
Lemma base_data_active db r :
  In r (base_data db) ->
  In r (daily_prices db)
  /\ exists a, In a (assets db) /\ a_asset_id a = dp_asset_id r
               /\ a_is_active a = true.
Proof.
  unfold base_data. rewrite !order_by_In, in_flat_map.
  intros (dp & Hdp & Hr). apply in_map_iff in Hr.
  destruct Hr as (a & <- & Ha). apply filter_In in Ha.
  destruct Ha as (Ha & Hc). apply andb_true_iff in Hc.
  destruct Hc as (Hid & Hact). apply Z.eqb_eq in Hid.
  split; [exact Hdp | eauto].
Qed.

Lemma METRICS_SQL_active db rows m :
  METRICS_SQL sqrt_num db = Ok rows -> In m rows ->
  exists a, In a (assets db) /\ a_asset_id a = dm_asset_id m
            /\ a_is_active a = true.
Proof.
  intros H Hm.
  destruct (METRICS_SQL_asset _ _ (dm_asset_id m) H) as (ms & Hms & Hp).
  assert (Hin : In m ms).
  { eapply Permutation_in; [exact Hp|]. unfold asset_metrics.
    apply filter_In. split; [exact Hm | apply Z.eqb_refl]. }
  destruct (series_metrics_inv _ _ _ Hms) as (wr & _ & _ & _ & Hlen).
  destruct (price_series db (dm_asset_id m)) as [|r rest] eqn:E.
  - destruct ms; [contradiction | discriminate].
  - assert (Hr : In r (price_series db (dm_asset_id m)))
      by (rewrite E; now left).
    apply partition_of_key in Hr. destruct Hr as (Hk & Hr).
    apply base_data_active in Hr. destruct Hr as (_ & a & Ha & Hid & Hact).
    exists a. repeat split; congruence.
Qed.

End Statement.

(** ** The driver *)

Section Driver.

Variable sqrt_num : Q -> Q.
Variable env : environment.

Ltac run_driver H :=
  unfold compute_metrics, cursor, execute_delete, execute_metrics, commit,
    mbind, logger, the_connection, set_conn, fault, ret, raise, lift in H;
  simpl in H.

Lemma compute_metrics_Ok w0 c n w :
  conn w0 = Some c -> closed c = false ->
  compute_metrics sqrt_num env w0 = (Ok n, w) ->
  exists rows, METRICS_SQL sqrt_num (txn c) = Ok rows
               /\ n = length rows
               /\ server w = with_daily_metrics (txn c) rows
               /\ conn w = Some {| txn := with_daily_metrics (txn c) rows;
                                   closed := false |}.
Proof.
  intros Hc Hcl H. run_driver H. rewrite Hc, Hcl in H. simpl in H.
  rewrite ?Hc, ?Hcl in H. simpl in H.
  destruct (delete_error env); [discriminate|]. simpl in H.
  destruct (insert_error env); [discriminate|].
  destruct (METRICS_SQL sqrt_num _) as [rows|] eqn:E; [|discriminate].
  simpl in H. destruct (commit_error env); [discriminate|].
  injection H as <- <-. exists rows. repeat split.
Qed.

Lemma recompute_Ok db n db' :
  recompute sqrt_num env db = Ok (n, db') ->
  exists rows, METRICS_SQL sqrt_num db = Ok rows /\ n = length rows
               /\ db' = with_daily_metrics db rows.
Proof.
  unfold recompute. intros H.
  destruct (compute_metrics _ _ _) as ([m|e] & w) eqn:E; [|discriminate].
  injection H as <- <-.
  apply (compute_metrics_Ok _ {| txn := db; closed := false |}) in E;
    [|reflexivity|reflexivity].
  destruct E as (rows & Hr & Hn & Hs & _).
  exists rows. auto.
Qed.

Lemma recompute_run db rows :
  delete_error env = None -> insert_error env = None ->
  commit_error env = None -> METRICS_SQL sqrt_num db = Ok rows ->
  recompute sqrt_num env db = Ok (length rows, with_daily_metrics db rows).
Proof.
  intros Hd Hi Hco Hr. unfold recompute.
  unfold compute_metrics, cursor, execute_delete, execute_metrics, commit,
    mbind, logger, the_connection, set_conn, fault, ret, raise, lift.
  simpl. rewrite Hd. simpl. rewrite Hi.
  change (METRICS_SQL sqrt_num (with_daily_metrics db []))
    with (METRICS_SQL sqrt_num db).
  rewrite Hr. simpl. rewrite Hco. reflexivity.
Qed.

Lemma recompute_faults db n db' :
  recompute sqrt_num env db = Ok (n, db') ->
  delete_error env = None /\ insert_error env = None
  /\ commit_error env = None.
Proof.
  unfold recompute. intros H.
  destruct (compute_metrics _ _ _) as ([m|e] & w) eqn:E; [|discriminate].
  run_driver E.
  destruct (delete_error env); [discriminate|]. simpl in E.
  destruct (insert_error env); [discriminate|].
  destruct (METRICS_SQL sqrt_num _); [|discriminate]. simpl in E.
  destruct (commit_error env); [discriminate|]. auto.
Qed.

End Driver.

(** ** Warm-up boundaries (C2) *)

(** C2, as stated, fails: over 40 gapless days with every value present,
    vol_7d is NULL on the row at position 6, whose frame holds the NULL
    return of the first row. *)
Lemma warm_up_as_specified_fails :
  gapless (flat_series 1 100 1000 40) = true
  /\ Forall upstream_present (flat_series 1 100 1000 40)
  /\ ~ warm_up_as_specified sqrt_6dp (flat_series 1 100 1000 40).
Proof.
  split; [reflexivity|]. split.
  - apply Forall_forall. intros r Hr. apply in_map_iff in Hr.
    destruct Hr as (k & <- & _). repeat split.
  - intros H.
    destruct (series_metrics sqrt_6dp (flat_series 1 100 1000 40))
      as [ms|] eqn:E; [|vm_compute in E; discriminate].
    destruct (nth_error ms 6) as [m|] eqn:E6.
    + destruct (H ms E 6 m E6) as ((_ & H7) & _).
      specialize (H7 (Nat.le_refl 6)).
      vm_compute in E. injection E as <-.
      vm_compute in E6. injection E6 as <-. discriminate.
    + vm_compute in E. injection E as <-. discriminate.
Qed.

(** C2, amended: with every upstream value present, sma_7 is non-null
    exactly from position 6 and sma_30 from position 29, as stated, while
    vol_7d is non-null exactly from position 7 and vol_30d from position
    30.  The frames count rows, so the spacing of the dates plays no part. *)
Theorem warm_up_boundaries (sqrt_num : Q -> Q) (series : list price_row)
        (ms : list metric_row) :
  Forall upstream_present series ->
  series_metrics sqrt_num series = Ok ms ->
  forall i m, nth_error ms i = Some m ->
    (is_not_null (dm_vol_7d m) = true <-> 7 <= i)
    /\ (is_not_null (dm_sma_7 m) = true <-> 6 <= i)
    /\ (is_not_null (dm_vol_30d m) = true <-> 30 <= i)
    /\ (is_not_null (dm_sma_30 m) = true <-> 29 <= i).
Proof.
  intros Hp H i m Hm.
  assert (Hc : Forall (fun r => is_not_null (dp_close r) = true) series).
  { eapply Forall_impl; [|exact Hp]. now intros r (Hr & _). }
  destruct (series_warm_up sqrt_num series ms Hc H i m Hm)
    as (_ & E7 & E30 & S7 & S30).
  rewrite E7, E30, S7, S30. repeat split; apply Nat.leb_le.
Qed.

Lemma flat_series_present a price volume n :
  Forall all_present (flat_series a price volume n).
Proof.
  apply Forall_forall. intros r Hr. apply in_map_iff in Hr.
  destruct Hr as (k & <- & _). repeat split.
Defined.

Lemma flat_series_upstream_present a price volume n :
  Forall upstream_present (flat_series a price volume n).
Proof.
  eapply Forall_impl; [|apply flat_series_present]. now intros r (_ & H).
Defined.

Lemma warm_up_boundaries_witness :
  let series := flat_series 1 100 1000 40 in
  let ms := rows_of (series_metrics sqrt_6dp series) in
  Forall upstream_present series
  /\ series_metrics sqrt_6dp series = Ok ms
  /\ forall i m, nth_error ms i = Some m ->
       (is_not_null (dm_vol_7d m) = true <-> 7 <= i)
       /\ (is_not_null (dm_sma_7 m) = true <-> 6 <= i)
       /\ (is_not_null (dm_vol_30d m) = true <-> 30 <= i)
       /\ (is_not_null (dm_sma_30 m) = true <-> 29 <= i).
Proof.
  intros series ms.
  assert (Hp : Forall upstream_present series)
    by apply flat_series_upstream_present.
  assert (E : series_metrics sqrt_6dp series = Ok ms)
    by (vm_compute; reflexivity).
  split; [exact Hp|]. split; [exact E|].
  exact (warm_up_boundaries sqrt_6dp series ms Hp E).
Defined.

(** ** The volume ratio (C5, C10) *)

Lemma volume_ratio_of_row sqrt_num series ms i m :
  series_metrics sqrt_num series = Ok ms -> nth_error ms i = Some m ->
  exists r,
    nth_error series i = Some r
    /\ (let w := rows_between 30 1 i (map dp_volume_usd series) in
        if COUNT w =? 30
        then sql_div (dp_volume_usd r) (NULLIF (AVG w) 0%Q)
        else Ok None) = Ok (dm_volume_ratio_30d m).
Proof.
  intros H Hm.
  destruct (series_metrics_inv _ _ _ H) as (wr & Hwr & Hms & _ & _).
  destruct (with_all_metrics_rows_nth _ _ _ _ _ Hms Hm)
    as (w & Hw & _ & _ & _ & _ & _ & _ & _ & _ & Hvr).
  destruct (with_returns_rows_nth _ _ _ _ Hwr Hw)
    as (r & Hr & _ & _ & _ & Ev & _).
  exists r. split; [exact Hr|].
  unfold volume_ratio_30d in Hvr.
  now rewrite (with_returns_rows_volume _ _ Hwr), Ev in Hvr.
Qed.

Lemma AVG_of_30 (w : list (option Q)) :
  length w = 30 -> Forall (fun v => is_not_null v = true) w ->
  COUNT w = 30 /\ AVG w = Some (Qsum (values w) / 30)%Q.
Proof.
  intros Hl Hf. apply COUNT_full in Hf. rewrite Hl in Hf.
  split; [exact Hf|]. unfold AVG, Qcount. unfold COUNT in Hf.
  destruct (values w) as [|x xs] eqn:E; [discriminate|].
  now rewrite Hf.
Qed.

(** C5: on a row whose 30 preceding rows all have a volume, of mean
    exactly 0, volume_ratio_30d is NULL; and the division of metric 7
    raises on no row of no partition. *)
Theorem zero_mean_volume_ratio_is_null (sqrt_num : Q -> Q)
        (series : list price_row) (ms : list metric_row) (i : nat)
        (m : metric_row) :
  series_metrics sqrt_num series = Ok ms -> nth_error ms i = Some m ->
  length (rows_between 30 1 i (map dp_volume_usd series)) = 30 ->
  Forall (fun v => is_not_null v = true)
         (rows_between 30 1 i (map dp_volume_usd series)) ->
  (Qsum (values (rows_between 30 1 i (map dp_volume_usd series))) / 30 == 0)%Q ->
  dm_volume_ratio_30d m = None
  /\ forall part j wr, exists v, volume_ratio_30d part j wr = Ok v.
Proof.
  intros H Hm Hl Hf Hz. split; [|apply volume_ratio_not_raise].
  destruct (volume_ratio_of_row _ _ _ _ _ H Hm) as (r & _ & Hvr).
  destruct (AVG_of_30 _ Hl Hf) as (Hc & Ha).
  cbv zeta in Hvr. rewrite Hc, Ha in Hvr. simpl in Hvr.
  apply Qeq_eq_bool in Hz. rewrite Hz in Hvr.
  destruct (dp_volume_usd r); simpl in Hvr; now injection Hvr as <-.
Qed.

Lemma zero_mean_volume_ratio_is_null_witness :
  let series := flat_series 1 100 0 31 in
  let ms := rows_of (series_metrics sqrt_6dp series) in
  let m := nth 30 ms (stale_row 0) in
  series_metrics sqrt_6dp series = Ok ms /\ nth_error ms 30 = Some m
  /\ dm_volume_ratio_30d m = None.
Proof.
  intros series ms m.
  assert (E : series_metrics sqrt_6dp series = Ok ms)
    by (vm_compute; reflexivity).
  assert (Em : nth_error ms 30 = Some m) by (vm_compute; reflexivity).
  split; [exact E|]. split; [exact Em|].
  refine (proj1 (zero_mean_volume_ratio_is_null sqrt_6dp series ms 30 m
                                                E Em _ _ _)).
  - reflexivity.
  - repeat constructor.
  - vm_compute. reflexivity.
Defined.

(** C10: on a row whose 30 preceding rows all have a volume, of non-zero
    mean, the exact-count condition of metric 7 holds; when the row's own
    volume is NULL, volume_ratio_30d is NULL all the same. *)
Theorem null_volume_gives_null_ratio (sqrt_num : Q -> Q)
        (series : list price_row) (ms : list metric_row) (i : nat)
        (r : price_row) (m : metric_row) :
  series_metrics sqrt_num series = Ok ms ->
  nth_error series i = Some r -> nth_error ms i = Some m ->
  length (rows_between 30 1 i (map dp_volume_usd series)) = 30 ->
  Forall (fun v => is_not_null v = true)
         (rows_between 30 1 i (map dp_volume_usd series)) ->
  ~ (Qsum (values (rows_between 30 1 i (map dp_volume_usd series))) / 30 == 0)%Q ->
  dp_volume_usd r = None ->
  COUNT (rows_between 30 1 i (map dp_volume_usd series)) = 30
  /\ dm_volume_ratio_30d m = None.
Proof.
  intros H Hr Hm Hl Hf Hz Hv.
  destruct (volume_ratio_of_row _ _ _ _ _ H Hm) as (r' & Hr' & Hvr).
  assert (r' = r) by congruence. subst r'.
  destruct (AVG_of_30 _ Hl Hf) as (Hc & Ha). split; [exact Hc|].
  cbv zeta in Hvr. rewrite Hc, Hv in Hvr. simpl in Hvr.
  now injection Hvr as <-.
Qed.

Lemma null_volume_gives_null_ratio_witness :
  let r := flat_row 1 (Some 100%Q) None 30 in
  let series := (flat_series 1 100 1000 30 ++ [r])%list in
  let ms := rows_of (series_metrics sqrt_6dp series) in
  let m := nth 30 ms (stale_row 0) in
  series_metrics sqrt_6dp series = Ok ms
  /\ nth_error series 30 = Some r /\ nth_error ms 30 = Some m
  /\ dp_volume_usd r = None
  /\ COUNT (rows_between 30 1 30 (map dp_volume_usd series)) = 30
  /\ dm_volume_ratio_30d m = None.
Proof.
  intros r series ms m.
  assert (E : series_metrics sqrt_6dp series = Ok ms)
    by (vm_compute; reflexivity).
  assert (Em : nth_error ms 30 = Some m) by (vm_compute; reflexivity).
  split; [exact E|]. split; [reflexivity|]. split; [exact Em|].
  split; [reflexivity|].
  refine (null_volume_gives_null_ratio sqrt_6dp series ms 30 r m
                                       E eq_refl Em _ _ _ eq_refl).
  - reflexivity.
  - repeat constructor.
  - vm_compute. discriminate.
Defined.

(** ** The null waterfall (C8) *)

Lemma waterfall_of_partition sqrt_num part ms m :
  with_all_metrics_rows sqrt_num part = Ok ms -> In m ms ->
  (is_not_null (dm_vol_30d m) = true -> is_not_null (dm_vol_7d m) = true)
  /\ (is_not_null (dm_vol_7d m) = true ->
      is_not_null (dm_daily_return_pct m) = true)
  /\ (is_not_null (dm_sma_30 m) = true -> is_not_null (dm_sma_7 m) = true).
Proof.
  intros H Hm. apply In_nth_error in Hm. destruct Hm as (i & Hm).
  destruct (with_all_metrics_rows_nth _ _ _ _ _ H Hm)
    as (w & Hw & _ & _ & Eret & _ & E7 & E30 & S7 & S30 & _).
  rewrite Eret, E7, E30, S7, S30.
  rewrite !vol_not_null, !sma_not_null by lia.
  repeat split; intros Hc; apply Nat.eqb_eq in Hc.
  - apply Nat.eqb_eq. exact (COUNT_frame_narrow 7 30 i _ ltac:(lia) ltac:(lia) Hc).
  - destruct (COUNT_frame_full 7 i _ ltac:(lia) Hc) as (_ & _ & _ & Hall).
    rewrite Forall_forall in Hall. apply Hall.
    apply current_row_in_frame. now rewrite nth_error_map, Hw.
  - apply Nat.eqb_eq. exact (COUNT_frame_narrow 7 30 i _ ltac:(lia) ltac:(lia) Hc).
Qed.

(** C8: on every row the statement inserts, a non-null vol_30d comes with
    a non-null vol_7d, a non-null vol_7d with a non-null daily_return_pct,
    and a non-null sma_30 with a non-null sma_7. *)
Theorem null_waterfall (sqrt_num : Q -> Q) (db : database)
        (rows : list metric_row) (m : metric_row) :
  METRICS_SQL sqrt_num db = Ok rows -> In m rows ->
  (is_not_null (dm_vol_30d m) = true -> is_not_null (dm_vol_7d m) = true)
  /\ (is_not_null (dm_vol_7d m) = true ->
      is_not_null (dm_daily_return_pct m) = true)
  /\ (is_not_null (dm_sma_30 m) = true -> is_not_null (dm_sma_7 m) = true).
Proof.
  intros H Hm.
  destruct (METRICS_SQL_In _ _ _ _ H Hm) as (part & ms & Hms & Hin).
  exact (waterfall_of_partition _ _ _ _ Hms Hin).
Qed.

Lemma null_waterfall_witness :
  METRICS_SQL sqrt_6dp flat_db = Ok flat_db_rows
  /\ In row_35 flat_db_rows
  /\ (is_not_null (dm_vol_30d row_35) = true ->
      is_not_null (dm_vol_7d row_35) = true)
  /\ (is_not_null (dm_vol_7d row_35) = true ->
      is_not_null (dm_daily_return_pct row_35) = true)
  /\ (is_not_null (dm_sma_30 row_35) = true ->
      is_not_null (dm_sma_7 row_35) = true).
Proof.
  assert (H : METRICS_SQL sqrt_6dp flat_db = Ok flat_db_rows)
    by (vm_compute; reflexivity).
  assert (Hin : In row_35 flat_db_rows).
  { unfold flat_db_rows. do 35 right. left. reflexivity. }
  split; [exact H|]. split; [exact Hin|].
  exact (null_waterfall sqrt_6dp flat_db flat_db_rows row_35 H Hin).
Defined.

(** ** A constant series (C6) *)

Lemma Qcount_cons x xs : (Qcount (x :: xs) == 1 + Qcount xs)%Q.
Proof.
  unfold Qcount. simpl length. rewrite Nat2Z.inj_succ. unfold Z.succ.
  rewrite inject_Z_plus. ring.
Qed.

Lemma Qcount_nonzero x xs : ~ (Qcount (x :: xs) == 0)%Q.
Proof.
  unfold Qcount, Qeq. simpl Qnum. simpl Qden. simpl length. lia.
Qed.

Lemma Qsum_const c xs :
  Forall (fun x => (x == c)%Q) xs -> (Qsum xs == c * Qcount xs)%Q.
Proof.
  induction 1 as [|x xs Hx _ IH].
  - unfold Qcount. simpl. ring.
  - rewrite Qcount_cons. simpl. rewrite Hx, IH. ring.
Qed.

Lemma values_of_frame {A : Type} (P : A -> Prop) p q i (col : list (option A)) :
  (forall x, In (Some x) col -> P x) ->
  Forall P (values (rows_between p q i col)).
Proof.
  intros H. apply Forall_forall. intros x Hx.
  apply H. apply In_values in Hx. revert Hx. apply In_rows_between.
Qed.

Lemma AVG_const c w y :
  Forall (fun x => (x == c)%Q) (values w) -> AVG w = Some y -> (y == c)%Q.
Proof.
  intros Hf. unfold AVG. destruct (values w) as [|x xs] eqn:E; [discriminate|].
  intros [= <-]. rewrite (Qsum_const c _ Hf).
  field. apply Qcount_nonzero.
Qed.

Lemma var_pop_zero xs :
  Forall (fun x => (x == 0)%Q) xs -> (var_pop xs == 0)%Q.
Proof.
  intros Hf. unfold var_pop.
  assert (Hsq : Forall (fun x => (x == 0)%Q) (map (fun x => (x * x)%Q) xs)).
  { apply Forall_forall. intros y Hy. apply in_map_iff in Hy.
    destruct Hy as (x & <- & Hx). rewrite Forall_forall in Hf.
    rewrite (Hf x Hx). ring. }
  rewrite (Qsum_const 0 _ Hf), (Qsum_const 0 _ Hsq).
  unfold Qdiv. ring.
Qed.

Section Constant.

Variable sqrt_num : Q -> Q.
Hypothesis sqrt_zero : forall q, (q == 0)%Q -> (sqrt_num q == 0)%Q.

Lemma vol_of_zero_returns n part i y :
  (forall x, In (Some x) (map wr_daily_return_pct part) -> (x == 0)%Q) ->
  vol sqrt_num n part i = Some y -> (y == 0)%Q.
Proof.
  intros H. unfold vol. destruct (COUNT _ =? n); [|discriminate].
  unfold STDDEV_POP.
  pose proof (values_of_frame (fun x => (x == 0)%Q) (n - 1) 0 i _ H) as Hf.
  destruct (values _) as [|x xs]; [discriminate|].
  intros [= <-]. apply sqrt_zero, var_pop_zero, Hf.
Qed.

Lemma sma_of_constant_close n part i c y :
  (forall x, In (Some x) (map wr_close part) -> (x == c)%Q) ->
  sma n part i = Some y -> (y == c)%Q.
Proof.
  intros H. unfold sma. destruct (COUNT _ =? n); [|discriminate].
  apply AVG_const. now apply values_of_frame.
Qed.

Lemma returns_of_constant_close series wr c :
  ~ (c == 0)%Q ->
  Forall (fun r => holds (dp_close r) c) series ->
  with_returns_rows series = Ok wr ->
  forall x, In (Some x) (map wr_daily_return_pct wr) -> (x == 0)%Q.
Proof.
  intros Hc0 Hc H x Hx. apply In_nth_error in Hx. destruct Hx as (j & Hj).
  apply nth_error_map_Some in Hj. destruct Hj as (w & Hw & Ex).
  destruct (with_returns_rows_nth _ _ _ _ H Hw)
    as (bd & Hbd & _ & _ & _ & _ & Hret & _).
  rewrite <- Ex in Hret. clear Ex. rewrite Forall_forall in Hc.
  unfold daily_return_pct in Hret. destruct j as [|j]; simpl in Hret;
    [discriminate|].
  assert (Hlt : j < length series).
  { apply Nat.lt_succ_l. apply nth_error_Some. congruence. }
  pose proof (Hc _ (nth_error_In _ _ Hbd)) as Hcur.
  assert (Hprev : holds (nth j (map dp_close series) None) c).
  { rewrite (nth_indep _ None (dp_close bd)) by now rewrite length_map.
    rewrite map_nth. apply Hc, nth_In, Hlt. }
  destruct (nth j (map dp_close series) None) as [p|]; [|contradiction].
  destruct (dp_close bd) as [cur|]; [|contradiction].
  simpl in Hprev, Hcur, Hret.
  destruct (Qeq_bool p 0) eqn:E; [discriminate|].
  simpl in Hret. injection Hret as <-. rewrite Hprev, Hcur.
  unfold Qdiv. ring.
Qed.

Lemma constant_volume_means_nonzero series v :
  ~ (v == 0)%Q ->
  Forall (fun r => holds (dp_volume_usd r) v) series ->
  volume_means_nonzero series.
Proof.
  intros Hv Hf i _ _ Hz.
  destruct (AVG _) as [a|] eqn:E; [|contradiction]. simpl in Hz.
  apply Hv. rewrite <- Hz. symmetry. revert E. apply AVG_const.
  apply values_of_frame. intros x Hx. apply in_map_iff in Hx.
  destruct Hx as (r & Er & Hr). rewrite Forall_forall in Hf.
  specialize (Hf r Hr). now rewrite Er in Hf.
Qed.

Lemma ratio_of_constant_volume series ms i m v y :
  ~ (v == 0)%Q ->
  Forall (fun r => holds (dp_volume_usd r) v) series ->
  series_metrics sqrt_num series = Ok ms -> nth_error ms i = Some m ->
  dm_volume_ratio_30d m = Some y -> (y == 1)%Q.
Proof.
  intros Hv Hf H Hm Hy.
  destruct (volume_ratio_of_row _ _ _ _ _ H Hm) as (r & Hr & Hvr).
  rewrite Hy in Hvr. cbv zeta in Hvr.
  destruct (COUNT _ =? 30); [|discriminate].
  rewrite Forall_forall in Hf.
  pose proof (Hf r (nth_error_In _ _ Hr)) as Hcur.
  destruct (dp_volume_usd r) as [x|]; [|contradiction]. simpl in Hcur.
  destruct (AVG _) as [a|] eqn:E; [|discriminate].
  assert (Ha : (a == v)%Q).
  { revert E. apply AVG_const. apply values_of_frame.
    intros z Hz. apply in_map_iff in Hz. destruct Hz as (r' & Er & Hr').
    specialize (Hf r' Hr'). now rewrite Er in Hf. }
  simpl in Hvr. destruct (Qeq_bool a 0) eqn:E0; [discriminate|].
  simpl in Hvr. rewrite E0 in Hvr. injection Hvr as <-.
  rewrite Hcur, Ha. now field.
Qed.

End Constant.

(** C6, as stated, fails: on the row at position 6 vol_7d is NULL, not 0. *)
Lemma constant_series_as_specified_fails :
  length (flat_series 1 100 1000 40) = 40
  /\ gapless (flat_series 1 100 1000 40) = true
  /\ Forall (fun r => holds (dp_close r) 100 /\ holds (dp_volume_usd r) 1000)
            (flat_series 1 100 1000 40)
  /\ ~ constant_series_as_specified sqrt_6dp (flat_series 1 100 1000 40).
Proof.
  split; [reflexivity|]. split; [reflexivity|]. split.
  - apply Forall_forall. intros r Hr. apply in_map_iff in Hr.
    destruct Hr as (k & <- & _). split; reflexivity.
  - intros H.
    assert (E : series_metrics sqrt_6dp (flat_series 1 100 1000 40)
                = Ok (rows_of (series_metrics sqrt_6dp
                                              (flat_series 1 100 1000 40))))
      by (vm_compute; reflexivity).
    destruct (nth_error (rows_of (series_metrics sqrt_6dp
                                                 (flat_series 1 100 1000 40))) 6)
      as [m|] eqn:E6; [|vm_compute in E6; discriminate].
    destruct (H _ E 6 m E6) as (_ & H7 & _).
    specialize (H7 (Nat.le_refl 6)).
    vm_compute in E6. injection E6 as <-. exact H7.
Qed.

(** C6, amended: over 40 rows of close 100 and volume 1000,
    daily_return_pct is 0 from position 1, sma_7 is 100 from position 6,
    sma_30 is 100 from position 29 and volume_ratio_30d is 1 from position
    30, as stated, while vol_7d is 0 from position 7 and vol_30d is 0 from
    position 30 (both NULL before).  The square root maps 0 to 0. *)
Theorem constant_series_metrics (sqrt_num : Q -> Q)
        (series : list price_row) (ms : list metric_row) :
  (forall q, (q == 0)%Q -> (sqrt_num q == 0)%Q) ->
  length series = 40 ->
  Forall (fun r => holds (dp_close r) 100 /\ holds (dp_volume_usd r) 1000)
         series ->
  series_metrics sqrt_num series = Ok ms ->
  forall i m, nth_error ms i = Some m ->
    (1 <= i -> holds (dm_daily_return_pct m) 0)
    /\ (7 <= i -> holds (dm_vol_7d m) 0)
    /\ (i < 7 -> dm_vol_7d m = None)
    /\ (30 <= i -> holds (dm_vol_30d m) 0)
    /\ (i < 30 -> dm_vol_30d m = None)
    /\ (6 <= i -> holds (dm_sma_7 m) 100)
    /\ (29 <= i -> holds (dm_sma_30 m) 100)
    /\ (30 <= i -> holds (dm_volume_ratio_30d m) 1).
Proof.
  intros Hsqrt _ Hf H i m Hm.
  assert (Hc : Forall (fun r => holds (dp_close r) 100) series)
    by (eapply Forall_impl; [|exact Hf]; now intros r (Hr & _)).
  assert (Hv : Forall (fun r => holds (dp_volume_usd r) 1000) series)
    by (eapply Forall_impl; [|exact Hf]; now intros r (_ & Hr)).
  assert (Hcn : Forall (fun r => is_not_null (dp_close r) = true) series).
  { eapply Forall_impl; [|exact Hc]. intros r Hr. cbv beta in Hr.
    destruct (dp_close r); [reflexivity | elim Hr]. }
  assert (Hvn : Forall (fun r => is_not_null (dp_volume_usd r) = true) series).
  { eapply Forall_impl; [|exact Hv]. intros r Hr. cbv beta in Hr.
    destruct (dp_volume_usd r); [reflexivity | elim Hr]. }
  assert (H100 : ~ (100 == 0)%Q) by discriminate.
  assert (H1000 : ~ (1000 == 0)%Q) by discriminate.
  destruct (series_warm_up sqrt_num series ms Hcn H i m Hm)
    as (Nret & N7 & N30 & M7 & M30).
  pose proof (series_volume_ratio_present sqrt_num series ms Hvn
                (constant_volume_means_nonzero series 1000 H1000 Hv)
                H i m Hm) as Nvr.
  destruct (series_metrics_inv _ _ _ H) as (wr & Hwr & Hms & _ & _).
  destruct (with_all_metrics_rows_nth _ _ _ _ _ Hms Hm)
    as (w & Hw & _ & _ & Eret & _ & E7 & E30 & S7 & S30 & _).
  pose proof (returns_of_constant_close series wr 100 H100 Hc Hwr) as Hret.
  assert (Hcl : forall x, In (Some x) (map wr_close wr) -> (x == 100)%Q).
  { rewrite (with_returns_rows_close _ _ Hwr). intros x Hx.
    apply in_map_iff in Hx. destruct Hx as (r & Er & Hr).
    rewrite Forall_forall in Hc. specialize (Hc r Hr). now rewrite Er in Hc. }
  repeat split; intros Hi.
  - destruct (dm_daily_return_pct m) as [x|].
    + apply Hret. rewrite Eret. apply in_map, (nth_error_In _ _ Hw).
    + apply Nat.leb_le in Hi. rewrite Hi in Nret. discriminate.
  - destruct (dm_vol_7d m) as [x|].
    + symmetry in E7. exact (vol_of_zero_returns _ Hsqrt _ _ _ _ Hret E7).
    + apply Nat.leb_le in Hi. rewrite Hi in N7. discriminate.
  - apply Nat.leb_gt in Hi. rewrite Hi in N7.
    now destruct (dm_vol_7d m).
  - destruct (dm_vol_30d m) as [x|].
    + symmetry in E30. exact (vol_of_zero_returns _ Hsqrt _ _ _ _ Hret E30).
    + apply Nat.leb_le in Hi. rewrite Hi in N30. discriminate.
  - apply Nat.leb_gt in Hi. rewrite Hi in N30.
    now destruct (dm_vol_30d m).
  - destruct (dm_sma_7 m) as [x|].
    + symmetry in S7. exact (sma_of_constant_close _ _ _ _ _ Hcl S7).
    + apply Nat.leb_le in Hi. rewrite Hi in M7. discriminate.
  - destruct (dm_sma_30 m) as [x|].
    + symmetry in S30. exact (sma_of_constant_close _ _ _ _ _ Hcl S30).
    + apply Nat.leb_le in Hi. rewrite Hi in M30. discriminate.
  - destruct (dm_volume_ratio_30d m) as [x|] eqn:E.
    + exact (ratio_of_constant_volume sqrt_num _ _ _ _ 1000 _ H1000 Hv H Hm E).
    + apply Nat.leb_le in Hi. rewrite Hi in Nvr. discriminate.
Qed.

Lemma sqrt_6dp_zero q : (q == 0)%Q -> (sqrt_6dp q == 0)%Q.
Proof.
  intros Hq. unfold Qeq in Hq. simpl in Hq. rewrite Z.mul_1_r in Hq.
  unfold sqrt_6dp. rewrite Hq. reflexivity.
Defined.

Lemma constant_series_metrics_witness :
  let series := flat_series 1 100 1000 40 in
  let ms := rows_of (series_metrics sqrt_6dp series) in
  length series = 40
  /\ Forall (fun r => holds (dp_close r) 100 /\ holds (dp_volume_usd r) 1000)
            series
  /\ series_metrics sqrt_6dp series = Ok ms
  /\ forall i m, nth_error ms i = Some m ->
       (1 <= i -> holds (dm_daily_return_pct m) 0)
       /\ (7 <= i -> holds (dm_vol_7d m) 0)
       /\ (i < 7 -> dm_vol_7d m = None)
       /\ (30 <= i -> holds (dm_vol_30d m) 0)
       /\ (i < 30 -> dm_vol_30d m = None)
       /\ (6 <= i -> holds (dm_sma_7 m) 100)
       /\ (29 <= i -> holds (dm_sma_30 m) 100)
       /\ (30 <= i -> holds (dm_volume_ratio_30d m) 1).
Proof.
  intros series ms.
  assert (Hf : Forall (fun r => holds (dp_close r) 100
                                /\ holds (dp_volume_usd r) 1000) series).
  { apply Forall_forall. intros r Hr. apply in_map_iff in Hr.
    destruct Hr as (k & <- & _). split; reflexivity. }
  assert (E : series_metrics sqrt_6dp series = Ok ms)
    by (vm_compute; reflexivity).
  split; [reflexivity|]. split; [exact Hf|]. split; [exact E|].
  exact (constant_series_metrics sqrt_6dp series ms sqrt_6dp_zero
                                 eq_refl Hf E).
Defined.

(** ** The auditor and the entry point *)

Section Run.

Variable sqrt_num : Q -> Q.
Variable env : environment.

Lemma audit_row_spec row ok w :
  exists w', audit_row row ok w = (Ok (ok && row_matches row), w')
             /\ server w' = server w /\ conn w' = conn w
             /\ exists l, log w' = (log w ++ l)%list.
Proof.
  unfold audit_row, expect, row_matches, mbind, logger, ret.
  destruct (null_return row =? 1), (null_range row =? 0),
    (null_vol7 row =? 7), (null_vol30 row =? 30), (null_sma7 row =? 6),
    (null_sma30 row =? 29), (null_volratio row =? 30), ok; simpl;
    eexists; (split; [reflexivity|]); simpl;
    (split; [reflexivity|]); (split; [reflexivity|]);
    repeat rewrite <- app_assoc; eexists; reflexivity.
Qed.

Lemma audit_rows_spec rows :
  forall ok w,
  exists w', audit_rows rows ok w
             = (Ok (ok && forallb row_matches rows), w')
             /\ server w' = server w /\ conn w' = conn w
             /\ exists l, log w' = (log w ++ l)%list.
Proof.
  induction rows as [|row rows IH]; intros ok w; simpl.
  - exists w. rewrite andb_true_r. repeat split.
    exists []. now rewrite app_nil_r.
  - unfold mbind.
    destruct (audit_row_spec row ok w) as (w1 & E1 & S1 & C1 & l1 & L1).
    rewrite E1.
    destruct (IH (ok && row_matches row) w1) as (w2 & E2 & S2 & C2 & l2 & L2).
    exists w2. rewrite E2, andb_assoc. repeat split; try congruence.
    exists (l1 ++ l2)%list. now rewrite L2, L1, app_assoc.
Qed.

(** The auditor on an open connection, when its query goes through. *)
Lemma log_validation_summary_spec w c :
  conn w = Some c -> closed c = false -> select_error env = None ->
  exists w',
    log_validation_summary env w = (Ok tt, w')
    /\ server w' = server w /\ conn w' = conn w
    /\ exists l,
        log w' = (log w ++ l
                  ++ [summary_line
                        (forallb row_matches (validation_sql (txn c)))])%list.
Proof.
  intros Hc Hcl Hs.
  unfold log_validation_summary, cursor, execute_validation, mbind,
    the_connection, fault, ret, logger.
  do 3 (rewrite ?Hc, ?Hcl, ?Hs; cbv beta iota; cbn [server conn log]).
  match goal with
  | |- context [audit_rows ?rows ?ok ?w0] =>
      destruct (audit_rows_spec rows ok w0) as (w1 & E1 & S1 & C1 & l1 & L1)
  end.
  cbn [server conn log] in S1, C1, L1.
  rewrite E1. simpl andb. unfold summary_line.
  destruct (forallb row_matches (validation_sql (txn c)));
    eexists; (split; [reflexivity|]); cbn [server conn log];
    (split; [exact S1|]); (split; [congruence|]);
    rewrite L1; eexists (_ :: _ :: _ :: _ :: l1);
    repeat rewrite <- app_assoc; reflexivity.
Qed.

Lemma log_validation_summary_fault w c e :
  conn w = Some c -> closed c = false -> select_error env = Some e ->
  log_validation_summary env w = (Raise e, w).
Proof.
  intros Hc Hcl Hs.
  unfold log_validation_summary, cursor, execute_validation, mbind,
    the_connection, fault, ret, raise.
  do 3 (rewrite ?Hc, ?Hcl, ?Hs; cbv beta iota; cbn [server conn log]).
  reflexivity.
Qed.

Ltac run_steps :=
  cbv beta iota zeta delta
      [run main try_finally try_except get_db_connection compute_metrics
       cursor execute_delete execute_metrics commit rollback close
       conn_is_not_None mbind logger the_connection set_conn fault ret
       raise lift released reraised server conn log txn closed is_not_null
       fst snd].

Ltac caught e :=
  run_steps; destruct (is_Exception e); run_steps;
  try (destruct (rollback_error env); run_steps); auto.

(** Every way a run can end. *)
Lemma run_outcome db :
  released (snd (run sqrt_num env db))
  /\ match connect_error env with
     | Some e => fst (run sqrt_num env db) = Raise e
                 /\ server (snd (run sqrt_num env db)) = db
     | None =>
     match delete_error env with
     | Some e => fst (run sqrt_num env db) = reraised env e
                 /\ server (snd (run sqrt_num env db)) = db
     | None =>
     match insert_error env with
     | Some e => fst (run sqrt_num env db) = reraised env e
                 /\ server (snd (run sqrt_num env db)) = db
     | None =>
     match METRICS_SQL sqrt_num db with
     | Raise e => fst (run sqrt_num env db) = reraised env e
                  /\ server (snd (run sqrt_num env db)) = db
     | Ok rows =>
     match commit_error env with
     | Some e => fst (run sqrt_num env db) = reraised env e
                 /\ server (snd (run sqrt_num env db)) = db
     | None =>
         server (snd (run sqrt_num env db)) = with_daily_metrics db rows
         /\ match select_error env with
            | Some e => fst (run sqrt_num env db) = reraised env e
            | None =>
                fst (run sqrt_num env db) = Ok tt
                /\ In (summary_line
                         (forallb row_matches
                            (validation_sql (with_daily_metrics db rows))))
                      (log (snd (run sqrt_num env db)))
            end
     end end end end end.
Proof.
  run_steps.
  destruct (connect_error env) as [e|]; [caught e|].
  destruct (delete_error env) as [e|]; [caught e|].
  destruct (insert_error env) as [e|]; [caught e|].
  run_steps.
  change (METRICS_SQL sqrt_num (with_daily_metrics db []))
    with (METRICS_SQL sqrt_num db).
  destruct (METRICS_SQL sqrt_num db) as [rows|e]; [|caught e].
  destruct (commit_error env) as [e|]; [caught e|].
  run_steps.
  destruct (select_error env) as [e|] eqn:Hs.
  - match goal with
    | |- context [log_validation_summary env ?w0] =>
        rewrite (log_validation_summary_fault w0 _ e eq_refl eq_refl Hs)
    end.
    caught e.
  - match goal with
    | |- context [log_validation_summary env ?w0] =>
        destruct (log_validation_summary_spec w0 _ eq_refl eq_refl Hs)
          as (w1 & E1 & S1 & C1 & l1 & L1)
    end.
    rewrite E1. destruct w1 as [s1 c1 lg1].
    cbn [server conn log] in S1, C1, L1. subst s1 c1.
    run_steps.
    repeat split.
    do 3 (apply in_or_app; left). rewrite L1.
    do 2 (apply in_or_app; right). left. reflexivity.
Qed.
End Run.

(** ** Atomicity (C3) *)

(** C3, as stated, fails: when the connection is lost during the
    regenerate step, so that the rollback of the handler raises in its
    turn, the caller gets the exception of the rollback, not the original
    one. *)
Lemma all_or_nothing_as_specified_fails :
  mutation_fails sqrt_6dp connection_lost flat_db (OperationalError 1)
  /\ ~ all_or_nothing_as_specified sqrt_6dp connection_lost flat_db.
Proof.
  assert (Hf : mutation_fails sqrt_6dp connection_lost flat_db
                              (OperationalError 1)).
  { split; [reflexivity|]. right. left. split; reflexivity. }
  split; [exact Hf|].
  intros H. destruct (H _ Hf) as (Hr & _).
  destruct (run_outcome sqrt_6dp connection_lost flat_db) as (_ & Hout).
  cbn [connect_error delete_error insert_error connection_lost] in Hout.
  destruct Hout as (Hr' & _). rewrite Hr in Hr'. discriminate Hr'.
Qed.

(** C3, amended: whatever happens, a run leaves no connection open; when
    the delete step or the regenerate step fails, the committed database
    is the one the run started from; and the run raises that very
    exception provided the rollback of the handler does not raise in its
    turn (or the handler does not catch the exception) - when the rollback
    does raise, the run raises the exception of the rollback. *)
Theorem recompute_all_or_nothing (sqrt_num : Q -> Q) (env : environment)
        (db : database) :
  released (snd (run sqrt_num env db))
  /\ forall e, mutation_fails sqrt_num env db e ->
       server (snd (run sqrt_num env db)) = db
       /\ (rollback_error env = None \/ is_Exception e = false ->
           fst (run sqrt_num env db) = Raise e)
       /\ (forall e', is_Exception e = true ->
                      rollback_error env = Some e' ->
                      fst (run sqrt_num env db) = Raise e').
Proof.
  destruct (run_outcome sqrt_num env db) as (Hrel & Hout).
  split; [exact Hrel|].
  intros e (Hco & Hfail). rewrite Hco in Hout.
  assert (H : fst (run sqrt_num env db) = reraised env e
              /\ server (snd (run sqrt_num env db)) = db).
  { destruct Hfail as [Hd|[(Hd & Hi)|(Hd & Hi & Hm)]].
    - now rewrite Hd in Hout.
    - now rewrite Hd, Hi in Hout.
    - now rewrite Hd, Hi, Hm in Hout. }
  destruct H as (Hr & Hs). split; [exact Hs|]. rewrite Hr. unfold reraised.
  split.
  - intros [-> | ->]; [now destruct (is_Exception e) | reflexivity].
  - intros e' -> ->. reflexivity.
Qed.

Lemma recompute_all_or_nothing_witness :
  mutation_fails sqrt_6dp no_faults zero_low_db DivisionByZero
  /\ rollback_error no_faults = None
  /\ server (snd (run sqrt_6dp no_faults zero_low_db)) = zero_low_db
  /\ fst (run sqrt_6dp no_faults zero_low_db) = Raise DivisionByZero
  /\ released (snd (run sqrt_6dp no_faults zero_low_db)).
Proof.
  assert (Hf : mutation_fails sqrt_6dp no_faults zero_low_db DivisionByZero).
  { split; [reflexivity|]. right. right.
    split; [reflexivity|]. split; [reflexivity|]. vm_compute. reflexivity. }
  destruct (recompute_all_or_nothing sqrt_6dp no_faults zero_low_db)
    as (Hrel & Hall).
  destruct (Hall DivisionByZero Hf) as (Hs & Hr & _).
  split; [exact Hf|]. split; [reflexivity|]. split; [exact Hs|].
  split; [exact (Hr (or_introl eq_refl)) | exact Hrel].
Defined.

(** ** Idempotence (C4) *)

Lemma METRICS_SQL_ext sqrt_num db1 db2 :
  assets db1 = assets db2 -> daily_prices db1 = daily_prices db2 ->
  METRICS_SQL sqrt_num db1 = METRICS_SQL sqrt_num db2.
Proof.
  intros Ha Hp. unfold METRICS_SQL, base_data. now rewrite Ha, Hp.
Qed.

(** C4: when a recompute succeeds, a second one on its result returns the
    same count and leaves the same database, row for row; so does a
    recompute on any database with the same assets and prices, whatever
    its metrics were. *)
Theorem recompute_idempotent (sqrt_num : Q -> Q) (env : environment)
        (db : database) (n : nat) (db' : database) :
  recompute sqrt_num env db = Ok (n, db') ->
  recompute sqrt_num env db' = Ok (n, db')
  /\ forall db2, assets db2 = assets db ->
                 daily_prices db2 = daily_prices db ->
                 recompute sqrt_num env db2 = Ok (n, db').
Proof.
  intros H.
  destruct (recompute_faults _ _ _ _ _ H) as (Hd & Hi & Hc).
  destruct (recompute_Ok _ _ _ _ _ H) as (rows & Hr & -> & ->).
  assert (Hall : forall db2, assets db2 = assets db ->
                             daily_prices db2 = daily_prices db ->
                             recompute sqrt_num env db2
                             = Ok (length rows, with_daily_metrics db rows)).
  { intros db2 Ha Hp.
    rewrite (recompute_run sqrt_num env db2 rows Hd Hi Hc).
    - unfold with_daily_metrics. now rewrite Ha, Hp.
    - now rewrite (METRICS_SQL_ext sqrt_num db2 db Ha Hp). }
  split; [now apply Hall | exact Hall].
Qed.

Lemma recompute_idempotent_witness :
  recompute sqrt_6dp no_faults flat_db
  = Ok (length flat_db_rows, with_daily_metrics flat_db flat_db_rows)
  /\ recompute sqrt_6dp no_faults (with_daily_metrics flat_db flat_db_rows)
     = Ok (length flat_db_rows, with_daily_metrics flat_db flat_db_rows)
  /\ recompute sqrt_6dp no_faults (with_daily_metrics flat_db [])
     = Ok (length flat_db_rows, with_daily_metrics flat_db flat_db_rows).
Proof.
  assert (H : recompute sqrt_6dp no_faults flat_db
              = Ok (length flat_db_rows,
                    with_daily_metrics flat_db flat_db_rows))
    by (vm_compute; reflexivity).
  destruct (recompute_idempotent sqrt_6dp no_faults flat_db _ _ H)
    as (H2 & Hall).
  split; [exact H|]. split; [exact H2|].
  exact (Hall (with_daily_metrics flat_db []) eq_refl eq_refl).
Defined.

(** ** Validation mismatch (C7) *)

(** C7: when the auditor's query goes through it returns normally, with
    the committed database and the connection as they were and its
    summary line added to the log, a warning when some count differs from
    the expected one; and a run whose statements all go through returns
    normally with the recomputed metrics committed, mismatch or not. *)
Theorem validation_mismatch_is_not_fatal (sqrt_num : Q -> Q)
        (env : environment) :
  select_error env = None ->
  (forall w c,
      conn w = Some c -> closed c = false ->
      forallb row_matches (validation_sql (txn c)) = false ->
      exists w',
        log_validation_summary env w = (Ok tt, w')
        /\ server w' = server w /\ conn w' = conn w
        /\ exists l, log w' = (log w ++ l ++ [summary_line false])%list)
  /\ (forall db rows,
         connect_error env = None -> delete_error env = None ->
         insert_error env = None -> commit_error env = None ->
         METRICS_SQL sqrt_num db = Ok rows ->
         forallb row_matches (validation_sql (with_daily_metrics db rows))
         = false ->
         fst (run sqrt_num env db) = Ok tt
         /\ server (snd (run sqrt_num env db)) = with_daily_metrics db rows
         /\ In (summary_line false) (log (snd (run sqrt_num env db)))).
Proof.
  intros Hs. split.
  - intros w c Hc Hcl Hmis.
    destruct (log_validation_summary_spec env w c Hc Hcl Hs)
      as (w' & E & S & C & l & L).
    exists w'. rewrite Hmis in L. eauto 10.
  - intros db rows Hco Hd Hi Hcm Hr Hmis.
    destruct (run_outcome sqrt_num env db) as (_ & Hout).
    rewrite Hco, Hd, Hi, Hr, Hcm, Hs, Hmis in Hout.
    destruct Hout as (S & R & L). auto.
Qed.

Lemma validation_mismatch_is_not_fatal_witness :
  METRICS_SQL sqrt_6dp short_db = Ok short_db_rows
  /\ forallb row_matches
             (validation_sql (with_daily_metrics short_db short_db_rows))
     = false
  /\ fst (run sqrt_6dp no_faults short_db) = Ok tt
  /\ server (snd (run sqrt_6dp no_faults short_db))
     = with_daily_metrics short_db short_db_rows
  /\ In (summary_line false) (log (snd (run sqrt_6dp no_faults short_db))).
Proof.
  assert (Hr : METRICS_SQL sqrt_6dp short_db = Ok short_db_rows)
    by (vm_compute; reflexivity).
  assert (Hm : forallb row_matches
                       (validation_sql
                          (with_daily_metrics short_db short_db_rows))
               = false) by (vm_compute; reflexivity).
  split; [exact Hr|]. split; [exact Hm|].
  exact (proj2 (validation_mismatch_is_not_fatal sqrt_6dp no_faults eq_refl)
               short_db short_db_rows eq_refl eq_refl eq_refl eq_refl Hr Hm).
Defined.

(** ** Inactive assets (C9) *)

Lemma NoDup_map_inj {A B : Type} (f : A -> B) (l : list A) x y :
  NoDup (map f l) -> In x l -> In y l -> f x = f y -> x = y.
Proof.
  induction l as [|z l IH]; simpl; intros Hnd Hx Hy E; [contradiction|].
  inversion Hnd as [|? ? Hz Hnd']; subst.
  destruct Hx as [->|Hx], Hy as [->|Hy]; auto.
  - exfalso. apply Hz. rewrite E. now apply in_map.
  - exfalso. apply Hz. rewrite <- E. now apply in_map.
Qed.

(** C9: after a successful recompute the metrics are the rows the
    statement computed and nothing else, whatever the table held before;
    each of them belongs to an asset flagged active; and, asset_id being
    the key of assets, none belongs to an inactive asset. *)
Theorem inactive_assets_have_no_metrics (sqrt_num : Q -> Q)
        (env : environment) (db : database) (n : nat) (db' : database) :
  recompute sqrt_num env db = Ok (n, db') ->
  METRICS_SQL sqrt_num db = Ok (daily_metrics db')
  /\ (forall m, In m (daily_metrics db') ->
                exists a, In a (assets db)
                          /\ a_asset_id a = dm_asset_id m
                          /\ a_is_active a = true)
  /\ (NoDup (map a_asset_id (assets db)) ->
      forall a, In a (assets db) -> a_is_active a = false ->
                forall m, In m (daily_metrics db') ->
                          dm_asset_id m <> a_asset_id a).
Proof.
  intros H.
  destruct (recompute_Ok _ _ _ _ _ H) as (rows & Hr & _ & ->).
  cbn [daily_metrics with_daily_metrics].
  split; [exact Hr|]. split.
  - intros m Hm. exact (METRICS_SQL_active _ _ _ _ Hr Hm).
  - intros Hkey a Ha Hina m Hm E.
    destruct (METRICS_SQL_active _ _ _ _ Hr Hm) as (a' & Ha' & Hid & Hact).
    assert (a' = a).
    { apply (NoDup_map_inj a_asset_id (assets db)); auto. congruence. }
    subst a'. congruence.
Qed.

Lemma inactive_assets_have_no_metrics_witness :
  recompute sqrt_6dp no_faults flat_db
  = Ok (length flat_db_rows, with_daily_metrics flat_db flat_db_rows)
  /\ NoDup (map a_asset_id (assets flat_db))
  /\ In (stale_row 2) (daily_metrics flat_db)
  /\ In eth (assets flat_db) /\ a_is_active eth = false
  /\ forall m,
       In m (daily_metrics (with_daily_metrics flat_db flat_db_rows)) ->
       dm_asset_id m <> a_asset_id eth.
Proof.
  assert (H : recompute sqrt_6dp no_faults flat_db
              = Ok (length flat_db_rows,
                    with_daily_metrics flat_db flat_db_rows))
    by (vm_compute; reflexivity).
  assert (Hk : NoDup (map a_asset_id (assets flat_db))).
  { constructor; [|constructor; [|constructor]]; simpl; intuition discriminate. }
  assert (He : In eth (assets flat_db)) by (right; left; reflexivity).
  split; [exact H|]. split; [exact Hk|].
  split; [right; left; reflexivity|].
  split; [exact He|]. split; [reflexivity|].
  exact (proj2 (proj2 (inactive_assets_have_no_metrics
                         sqrt_6dp no_faults flat_db _ _ H))
               Hk eth He eq_refl).
Defined.

(** ** Null counts (C1) *)

Lemma filter_insert_by_key {A : Type} (key : A -> Z) a x l :
  filter (fun r => (key r =? a)%Z) (insert_by key x l)
  = filter (fun r => (key r =? a)%Z) (x :: l).
Proof.
  induction l as [|y l IH]; [reflexivity|]. simpl insert_by.
  destruct (Z.leb_spec (key x) (key y)) as [Hle|Hgt]; [reflexivity|].
  simpl. simpl in IH. rewrite IH.
  destruct (Z.eqb_spec (key y) a), (Z.eqb_spec (key x) a); try reflexivity.
  lia.
Qed.

Lemma filter_order_by_key {A : Type} (key : A -> Z) a l :
  filter (fun r => (key r =? a)%Z) (order_by key l)
  = filter (fun r => (key r =? a)%Z) l.
Proof.
  induction l as [|x l IH]; [reflexivity|]. simpl order_by.
  rewrite filter_insert_by_key. simpl. now rewrite IH.
Qed.

Lemma insert_by_head {A : Type} (key : A -> Z) x l :
  Forall (fun z => (key x <= key z)%Z) l -> insert_by key x l = x :: l.
Proof.
  destruct l as [|y l]; [reflexivity|]. intros H. simpl.
  inversion H as [|? ? Hy _]; subst.
  now replace (key x <=? key y)%Z with true by (symmetry; now apply Z.leb_le).
Qed.

Lemma Sorted_map_Forall {A : Type} (key : A -> Z) y l :
  Sorted Z.le (map key (y :: l)) -> Forall (fun z => (key y <= key z)%Z) l.
Proof.
  intros H. simpl in H. apply Sorted_extends in H.
  - rewrite Forall_map in H. exact H.
  - intros a b c. apply Z.le_trans.
Qed.

Lemma filter_insert_by {A : Type} (f : A -> bool) (key : A -> Z) x l :
  Sorted Z.le (map key l) ->
  filter f (insert_by key x l)
  = if f x then insert_by key x (filter f l) else filter f l.
Proof.
  induction l as [|y l IH]; intros Hs.
  - simpl. now destruct (f x).
  - pose proof (Sorted_map_Forall key y l Hs) as Hall.
    simpl in Hs. apply Sorted_inv in Hs. destruct Hs as (Hs & _).
    specialize (IH Hs). simpl insert_by.
    destruct (Z.leb_spec (key x) (key y)) as [Hle|Hgt].
    + simpl. destruct (f x); [|reflexivity].
      symmetry. apply insert_by_head.
      destruct (f y); [constructor; [exact Hle|]|];
        apply Forall_forall; intros z Hz; apply filter_In in Hz;
        destruct Hz as (Hz & _); rewrite Forall_forall in Hall;
        specialize (Hall z Hz); lia.
    + simpl. rewrite IH. destruct (f y), (f x); try reflexivity.
      simpl. now replace (key x <=? key y)%Z with false
        by (symmetry; apply Z.leb_gt; lia).
Qed.

Lemma filter_order_by {A : Type} (f : A -> bool) (key : A -> Z) l :
  filter f (order_by key l) = order_by key (filter f l).
Proof.
  induction l as [|x l IH]; [reflexivity|]. simpl order_by.
  rewrite filter_insert_by by apply order_by_sorted.
  simpl. rewrite IH. now destruct (f x).
Qed.

Lemma order_by_twice {A : Type} (key : A -> Z) l :
  order_by key (order_by key l) = order_by key l.
Proof. apply order_by_id, order_by_sorted. Qed.

(** A key value selects at most one row. *)
Lemma filter_key_unique {A : Type} (key : A -> Z) (g : A -> bool) l x :
  NoDup (map key l) -> In x l ->
  filter (fun y => (key y =? key x)%Z && g y) l = if g x then [x] else [].
Proof.
  induction l as [|z l IH]; simpl; intros Hnd Hx; [contradiction|].
  inversion Hnd as [|? ? Hz Hnd']; subst.
  destruct Hx as [->|Hx].
  - rewrite Z.eqb_refl. simpl.
    assert (Hnone : filter (fun y => (key y =? key x)%Z && g y) l = []).
    { apply filter_none. apply Forall_forall. intros y Hy.
      apply andb_false_iff. left. apply Z.eqb_neq. intros E.
      apply Hz. rewrite <- E. now apply in_map. }
    rewrite Hnone. now destruct (g x).
  - replace (key z =? key x)%Z with false.
    + simpl. now apply IH.
    + symmetry. apply Z.eqb_neq. intros E. apply Hz. rewrite E.
      now apply in_map.
Qed.

Lemma filter_map_const {A B : Type} (f : B -> bool) (b : B) (l : list A) :
  filter f (map (fun _ => b) l) = if f b then map (fun _ => b) l else [].
Proof.
  induction l as [|x l IH]; simpl; [now destruct (f b)|].
  rewrite IH. now destruct (f b).
Qed.

(** With asset_id the key of assets, base_data holds each price row of an
    active asset once. *)
Lemma price_series_asset_series db a :
  NoDup (map a_asset_id (assets db)) ->
  In a (assets db) -> a_is_active a = true ->
  price_series db (a_asset_id a) = asset_series db (a_asset_id a).
Proof.
  intros Hk Ha Hact. unfold price_series, partition_of, base_data, asset_series.
  rewrite filter_order_by_key, filter_order_by, order_by_twice. f_equal.
  induction (daily_prices db) as [|dp ps IH]; [reflexivity|].
  simpl. rewrite filter_app, IH, filter_map_const.
  destruct (Z.eqb_spec (dp_asset_id dp) (a_asset_id a)) as [E|E].
  - rewrite E, (filter_key_unique a_asset_id a_is_active _ a Hk Ha), Hact.
    reflexivity.
  - reflexivity.
Qed.

Lemma null_before_of_rows (col : metric_row -> option Q) (k : nat) ms :
  (forall i m, nth_error ms i = Some m -> is_not_null (col m) = (k <=? i)) ->
  null_before k (map col ms).
Proof.
  intros H j v Hj. apply nth_error_map_Some in Hj.
  destruct Hj as (m & Hm & ->). exact (H j m Hm).
Qed.

(** The null counts of one series. *)
Lemma series_null_counts sqrt_num series ms :
  30 <= length series ->
  Forall all_present series ->
  volume_means_nonzero series ->
  series_metrics sqrt_num series = Ok ms ->
  expected_null_counts ms.
Proof.
  intros Hlen Hp Hz H.
  assert (Hc : Forall (fun r => is_not_null (dp_close r) = true) series)
    by (eapply Forall_impl; [|exact Hp]; now intros r (_ & Hr & _)).
  assert (Hv : Forall (fun r => is_not_null (dp_volume_usd r) = true) series)
    by (eapply Forall_impl; [|exact Hp]; now intros r (_ & _ & Hr & _)).
  assert (Hhl : Forall (fun r => is_not_null (dp_high r) = true
                                 /\ is_not_null (dp_low r) = true) series)
    by (eapply Forall_impl; [|exact Hp]; now intros r (_ & _ & _ & Hr)).
  destruct (series_metrics_inv _ _ _ H) as (_ & _ & _ & _ & Lms).
  pose proof (series_warm_up sqrt_num series ms Hc H) as Hw.
  pose proof (series_volume_ratio_present sqrt_num series ms Hv Hz H) as Hvr.
  pose proof (series_range_present sqrt_num series ms Hhl H) as Hrng.
  unfold expected_null_counts.
  repeat split; apply null_count_null_before; try lia;
    apply null_before_of_rows; intros i m Hm;
    try (destruct (Hw i m Hm) as (R1 & R2 & R3 & R4 & R5); assumption).
  - exact (Hvr i m Hm).
  - rewrite (Hrng i m Hm). reflexivity.
Qed.

Lemma group_rows (assets0 : list asset_row) (dms : list metric_row) a :
  NoDup (map a_asset_id assets0) -> In a assets0 ->
  map snd
      (filter (fun p : string * metric_row =>
                 if group_key_dec (fst p, dm_asset_id (snd p))
                                  (a_symbol a, a_asset_id a)
                 then true else false)
              (flat_map
                 (fun dm =>
                    map (fun x => (a_symbol x, dm))
                        (filter (fun x => (a_asset_id x =? dm_asset_id dm)%Z)
                                assets0))
                 dms))
  = filter (fun m => (dm_asset_id m =? a_asset_id a)%Z) dms.
Proof.
  intros Hk Ha. induction dms as [|dm dms IH]; [reflexivity|].
  cbn [flat_map filter]. rewrite filter_app, map_app, IH.
  destruct (Z.eqb_spec (dm_asset_id dm) (a_asset_id a)) as [E|E].
  - rewrite E.
    rewrite (filter_ext _ (fun y => (a_asset_id y =? a_asset_id a)%Z && true))
      by (intros y; now rewrite andb_true_r).
    rewrite (filter_key_unique a_asset_id (fun _ => true) _ a Hk Ha).
    cbn [map filter fst snd]. rewrite E.
    destruct (group_key_dec _ _) as [_|N]; [reflexivity | now elim N].
  - rewrite filter_none; [reflexivity|].
    apply Forall_forall. intros p Hp. apply in_map_iff in Hp.
    destruct Hp as (x & <- & _). cbn [fst snd].
    destruct (group_key_dec _ _) as [Y|_]; [|reflexivity].
    injection Y as _ Y. contradiction.
Qed.

(** The auditor's row for an asset whose id is a key of assets. *)
Lemma validation_sql_asset db a :
  NoDup (map a_asset_id (assets db)) -> In a (assets db) ->
  asset_metrics (daily_metrics db) (a_asset_id a) <> [] ->
  In {| v_symbol := a_symbol a;
        v_asset_id := a_asset_id a;
        total_rows := length (asset_metrics (daily_metrics db) (a_asset_id a));
        null_return :=
          null_count dm_daily_return_pct
                     (asset_metrics (daily_metrics db) (a_asset_id a));
        null_range :=
          null_count dm_daily_range_pct
                     (asset_metrics (daily_metrics db) (a_asset_id a));
        null_vol7 :=
          null_count dm_vol_7d
                     (asset_metrics (daily_metrics db) (a_asset_id a));
        null_vol30 :=
          null_count dm_vol_30d
                     (asset_metrics (daily_metrics db) (a_asset_id a));
        null_sma7 :=
          null_count dm_sma_7
                     (asset_metrics (daily_metrics db) (a_asset_id a));
        null_sma30 :=
          null_count dm_sma_30
                     (asset_metrics (daily_metrics db) (a_asset_id a));
        null_volratio :=
          null_count dm_volume_ratio_30d
                     (asset_metrics (daily_metrics db) (a_asset_id a)) |}
     (validation_sql db).
Proof.
  intros Hk Ha Hne. unfold validation_sql.
  apply in_map_iff. exists (a_symbol a, a_asset_id a).
  cbn [fst snd]. rewrite (group_rows (assets db) (daily_metrics db) a Hk Ha).
  split; [reflexivity|].
  apply order_by_In, nodup_In.
  destruct (asset_metrics (daily_metrics db) (a_asset_id a))
    as [|m rest] eqn:Eg; [now elim Hne|].
  assert (Hm : In m (asset_metrics (daily_metrics db) (a_asset_id a)))
    by (rewrite Eg; now left).
  apply filter_In in Hm. destruct Hm as (Hm & Hid). apply Z.eqb_eq in Hid.
  apply in_map_iff. exists (a_symbol a, m). split.
  - cbn [fst snd]. now rewrite Hid.
  - apply in_flat_map. exists m. split; [exact Hm|].
    apply in_map_iff. exists a. split; [reflexivity|].
    apply filter_In. split; [exact Ha|]. apply Z.eqb_eq. now symmetry.
Qed.

Lemma asset_series_flat (db : database) a price volume n :
  daily_prices db = flat_series a price volume n ->
  Forall all_present (asset_series db a)
  /\ Forall (fun r => holds (dp_volume_usd r) volume) (asset_series db a).
Proof.
  intros E. unfold asset_series. rewrite E.
  split; apply Forall_forall; intros r Hr; apply order_by_In in Hr;
    apply filter_In in Hr; destruct Hr as (Hr & _);
    apply in_map_iff in Hr; destruct Hr as (k & <- & _).
  - repeat split.
  - simpl. reflexivity.
Defined.

(** C1, as stated, fails: an active asset with 37 gapless, complete days
    on which no volume was traded gets a NULL volume_ratio_30d on all 37
    rows, the mean of every 30 preceding volumes being 0. *)
Lemma null_counts_as_specified_fails :
  NoDup (map a_asset_id (assets zero_volume_db))
  /\ ~ null_counts_as_specified sqrt_6dp no_faults zero_volume_db.
Proof.
  split.
  - constructor; [|constructor; [|constructor]]; simpl; intuition discriminate.
  - intros H.
    assert (Hr : recompute sqrt_6dp no_faults zero_volume_db
                 = Ok (37, with_daily_metrics zero_volume_db
                                              zero_volume_db_rows))
      by (vm_compute; reflexivity).
    assert (Hl : 37 <= length (asset_series zero_volume_db (a_asset_id btc)))
      by (vm_compute; apply le_n).
    assert (Hg : gapless (asset_series zero_volume_db (a_asset_id btc)) = true)
      by (vm_compute; reflexivity).
    pose proof (H 37 _ btc Hr (or_introl eq_refl) eq_refl Hl Hg
                  (proj1 (asset_series_flat zero_volume_db 1 100 0 37 eq_refl)))
      as (_ & _ & _ & _ & _ & Hvr & _).
    clear - Hvr. vm_compute in Hvr. discriminate Hvr.
Qed.

(** C1, amended: asset_id being the key of assets, for every active asset
    whose price series has at least 37 rows, all of open, high, low, close
    and volume non-null on every row, and no 30 consecutive volumes of
    mean 0, the metrics a successful recompute commits hold, for that
    asset, exactly 1 NULL daily_return_pct, 7 NULL vol_7d, 30 NULL vol_30d,
    6 NULL sma_7, 29 NULL sma_30, 30 NULL volume_ratio_30d and no NULL
    daily_range_pct; the auditor's query returns a row for the asset, and
    the row passes its seven tests. *)
Theorem null_counts_after_recompute (sqrt_num : Q -> Q) (env : environment)
        (db : database) (n : nat) (db' : database) (a : asset_row) :
  recompute sqrt_num env db = Ok (n, db') ->
  NoDup (map a_asset_id (assets db)) ->
  In a (assets db) -> a_is_active a = true ->
  37 <= length (asset_series db (a_asset_id a)) ->
  Forall all_present (asset_series db (a_asset_id a)) ->
  volume_means_nonzero (asset_series db (a_asset_id a)) ->
  expected_null_counts (asset_metrics (daily_metrics db') (a_asset_id a))
  /\ exists row, In row (validation_sql db')
                 /\ v_symbol row = a_symbol a
                 /\ v_asset_id row = a_asset_id a
                 /\ row_matches row = true.
Proof.
  intros H Hk Ha Hact Hlen Hp Hz.
  destruct (recompute_Ok _ _ _ _ _ H) as (rows & Hr & _ & ->).
  cbn [daily_metrics with_daily_metrics].
  destruct (METRICS_SQL_asset sqrt_num db rows (a_asset_id a) Hr)
    as (ms & Hms & Hperm).
  rewrite (price_series_asset_series db a Hk Ha Hact) in Hms.
  assert (Hcounts : expected_null_counts ms).
  { apply (series_null_counts sqrt_num _ ms) in Hms; auto. lia. }
  assert (Hc : expected_null_counts (asset_metrics rows (a_asset_id a))).
  { unfold expected_null_counts in *.
    now rewrite !(Permutation_null_count _ _ _ Hperm). }
  split; [exact Hc|].
  destruct Hc as (C1 & C2 & C3 & C4 & C5 & C6 & C7).
  assert (Hne : asset_metrics rows (a_asset_id a) <> []).
  { intros E. rewrite E in C1. discriminate C1. }
  pose proof (validation_sql_asset (with_daily_metrics db rows) a Hk Ha Hne)
    as Hrow.
  cbn [daily_metrics with_daily_metrics] in Hrow.
  eexists. split; [exact Hrow|]. split; [reflexivity|].
  split; [reflexivity|].
  unfold row_matches.
  cbn [null_return null_range null_vol7 null_vol30 null_sma7 null_sma30
       null_volratio].
  now rewrite C1, C2, C3, C4, C5, C6, C7.
Qed.

Lemma null_counts_after_recompute_witness :
  recompute sqrt_6dp no_faults flat_db
  = Ok (length flat_db_rows, with_daily_metrics flat_db flat_db_rows)
  /\ NoDup (map a_asset_id (assets flat_db))
  /\ In btc (assets flat_db) /\ a_is_active btc = true
  /\ 37 <= length (asset_series flat_db (a_asset_id btc))
  /\ expected_null_counts
       (asset_metrics (daily_metrics (with_daily_metrics flat_db flat_db_rows))
                      (a_asset_id btc)).
Proof.
  assert (H : recompute sqrt_6dp no_faults flat_db
              = Ok (length flat_db_rows,
                    with_daily_metrics flat_db flat_db_rows))
    by (vm_compute; reflexivity).
  assert (Hk : NoDup (map a_asset_id (assets flat_db))).
  { constructor; [|constructor; [|constructor]]; simpl; intuition discriminate. }
  assert (Ha : In btc (assets flat_db)) by (left; reflexivity).
  assert (Hl : 37 <= length (asset_series flat_db (a_asset_id btc)))
    by (vm_compute; repeat constructor).
  assert (Hs : asset_series flat_db (a_asset_id btc)
               = flat_series 1 100 1000 40) by (vm_compute; reflexivity).
  assert (Hp : Forall all_present (asset_series flat_db (a_asset_id btc))).
  { rewrite Hs. apply flat_series_present. }
  assert (Hz : volume_means_nonzero (asset_series flat_db (a_asset_id btc))).
  { rewrite Hs. apply (constant_volume_means_nonzero _ 1000).
    - discriminate.
    - apply Forall_forall. intros r Hr. apply in_map_iff in Hr.
      destruct Hr as (k & <- & _). reflexivity. }
  split; [exact H|]. split; [exact Hk|]. split; [exact Ha|].
  split; [reflexivity|]. split; [exact Hl|].
  exact (proj1 (null_counts_after_recompute sqrt_6dp no_faults flat_db _ _ btc
                                            H Hk Ha eq_refl Hl Hp Hz)).
Defined.

(** * Further properties *)

(** ** The two per-row metrics *)

(** A row of the result, read off the row of the series at the same
    position. *)
Lemma series_metrics_row sqrt_num series ms i r m :
  series_metrics sqrt_num series = Ok ms ->
  nth_error series i = Some r -> nth_error ms i = Some m ->
  dm_asset_id m = dp_asset_id r
  /\ dm_date m = dp_date r
  /\ daily_return_pct series i r = Ok (dm_daily_return_pct m)
  /\ daily_range_pct r = Ok (dm_daily_range_pct m).
Proof.
  intros H Hr Hm.
  destruct (series_metrics_inv _ _ _ H) as (wr & Hwr & Hms & _ & _).
  destruct (with_all_metrics_rows_nth _ _ _ _ _ Hms Hm)
    as (w & Hw & Ea & Ed & Eret & Erng & _).
  destruct (with_returns_rows_nth _ _ _ _ Hwr Hw)
    as (bd & Hbd & Ea' & Ed' & _ & _ & Hret & Hrng).
  rewrite Hr in Hbd. injection Hbd as <-.
  rewrite Ea, Ed, Eret, Erng. auto.
Qed.

Lemma LAG_succ (series : list price_row) j p :
  nth_error series j = Some p ->
  LAG (map dp_close series) (S j) = dp_close p.
Proof.
  intros Hp. simpl.
  apply nth_error_nth. now rewrite nth_error_map, Hp.
Qed.

(** X1: metric 1 is NULL on the first row of a series; on any other row it
    is NULL exactly when the close of the row or the close of the row before
    it is NULL. *)
Theorem daily_return_null_pattern (sqrt_num : Q -> Q)
        (series : list price_row) (ms : list metric_row) (i : nat)
        (r : price_row) (m : metric_row) :
  series_metrics sqrt_num series = Ok ms ->
  nth_error series i = Some r -> nth_error ms i = Some m ->
  (i = 0 -> dm_daily_return_pct m = None)
  /\ (forall j p, i = S j -> nth_error series j = Some p ->
        is_not_null (dm_daily_return_pct m)
        = is_not_null (dp_close p) && is_not_null (dp_close r)).
Proof.
  intros H Hr Hm.
  destruct (series_metrics_row _ _ _ _ _ _ H Hr Hm) as (_ & _ & Hret & _).
  unfold daily_return_pct in Hret. split.
  - intros ->. simpl in Hret. now injection Hret as <-.
  - intros j p -> Hp. rewrite (LAG_succ _ _ _ Hp) in Hret.
    destruct (dp_close p) as [c0|]; simpl in Hret.
    + destruct (dp_close r) as [c1|]; simpl in Hret.
      * destruct (Qeq_bool c0 0); [discriminate|].
        simpl in Hret. now injection Hret as <-.
      * now injection Hret as <-.
    + now injection Hret as <-.
Qed.

Lemma ramp_series_metrics :
  series_metrics sqrt_6dp (ramp_series 1 40) = Ok ramp_rows.
Proof. vm_compute. reflexivity. Qed.

Lemma holed_series_metrics :
  series_metrics sqrt_6dp holed_series = Ok holed_rows.
Proof. vm_compute. reflexivity. Qed.

Lemma daily_return_null_pattern_witness :
  series_metrics sqrt_6dp (ramp_series 1 40) = Ok ramp_rows
  /\ nth_error (ramp_series 1 40) 1 = Some ramp_price_1
  /\ nth_error ramp_rows 1 = Some ramp_metric_1
  /\ (1 = 0 -> dm_daily_return_pct ramp_metric_1 = None)
  /\ (forall j p, 1 = S j -> nth_error (ramp_series 1 40) j = Some p ->
        is_not_null (dm_daily_return_pct ramp_metric_1)
        = is_not_null (dp_close p) && is_not_null (dp_close ramp_price_1)).
Proof.
  pose proof ramp_series_metrics as H.
  assert (Hr : nth_error (ramp_series 1 40) 1 = Some ramp_price_1)
    by reflexivity.
  assert (Hm : nth_error ramp_rows 1 = Some ramp_metric_1) by reflexivity.
  split; [exact H|]. split; [exact Hr|]. split; [exact Hm|].
  exact (daily_return_null_pattern sqrt_6dp _ _ 1 _ _ H Hr Hm).
Defined.

(** X2: metric 1, where it is computed, is the simple return in percent,
    [(close / previous close - 1) * 100], the arithmetic taken as exact; the
    previous close of a statement that succeeds is not 0. *)
Theorem daily_return_value (sqrt_num : Q -> Q) (series : list price_row)
        (ms : list metric_row) (j : nat) (p r : price_row) (m : metric_row)
        (c0 c1 : Q) :
  series_metrics sqrt_num series = Ok ms ->
  nth_error series j = Some p -> nth_error series (S j) = Some r ->
  nth_error ms (S j) = Some m ->
  dp_close p = Some c0 -> dp_close r = Some c1 ->
  ~ (c0 == 0)%Q /\ holds (dm_daily_return_pct m) ((c1 / c0 - 1) * 100)%Q.
Proof.
  intros H Hp Hr Hm E0 E1.
  destruct (series_metrics_row _ _ _ _ _ _ H Hr Hm) as (_ & _ & Hret & _).
  unfold daily_return_pct in Hret.
  rewrite (LAG_succ _ _ _ Hp), E0, E1 in Hret. simpl in Hret.
  destruct (Qeq_bool c0 0) eqn:E; [discriminate|].
  apply Qeq_bool_neq in E. simpl in Hret. injection Hret as <-.
  split; [exact E|]. simpl. field. exact E.
Qed.

Lemma daily_return_value_witness :
  series_metrics sqrt_6dp (ramp_series 1 40) = Ok ramp_rows
  /\ nth_error (ramp_series 1 40) 0 = Some (ramp_row 1 0)
  /\ nth_error (ramp_series 1 40) 1 = Some ramp_price_1
  /\ nth_error ramp_rows 1 = Some ramp_metric_1
  /\ dp_close (ramp_row 1 0) = Some 100%Q
  /\ dp_close ramp_price_1 = Some 101%Q
  /\ ~ (100 == 0)%Q
  /\ holds (dm_daily_return_pct ramp_metric_1) ((101 / 100 - 1) * 100)%Q.
Proof.
  pose proof ramp_series_metrics as H.
  assert (Hp : nth_error (ramp_series 1 40) 0 = Some (ramp_row 1 0))
    by reflexivity.
  assert (Hr : nth_error (ramp_series 1 40) 1 = Some ramp_price_1)
    by reflexivity.
  assert (Hm : nth_error ramp_rows 1 = Some ramp_metric_1) by reflexivity.
  assert (E0 : dp_close (ramp_row 1 0) = Some 100%Q) by reflexivity.
  assert (E1 : dp_close ramp_price_1 = Some 101%Q) by reflexivity.
  split; [exact H|]. split; [exact Hp|]. split; [exact Hr|].
  split; [exact Hm|]. split; [exact E0|]. split; [exact E1|].
  exact (daily_return_value sqrt_6dp _ _ 0 _ _ _ 100%Q 101%Q
                            H Hp Hr Hm E0 E1).
Defined.

(** X3: metric 2 is NULL exactly when the high or the low of the row is. *)
Theorem daily_range_null_pattern (sqrt_num : Q -> Q)
        (series : list price_row) (ms : list metric_row) (i : nat)
        (r : price_row) (m : metric_row) :
  series_metrics sqrt_num series = Ok ms ->
  nth_error series i = Some r -> nth_error ms i = Some m ->
  is_not_null (dm_daily_range_pct m)
  = is_not_null (dp_high r) && is_not_null (dp_low r).
Proof.
  intros H Hr Hm.
  destruct (series_metrics_row _ _ _ _ _ _ H Hr Hm) as (_ & _ & _ & Hrng).
  unfold daily_range_pct in Hrng.
  destruct (dp_high r) as [h|], (dp_low r) as [l|]; simpl in Hrng;
    try (now injection Hrng as <-).
  destruct (Qeq_bool l 0); [discriminate|].
  simpl in Hrng. now injection Hrng as <-.
Qed.

Lemma daily_range_null_pattern_witness :
  series_metrics sqrt_6dp holed_series = Ok holed_rows
  /\ nth_error holed_series 10 = Some (blank_row 1 10)
  /\ nth_error holed_rows 10 = Some (nth 10 holed_rows (stale_row 0))
  /\ is_not_null (dm_daily_range_pct (nth 10 holed_rows (stale_row 0)))
     = is_not_null (dp_high (blank_row 1 10))
       && is_not_null (dp_low (blank_row 1 10)).
Proof.
  pose proof holed_series_metrics as H.
  assert (Hr : nth_error holed_series 10 = Some (blank_row 1 10))
    by reflexivity.
  assert (Hm : nth_error holed_rows 10
               = Some (nth 10 holed_rows (stale_row 0))) by reflexivity.
  split; [exact H|]. split; [exact Hr|]. split; [exact Hm|].
  exact (daily_range_null_pattern sqrt_6dp _ _ 10 _ _ H Hr Hm).
Defined.

(** X4: metric 2 is not negative when the low is positive and the high is
    not below it. *)
Theorem daily_range_nonnegative (sqrt_num : Q -> Q)
        (series : list price_row) (ms : list metric_row) (i : nat)
        (r : price_row) (m : metric_row) (h l : Q) :
  series_metrics sqrt_num series = Ok ms ->
  nth_error series i = Some r -> nth_error ms i = Some m ->
  dp_high r = Some h -> dp_low r = Some l ->
  (0 < l)%Q -> (l <= h)%Q ->
  exists y, dm_daily_range_pct m = Some y /\ (0 <= y)%Q.
Proof.
  intros H Hr Hm Eh El Hl Hh.
  destruct (series_metrics_row _ _ _ _ _ _ H Hr Hm) as (_ & _ & _ & Hrng).
  unfold daily_range_pct in Hrng. rewrite Eh, El in Hrng. simpl in Hrng.
  destruct (Qeq_bool l 0); [discriminate|].
  simpl in Hrng. injection Hrng as <-.
  eexists. split; [reflexivity|].
  apply Qmult_le_0_compat; [|discriminate].
  apply Qle_shift_div_l; [exact Hl|].
  rewrite Qmult_0_l. unfold Qminus. rewrite <- Qle_minus_iff. exact Hh.
Qed.

Lemma daily_range_nonnegative_witness :
  series_metrics sqrt_6dp (ramp_series 1 40) = Ok ramp_rows
  /\ nth_error (ramp_series 1 40) 1 = Some ramp_price_1
  /\ nth_error ramp_rows 1 = Some ramp_metric_1
  /\ dp_high ramp_price_1 = Some 103%Q /\ dp_low ramp_price_1 = Some 100%Q
  /\ (0 < 100)%Q /\ (100 <= 103)%Q
  /\ exists y, dm_daily_range_pct ramp_metric_1 = Some y /\ (0 <= y)%Q.
Proof.
  pose proof ramp_series_metrics as H.
  assert (Hr : nth_error (ramp_series 1 40) 1 = Some ramp_price_1)
    by reflexivity.
  assert (Hm : nth_error ramp_rows 1 = Some ramp_metric_1) by reflexivity.
  assert (Eh : dp_high ramp_price_1 = Some 103%Q) by reflexivity.
  assert (El : dp_low ramp_price_1 = Some 100%Q) by reflexivity.
  assert (Hl : (0 < 100)%Q) by reflexivity.
  assert (Hh : (100 <= 103)%Q) by discriminate.
  split; [exact H|]. split; [exact Hr|]. split; [exact Hm|].
  split; [exact Eh|]. split; [exact El|]. split; [exact Hl|].
  split; [exact Hh|].
  exact (daily_range_nonnegative sqrt_6dp _ _ 1 _ _ 103%Q 100%Q
                                 H Hr Hm Eh El Hl Hh).
Defined.

(** ** The exact-count policy *)

Lemma nth_error_rows_between {A : Type} (p q i k : nat) (col : list A) :
  nth_error (rows_between p q i col) k
  = if i - p + k <? S i - q then nth_error col (i - p + k) else None.
Proof.
  unfold rows_between. now rewrite nth_error_skipn, nth_error_firstn.
Qed.

(** A frame holds as many non-null values as it is wide exactly when it
    does not start before the partition and none of its rows is NULL. *)
Lemma COUNT_frame_iff {A : Type} (p q i : nat) (col : list (option A)) :
  q <= p -> S i - q <= length col ->
  COUNT (rows_between p q i col) = S p - q
  <-> p <= i
      /\ forall j v, i - p <= j -> j + q <= i -> nth_error col j = Some v ->
                     is_not_null v = true.
Proof.
  intros Hq Hi.
  pose proof (length_rows_between p q i col) as L.
  pose proof (COUNT_le_length (rows_between p q i col)) as Hle.
  split.
  - intros Hc.
    assert (Hp : p <= i) by lia.
    split; [exact Hp|].
    assert (Hf : Forall (fun v => is_not_null v = true)
                        (rows_between p q i col)).
    { apply COUNT_full. lia. }
    intros j v H1 H2 Hj.
    rewrite Forall_forall in Hf. apply Hf.
    apply (nth_error_In _ (j - (i - p))).
    rewrite nth_error_rows_between.
    replace (i - p + (j - (i - p))) with j by lia.
    replace (j <? S i - q) with true by (symmetry; apply Nat.ltb_lt; lia).
    exact Hj.
  - intros (Hp & Hall).
    replace (S p - q) with (length (rows_between p q i col)) by lia.
    apply COUNT_full. apply Forall_forall. intros v Hv.
    apply In_nth_error in Hv. destruct Hv as (k & Hk).
    rewrite nth_error_rows_between in Hk.
    destruct (Nat.ltb_spec (i - p + k) (S i - q)) as [Hlt|]; [|discriminate].
    apply (Hall (i - p + k) v); [lia | lia | exact Hk].
Qed.

Lemma nth_error_map_col {A B : Type} (f : A -> B) (l : list A) j v :
  nth_error (map f l) j = Some v <->
  exists r, nth_error l j = Some r /\ f r = v.
Proof.
  rewrite nth_error_map. destruct (nth_error l j) as [r|]; simpl; split.
  - intros E. injection E as <-. eauto.
  - intros (r' & E & <-). now injection E as <-.
  - discriminate.
  - intros (r' & E & _). discriminate.
Qed.

(** X5: the moving averages follow the exact-count policy: sma_7 (sma_30) is
    computed on row [i] exactly when the row has 6 (29) rows before it and
    no close among the 7 (30) rows of the frame is NULL. *)
Theorem sma_exact_count (sqrt_num : Q -> Q) (series : list price_row)
        (ms : list metric_row) (i : nat) (m : metric_row) :
  series_metrics sqrt_num series = Ok ms -> nth_error ms i = Some m ->
  (is_not_null (dm_sma_7 m) = true
   <-> 6 <= i
       /\ forall j r, i - 6 <= j <= i -> nth_error series j = Some r ->
                      is_not_null (dp_close r) = true)
  /\ (is_not_null (dm_sma_30 m) = true
      <-> 29 <= i
          /\ forall j r, i - 29 <= j <= i -> nth_error series j = Some r ->
                         is_not_null (dp_close r) = true).
Proof.
  intros H Hm.
  destruct (series_metrics_inv _ _ _ H) as (wr & Hwr & Hms & Lwr & Lms).
  destruct (with_all_metrics_rows_nth _ _ _ _ _ Hms Hm)
    as (w & Hw & _ & _ & _ & _ & _ & _ & S7 & S30 & _).
  assert (Hi : i < length series).
  { rewrite <- Lwr. apply nth_error_Some. congruence. }
  rewrite S7, S30, !sma_not_null by lia.
  rewrite (with_returns_rows_close _ _ Hwr).
  assert (G : forall n, 0 < n ->
    (COUNT (rows_between (n - 1) 0 i (map dp_close series)) =? n) = true
    <-> n - 1 <= i
        /\ forall j r, i - (n - 1) <= j <= i -> nth_error series j = Some r ->
                       is_not_null (dp_close r) = true).
  { intros n Hn. rewrite Nat.eqb_eq.
    replace n with (S (n - 1) - 0) at 2 by lia.
    rewrite COUNT_frame_iff by (rewrite ?length_map; lia).
    split; intros (Hp & Hall); (split; [exact Hp|]).
    - intros j r Hj Hr. apply (Hall j); [lia | lia |].
      now rewrite nth_error_map, Hr.
    - intros j v H1 H2 Hj. apply nth_error_map_col in Hj.
      destruct Hj as (r & Hr & <-). apply (Hall j r); [lia | exact Hr]. }
  split; [apply (G 7) | apply (G 30)]; lia.
Qed.

Lemma sma_exact_count_witness :
  series_metrics sqrt_6dp holed_series = Ok holed_rows
  /\ nth_error holed_rows 16 = Some holed_metric_16
  /\ (is_not_null (dm_sma_7 holed_metric_16) = true
      <-> 6 <= 16
          /\ forall j r, 16 - 6 <= j <= 16 ->
                         nth_error holed_series j = Some r ->
                         is_not_null (dp_close r) = true)
  /\ (is_not_null (dm_sma_30 holed_metric_16) = true
      <-> 29 <= 16
          /\ forall j r, 16 - 29 <= j <= 16 ->
                         nth_error holed_series j = Some r ->
                         is_not_null (dp_close r) = true).
Proof.
  pose proof holed_series_metrics as H.
  assert (Hm : nth_error holed_rows 16 = Some holed_metric_16)
    by reflexivity.
  split; [exact H|]. split; [exact Hm|].
  exact (sma_exact_count sqrt_6dp _ _ 16 _ H Hm).
Defined.

(** Where metric 1 is not NULL, in terms of the closes of the series. *)
Lemma return_not_null series wr j v :
  with_returns_rows series = Ok wr ->
  nth_error (map wr_daily_return_pct wr) j = Some v ->
  is_not_null v = true
  <-> exists k p r, j = S k /\ nth_error series k = Some p
                    /\ nth_error series j = Some r
                    /\ is_not_null (dp_close p) = true
                    /\ is_not_null (dp_close r) = true.
Proof.
  intros Hwr Hv. apply nth_error_map_col in Hv. destruct Hv as (w & Hw & <-).
  destruct (with_returns_rows_nth _ _ _ _ Hwr Hw)
    as (bd & Hbd & _ & _ & _ & _ & Hret & _).
  unfold daily_return_pct in Hret.
  destruct j as [|k].
  - simpl in Hret. injection Hret as <-. split; [discriminate|].
    intros (k & _ & _ & E & _). discriminate.
  - assert (Hk : k < length series).
    { assert (S k < length series) by (apply nth_error_Some; congruence).
      lia. }
    destruct (nth_error series k) as [p|] eqn:Hp;
      [|apply nth_error_None in Hp; lia].
    rewrite (LAG_succ _ _ _ Hp) in Hret.
    assert (E : is_not_null (wr_daily_return_pct w)
                = is_not_null (dp_close p) && is_not_null (dp_close bd)).
    { destruct (dp_close p) as [c0|]; simpl in Hret.
      - destruct (dp_close bd) as [c1|]; simpl in Hret.
        + destruct (Qeq_bool c0 0); [discriminate|].
          simpl in Hret. now injection Hret as <-.
        + now injection Hret as <-.
      - now injection Hret as <-. }
    rewrite E, andb_true_iff. split.
    + intros (E0 & E1). exists k, p, bd. auto.
    + intros (k' & p' & r' & Ek & Hp' & Hr' & E0 & E1).
      injection Ek as <-. rewrite Hp in Hp'. injection Hp' as <-.
      rewrite Hbd in Hr'. injection Hr' as <-. auto.
Qed.

(** X6: the volatilities follow the exact-count policy, one row later than
    the averages: vol_7d (vol_30d) is computed on row [i] exactly when the
    row has 7 (30) rows before it and no close among these and the row
    itself is NULL, the return of a row needing the close of the row before. *)
Theorem vol_exact_count (sqrt_num : Q -> Q) (series : list price_row)
        (ms : list metric_row) (i : nat) (m : metric_row) :
  series_metrics sqrt_num series = Ok ms -> nth_error ms i = Some m ->
  (is_not_null (dm_vol_7d m) = true
   <-> 7 <= i
       /\ forall j r, i - 7 <= j <= i -> nth_error series j = Some r ->
                      is_not_null (dp_close r) = true)
  /\ (is_not_null (dm_vol_30d m) = true
      <-> 30 <= i
          /\ forall j r, i - 30 <= j <= i -> nth_error series j = Some r ->
                         is_not_null (dp_close r) = true).
Proof.
  intros H Hm.
  destruct (series_metrics_inv _ _ _ H) as (wr & Hwr & Hms & Lwr & Lms).
  destruct (with_all_metrics_rows_nth _ _ _ _ _ Hms Hm)
    as (w & Hw & _ & _ & _ & _ & V7 & V30 & _).
  assert (Hi : i < length series).
  { rewrite <- Lwr. apply nth_error_Some. congruence. }
  rewrite V7, V30, !vol_not_null by lia.
  assert (Hcol : forall j, j < length series ->
            exists v, nth_error (map wr_daily_return_pct wr) j = Some v).
  { intros j Hj.
    destruct (nth_error (map wr_daily_return_pct wr) j) as [v|] eqn:E;
      [eauto|].
    apply nth_error_None in E. rewrite length_map in E. lia. }
  assert (G : forall n, 0 < n ->
    (COUNT (rows_between (n - 1) 0 i (map wr_daily_return_pct wr)) =? n) = true
    <-> n <= i
        /\ forall j r, i - n <= j <= i -> nth_error series j = Some r ->
                       is_not_null (dp_close r) = true).
  { intros n Hn. rewrite Nat.eqb_eq.
    replace n with (S (n - 1) - 0) at 2 by lia.
    rewrite COUNT_frame_iff by (rewrite ?length_map; lia).
    split.
    - intros (Hp & Hall).
      assert (Hret : forall j, i - (n - 1) <= j <= i ->
                exists k p r, j = S k /\ nth_error series k = Some p
                              /\ nth_error series j = Some r
                              /\ is_not_null (dp_close p) = true
                              /\ is_not_null (dp_close r) = true).
      { intros j Hj. destruct (Hcol j) as (v & Hv); [lia|].
        apply (return_not_null _ _ _ _ Hwr Hv).
        apply (Hall j v); [lia | lia | exact Hv]. }
      destruct (Hret (i - (n - 1))) as (k0 & p0 & _ & Ek0 & Hp0 & _ & E0 & _);
        [lia|].
      split; [lia|].
      intros j r Hj Hr.
      destruct (Nat.eq_dec j (i - n)) as [->|Hne].
      + replace (i - n) with k0 in Hr by lia.
        rewrite Hp0 in Hr. now injection Hr as <-.
      + destruct (Hret j) as (k & p & r' & _ & _ & Hr' & _ & E1); [lia|].
        rewrite Hr in Hr'. now injection Hr' as <-.
    - intros (Hp & Hall). split; [lia|].
      intros j v H1 H2 Hv.
      apply (return_not_null _ _ _ _ Hwr Hv).
      assert (Hj : j < length series) by lia.
      destruct j as [|k]; [lia|].
      destruct (nth_error series k) as [p|] eqn:Ep;
        [|apply nth_error_None in Ep; lia].
      destruct (nth_error series (S k)) as [r|] eqn:Er;
        [|apply nth_error_None in Er; lia].
      exists k, p, r. repeat split; auto.
      + apply (Hall k p); [lia | exact Ep].
      + apply (Hall (S k) r); [lia | exact Er]. }
  split; [apply (G 7) | apply (G 30)]; lia.
Qed.

Lemma vol_exact_count_witness :
  series_metrics sqrt_6dp holed_series = Ok holed_rows
  /\ nth_error holed_rows 35 = Some holed_metric_35
  /\ (is_not_null (dm_vol_7d holed_metric_35) = true
      <-> 7 <= 35
          /\ forall j r, 35 - 7 <= j <= 35 ->
                         nth_error holed_series j = Some r ->
                         is_not_null (dp_close r) = true)
  /\ (is_not_null (dm_vol_30d holed_metric_35) = true
      <-> 30 <= 35
          /\ forall j r, 35 - 30 <= j <= 35 ->
                         nth_error holed_series j = Some r ->
                         is_not_null (dp_close r) = true).
Proof.
  pose proof holed_series_metrics as H.
  assert (Hm : nth_error holed_rows 35 = Some holed_metric_35)
    by reflexivity.
  split; [exact H|]. split; [exact Hm|].
  exact (vol_exact_count sqrt_6dp _ _ 35 _ H Hm).
Defined.

(** X7: metric 7 is computed on row [i] exactly when the row has 30 rows
    before it, no volume among these and the row itself is NULL, and the
    mean of the 30 preceding volumes is not 0. *)
Theorem volume_ratio_exact_count (sqrt_num : Q -> Q)
        (series : list price_row) (ms : list metric_row) (i : nat)
        (m : metric_row) :
  series_metrics sqrt_num series = Ok ms -> nth_error ms i = Some m ->
  is_not_null (dm_volume_ratio_30d m) = true
  <-> 30 <= i
      /\ (forall j r, i - 30 <= j <= i -> nth_error series j = Some r ->
                      is_not_null (dp_volume_usd r) = true)
      /\ ~ holds (AVG (rows_between 30 1 i (map dp_volume_usd series))) 0.
Proof.
  intros H Hm.
  destruct (volume_ratio_of_row _ _ _ _ _ H Hm) as (r & Hr & Hvr).
  assert (Hi : i < length series) by (apply nth_error_Some; congruence).
  cbv zeta in Hvr.
  pose proof (COUNT_frame_iff 30 1 i (map dp_volume_usd series)) as F.
  rewrite length_map in F. specialize (F ltac:(lia) ltac:(lia)).
  change (S 30 - 1) with 30 in F.
  pose proof (AVG_not_null (rows_between 30 1 i (map dp_volume_usd series)))
    as Ha.
  destruct (Nat.eqb_spec
              (COUNT (rows_between 30 1 i (map dp_volume_usd series))) 30)
    as [Hc|Hc].
  - rewrite Hc in Ha. simpl in Ha.
    destruct (proj1 F Hc) as (Hp & Hall).
    destruct (AVG _) as [a|]; [|discriminate]. simpl NULLIF in Hvr.
    simpl holds.
    destruct (Qeq_bool a 0) eqn:E.
    + assert (dm_volume_ratio_30d m = None) as ->.
      { destruct (dp_volume_usd r); simpl in Hvr; now injection Hvr as <-. }
      split; [discriminate|]. intros (_ & _ & Hz).
      apply Qeq_bool_eq in E. contradiction.
    + destruct (dp_volume_usd r) as [x|] eqn:Ex; simpl in Hvr.
      * rewrite E in Hvr. injection Hvr as <-. split; [|reflexivity].
        intros _. split; [exact Hp|]. split.
        -- intros j r' Hj Hr'.
           destruct (Nat.eq_dec j i) as [->|Hne].
           ++ rewrite Hr in Hr'. injection Hr' as <-. now rewrite Ex.
           ++ apply (Hall j); [lia | lia |]. now rewrite nth_error_map, Hr'.
        -- now apply Qeq_bool_neq.
      * injection Hvr as <-. split; [discriminate|].
        intros (_ & Hall' & _). specialize (Hall' i r ltac:(lia) Hr).
        rewrite Ex in Hall'. discriminate.
  - injection Hvr as <-. split; [discriminate|].
    intros (Hp & Hall & _). exfalso. apply Hc. apply F. split; [exact Hp|].
    intros j v H1 H2 Hv. apply nth_error_map_col in Hv.
    destruct Hv as (r' & Hr' & <-). apply (Hall j r'); [lia | exact Hr'].
Qed.

Lemma volume_ratio_exact_count_witness :
  series_metrics sqrt_6dp (ramp_series 1 40) = Ok ramp_rows
  /\ nth_error ramp_rows 35 = Some (nth 35 ramp_rows (stale_row 0))
  /\ (is_not_null (dm_volume_ratio_30d (nth 35 ramp_rows (stale_row 0)))
      = true
      <-> 30 <= 35
          /\ (forall j r, 35 - 30 <= j <= 35 ->
                          nth_error (ramp_series 1 40) j = Some r ->
                          is_not_null (dp_volume_usd r) = true)
          /\ ~ holds (AVG (rows_between 30 1 35
                             (map dp_volume_usd (ramp_series 1 40)))) 0).
Proof.
  pose proof ramp_series_metrics as H.
  assert (Hm : nth_error ramp_rows 35
               = Some (nth 35 ramp_rows (stale_row 0))) by reflexivity.
  split; [exact H|]. split; [exact Hm|].
  exact (volume_ratio_exact_count sqrt_6dp _ _ 35 _ H Hm).
Defined.

(** ** Bounds of the moving averages *)

Lemma Qcount_pos x xs : (0 < Qcount (x :: xs))%Q.
Proof.
  unfold Qcount. change 0%Q with (inject_Z 0). rewrite <- Zlt_Qlt.
  simpl length. lia.
Qed.

Lemma Qsum_bounds lo hi xs :
  Forall (fun x => (lo <= x)%Q /\ (x <= hi)%Q) xs ->
  (lo * Qcount xs <= Qsum xs)%Q /\ (Qsum xs <= hi * Qcount xs)%Q.
Proof.
  induction 1 as [|x xs (Hlo & Hhi) _ (IHlo & IHhi)].
  - unfold Qcount. simpl. rewrite !Qmult_0_r. split; apply Qle_refl.
  - change (Qsum (x :: xs)) with (x + Qsum xs)%Q. rewrite Qcount_cons.
    rewrite !Qmult_plus_distr_r, !Qmult_1_r.
    split; apply Qplus_le_compat; assumption.
Qed.

Lemma AVG_bounds lo hi w y :
  Forall (fun x => (lo <= x)%Q /\ (x <= hi)%Q) (values w) ->
  AVG w = Some y -> (lo <= y)%Q /\ (y <= hi)%Q.
Proof.
  intros Hall Hy. unfold AVG in Hy.
  destruct (values w) as [|x xs] eqn:E; [discriminate|].
  injection Hy as <-.
  destruct (Qsum_bounds lo hi _ Hall) as (Hlo & Hhi).
  pose proof (Qcount_pos x xs) as Hpos.
  split.
  - apply Qle_shift_div_l; assumption.
  - apply Qle_shift_div_r; assumption.
Qed.

(** X8: a moving average lies between any two bounds of the closes of its
    own frame: the rows [i - 6 .. i] for sma_7, [i - 29 .. i] for sma_30. *)
Theorem sma_within_frame_bounds (sqrt_num : Q -> Q)
        (series : list price_row) (ms : list metric_row) (i : nat)
        (m : metric_row) (lo hi : Q) :
  series_metrics sqrt_num series = Ok ms -> nth_error ms i = Some m ->
  ((forall j r c, i - 6 <= j <= i -> nth_error series j = Some r ->
                  dp_close r = Some c -> (lo <= c)%Q /\ (c <= hi)%Q) ->
   forall y, dm_sma_7 m = Some y -> (lo <= y)%Q /\ (y <= hi)%Q)
  /\ ((forall j r c, i - 29 <= j <= i -> nth_error series j = Some r ->
                     dp_close r = Some c -> (lo <= c)%Q /\ (c <= hi)%Q) ->
      forall y, dm_sma_30 m = Some y -> (lo <= y)%Q /\ (y <= hi)%Q).
Proof.
  intros H Hm.
  destruct (series_metrics_inv _ _ _ H) as (wr & Hwr & Hms & Lwr & Lms).
  destruct (with_all_metrics_rows_nth _ _ _ _ _ Hms Hm)
    as (w & Hw & _ & _ & _ & _ & _ & _ & S7 & S30 & _).
  assert (G : forall n,
    (forall j r c, i - (n - 1) <= j <= i -> nth_error series j = Some r ->
                   dp_close r = Some c -> (lo <= c)%Q /\ (c <= hi)%Q) ->
    forall y, sma n wr i = Some y -> (lo <= y)%Q /\ (y <= hi)%Q).
  { intros n Hb y Hy. unfold sma in Hy. cbv zeta in Hy.
    destruct (COUNT _ =? n); [|discriminate].
    eapply AVG_bounds; [|exact Hy].
    apply Forall_forall. intros x Hx. apply In_values in Hx.
    apply In_nth_error in Hx. destruct Hx as (k & Hk).
    rewrite nth_error_rows_between in Hk.
    destruct (Nat.ltb_spec (i - (n - 1) + k) (S i - 0)) as [Hlt|];
      [|discriminate].
    rewrite (with_returns_rows_close _ _ Hwr) in Hk.
    apply nth_error_map_col in Hk. destruct Hk as (r & Hr & Hc).
    apply (Hb (i - (n - 1) + k) r x); [lia | exact Hr | exact Hc]. }
  rewrite S7, S30. split; [apply (G 7) | apply (G 30)].
Qed.

Lemma ramp_series_closes j r c :
  nth_error (ramp_series 1 40) j = Some r -> dp_close r = Some c ->
  (100 <= c)%Q /\ (c <= 139)%Q.
Proof.
  intros Hj Hc. apply nth_error_In in Hj. unfold ramp_series in Hj.
  apply in_map_iff in Hj. destruct Hj as (k & <- & Hk).
  apply in_seq in Hk.
  cbv beta iota delta [ramp_row dp_close] in Hc.
  assert (E : c = inject_Z (100 + Z.of_nat k)) by congruence. subst c.
  change 100%Q with (inject_Z 100). change 139%Q with (inject_Z 139).
  rewrite <- !Zle_Qle. lia.
Qed.

Lemma sma_within_frame_bounds_witness :
  series_metrics sqrt_6dp (ramp_series 1 40) = Ok ramp_rows
  /\ nth_error ramp_rows 35 = Some (nth 35 ramp_rows (stale_row 0))
  /\ (forall y, dm_sma_7 (nth 35 ramp_rows (stale_row 0)) = Some y ->
                (100 <= y)%Q /\ (y <= 139)%Q)
  /\ (forall y, dm_sma_30 (nth 35 ramp_rows (stale_row 0)) = Some y ->
                (100 <= y)%Q /\ (y <= 139)%Q).
Proof.
  pose proof ramp_series_metrics as H.
  assert (Hm : nth_error ramp_rows 35
               = Some (nth 35 ramp_rows (stale_row 0))) by reflexivity.
  split; [exact H|]. split; [exact Hm|].
  destruct (sma_within_frame_bounds sqrt_6dp _ _ 35 _ 100%Q 139%Q H Hm)
    as (T7 & T30).
  split.
  - apply T7. intros j r c _. apply ramp_series_closes.
  - apply T30. intros j r c _. apply ramp_series_closes.
Defined.

(** ** Null counts of a series of any length *)

Lemma null_count_null_before_min (col : metric_row -> option Q) (k : nat)
      (rows : list metric_row) :
  null_before k (map col rows) ->
  null_count col rows = Nat.min k (length rows).
Proof.
  intros H. unfold null_count.
  rewrite <- (firstn_all (map col rows)).
  rewrite (COUNT_firstn_null_before _ _ _ H), length_map. lia.
Qed.

(** X9: the NULLs of a series whose closes, volumes, highs and lows are all
    present and whose trailing volume means are not 0: each warm-up count is
    capped by the length of the series, so the counts are the ones the
    auditor expects exactly when the series has 30 rows or more. *)
Theorem null_counts_of_any_length (sqrt_num : Q -> Q)
        (series : list price_row) (ms : list metric_row) :
  Forall upstream_present series ->
  volume_means_nonzero series ->
  series_metrics sqrt_num series = Ok ms ->
  null_count dm_daily_return_pct ms = Nat.min 1 (length series)
  /\ null_count dm_daily_range_pct ms = 0
  /\ null_count dm_vol_7d ms = Nat.min 7 (length series)
  /\ null_count dm_vol_30d ms = Nat.min 30 (length series)
  /\ null_count dm_sma_7 ms = Nat.min 6 (length series)
  /\ null_count dm_sma_30 ms = Nat.min 29 (length series)
  /\ null_count dm_volume_ratio_30d ms = Nat.min 30 (length series)
  /\ (expected_null_counts ms <-> 30 <= length series).
Proof.
  intros Hp Hz H.
  assert (Hc : Forall (fun r => is_not_null (dp_close r) = true) series)
    by (eapply Forall_impl; [|exact Hp]; now intros r (Hr & _)).
  assert (Hv : Forall (fun r => is_not_null (dp_volume_usd r) = true) series)
    by (eapply Forall_impl; [|exact Hp]; now intros r (_ & Hr & _)).
  assert (Hhl : Forall (fun r => is_not_null (dp_high r) = true
                                 /\ is_not_null (dp_low r) = true) series)
    by (eapply Forall_impl; [|exact Hp]; now intros r (_ & _ & Hr)).
  destruct (series_metrics_inv _ _ _ H) as (_ & _ & _ & _ & Lms).
  pose proof (series_warm_up sqrt_num series ms Hc H) as Hw.
  pose proof (series_volume_ratio_present sqrt_num series ms Hv Hz H) as Hvr.
  pose proof (series_range_present sqrt_num series ms Hhl H) as Hrng.
  assert (C1 : null_count dm_daily_return_pct ms = Nat.min 1 (length series)).
  { rewrite <- Lms. apply null_count_null_before_min.
    apply null_before_of_rows. intros i m Hm. now destruct (Hw i m Hm). }
  assert (C2 : null_count dm_daily_range_pct ms = 0).
  { rewrite <- (Nat.min_0_l (length ms)). apply null_count_null_before_min.
    apply null_before_of_rows. intros i m Hm. now rewrite (Hrng i m Hm). }
  assert (C3 : null_count dm_vol_7d ms = Nat.min 7 (length series)).
  { rewrite <- Lms. apply null_count_null_before_min.
    apply null_before_of_rows. intros i m Hm.
    now destruct (Hw i m Hm) as (_ & R & _). }
  assert (C4 : null_count dm_vol_30d ms = Nat.min 30 (length series)).
  { rewrite <- Lms. apply null_count_null_before_min.
    apply null_before_of_rows. intros i m Hm.
    now destruct (Hw i m Hm) as (_ & _ & R & _). }
  assert (C5 : null_count dm_sma_7 ms = Nat.min 6 (length series)).
  { rewrite <- Lms. apply null_count_null_before_min.
    apply null_before_of_rows. intros i m Hm.
    now destruct (Hw i m Hm) as (_ & _ & _ & R & _). }
  assert (C6 : null_count dm_sma_30 ms = Nat.min 29 (length series)).
  { rewrite <- Lms. apply null_count_null_before_min.
    apply null_before_of_rows. intros i m Hm.
    now destruct (Hw i m Hm) as (_ & _ & _ & _ & R). }
  assert (C7 : null_count dm_volume_ratio_30d ms = Nat.min 30 (length series)).
  { rewrite <- Lms. apply null_count_null_before_min.
    apply null_before_of_rows. intros i m Hm. exact (Hvr i m Hm). }
  repeat (split; [assumption|]).
  unfold expected_null_counts. rewrite C1, C2, C3, C4, C5, C6, C7. lia.
Qed.

Lemma null_counts_of_any_length_witness :
  Forall upstream_present (flat_series 1 100 1000 9)
  /\ volume_means_nonzero (flat_series 1 100 1000 9)
  /\ series_metrics sqrt_6dp (flat_series 1 100 1000 9) = Ok short_rows
  /\ null_count dm_daily_return_pct short_rows
     = Nat.min 1 (length (flat_series 1 100 1000 9))
  /\ null_count dm_daily_range_pct short_rows = 0
  /\ null_count dm_vol_7d short_rows
     = Nat.min 7 (length (flat_series 1 100 1000 9))
  /\ null_count dm_vol_30d short_rows
     = Nat.min 30 (length (flat_series 1 100 1000 9))
  /\ null_count dm_sma_7 short_rows
     = Nat.min 6 (length (flat_series 1 100 1000 9))
  /\ null_count dm_sma_30 short_rows
     = Nat.min 29 (length (flat_series 1 100 1000 9))
  /\ null_count dm_volume_ratio_30d short_rows
     = Nat.min 30 (length (flat_series 1 100 1000 9))
  /\ (expected_null_counts short_rows
      <-> 30 <= length (flat_series 1 100 1000 9)).
Proof.
  assert (Hp : Forall upstream_present (flat_series 1 100 1000 9))
    by apply flat_series_upstream_present.
  assert (Hz : volume_means_nonzero (flat_series 1 100 1000 9)).
  { apply (constant_volume_means_nonzero _ 1000).
    - discriminate.
    - apply Forall_forall. intros r Hr. apply in_map_iff in Hr.
      destruct Hr as (k & <- & _). reflexivity. }
  assert (H : series_metrics sqrt_6dp (flat_series 1 100 1000 9)
              = Ok short_rows) by (vm_compute; reflexivity).
  split; [exact Hp|]. split; [exact Hz|]. split; [exact H|].
  exact (null_counts_of_any_length sqrt_6dp _ _ Hp Hz H).
Defined.

(** ** What the metrics are computed from *)

Lemma for_each_row_from_rel {A A' B B' : Type}
      (f : nat -> A -> result B) (g : nat -> A' -> result B')
      (R : B -> B' -> Prop) :
  forall l1 l2 k out1,
    length l1 = length l2 ->
    (forall i a a' b, nth_error l1 i = Some a -> nth_error l2 i = Some a' ->
                      f (k + i) a = Ok b ->
                      exists b', g (k + i) a' = Ok b' /\ R b b') ->
    for_each_row_from f k l1 = Ok out1 ->
    exists out2, for_each_row_from g k l2 = Ok out2 /\ Forall2 R out1 out2.
Proof.
  induction l1 as [|a l1 IH]; intros [|a' l2] k out1 L Hrel H;
    try discriminate.
  - simpl in H. injection H as <-. exists []. split; [reflexivity|constructor].
  - simpl in H.
    apply bind_Ok in H. destruct H as (b & Hb & H).
    apply bind_Ok in H. destruct H as (bs & Hbs & H).
    injection H as <-.
    destruct (Hrel 0 a a' b eq_refl eq_refl) as (b' & Hb' & Rb).
    { now rewrite Nat.add_0_r. }
    rewrite Nat.add_0_r in Hb'.
    destruct (IH l2 (S k) bs) as (out2 & Ho & Ro).
    { simpl in L. lia. }
    { intros i b1 b2 c Hb1 Hb2 Hf.
      replace (S k + i) with (k + S i) in * by lia.
      apply (Hrel (S i) b1 b2 c Hb1 Hb2 Hf). }
    { exact Hbs. }
    exists (b' :: out2). simpl. rewrite Hb'. simpl. rewrite Ho. simpl.
    split; [reflexivity|]. now constructor.
Qed.

Lemma Forall2_map_eq {A B C : Type} (f : A -> C) (g : B -> C) l1 l2 :
  Forall2 (fun a b => f a = g b) l1 l2 -> map f l1 = map g l2.
Proof.
  induction 1 as [|a b l1 l2 E _ IH]; simpl; [reflexivity|].
  now rewrite E, IH.
Qed.

Lemma Forall2_nth_error {A B : Type} (R : A -> B -> Prop) l1 l2 :
  Forall2 R l1 l2 ->
  forall i a b, nth_error l1 i = Some a -> nth_error l2 i = Some b -> R a b.
Proof.
  induction 1 as [|x y l1 l2 Rxy _ IH]; intros [|i] a b Ha Hb;
    try discriminate.
  - simpl in Ha, Hb. injection Ha as <-. injection Hb as <-. exact Rxy.
  - exact (IH i a b Ha Hb).
Qed.

Lemma map_eq_nth {A B C : Type} (f : A -> C) (g : B -> C) l1 l2 i a b :
  map f l1 = map g l2 -> nth_error l1 i = Some a -> nth_error l2 i = Some b ->
  f a = g b.
Proof.
  intros E Ha Hb.
  assert (E1 : nth_error (map f l1) i = Some (f a))
    by now rewrite nth_error_map, Ha.
  rewrite E, nth_error_map, Hb in E1. simpl in E1. now injection E1.
Qed.

(** X10: the seven metrics of a series are computed from its highs, lows,
    closes and volumes, taken in the order of the rows: two series that
    agree on these four columns get the same metrics, whatever their dates,
    their opening prices and their asset. *)
Theorem metrics_depend_on_four_columns (sqrt_num : Q -> Q)
        (s1 s2 : list price_row) (ms1 : list metric_row) :
  map dp_high s1 = map dp_high s2 -> map dp_low s1 = map dp_low s2 ->
  map dp_close s1 = map dp_close s2 ->
  map dp_volume_usd s1 = map dp_volume_usd s2 ->
  series_metrics sqrt_num s1 = Ok ms1 ->
  exists ms2,
    series_metrics sqrt_num s2 = Ok ms2
    /\ map dm_asset_id ms2 = map dp_asset_id s2
    /\ map dm_date ms2 = map dp_date s2
    /\ map dm_daily_return_pct ms2 = map dm_daily_return_pct ms1
    /\ map dm_daily_range_pct ms2 = map dm_daily_range_pct ms1
    /\ map dm_vol_7d ms2 = map dm_vol_7d ms1
    /\ map dm_vol_30d ms2 = map dm_vol_30d ms1
    /\ map dm_sma_7 ms2 = map dm_sma_7 ms1
    /\ map dm_sma_30 ms2 = map dm_sma_30 ms1
    /\ map dm_volume_ratio_30d ms2 = map dm_volume_ratio_30d ms1.
Proof.
  intros Eh El Ec Ev H.
  assert (L : length s1 = length s2).
  { rewrite <- (length_map dp_close s1), Ec. apply length_map. }
  unfold series_metrics in H.
  apply bind_Ok in H. destruct H as (wr1 & Hx & H).
  pose proof (with_returns_rows_close _ _ Hx) as C1.
  pose proof (with_returns_rows_volume _ _ Hx) as V1.
  unfold with_returns_rows, for_each_row in Hx.
  match type of Hx with
  | for_each_row_from ?f _ _ = _ =>
  destruct (for_each_row_from_rel f
              (fun i bd =>
                 ret <- daily_return_pct s2 i bd ;;
                 rng <- daily_range_pct bd ;;
                 Ok {| wr_asset_id := dp_asset_id bd;
                       wr_date := dp_date bd;
                       wr_close := dp_close bd;
                       wr_volume_usd := dp_volume_usd bd;
                       wr_daily_return_pct := ret;
                       wr_daily_range_pct := rng |})
              (fun w1 w2 =>
                 wr_daily_return_pct w2 = wr_daily_return_pct w1
                 /\ wr_daily_range_pct w2 = wr_daily_range_pct w1)
              s1 s2 0 wr1 L)
    as (wr2 & Hwr2 & R2); [|exact Hx|]
  end.
  { intros i a a' b Ha Ha' Hb. simpl in Hb |- *.
    apply bind_Ok in Hb. destruct Hb as (v1 & Hv1 & Hb).
    apply bind_Ok in Hb. destruct Hb as (v2 & Hv2 & Hb).
    injection Hb as <-.
    assert (E1 : daily_return_pct s2 i a' = Ok v1).
    { rewrite <- Hv1. unfold daily_return_pct.
      now rewrite Ec, (map_eq_nth dp_close dp_close _ _ _ _ _ Ec Ha Ha'). }
    assert (E2 : daily_range_pct a' = Ok v2).
    { rewrite <- Hv2. unfold daily_range_pct.
      now rewrite (map_eq_nth dp_high dp_high _ _ _ _ _ Eh Ha Ha'),
        (map_eq_nth dp_low dp_low _ _ _ _ _ El Ha Ha'). }
    rewrite E1, E2. simpl. eexists. split; [reflexivity|]. simpl. auto. }
  change (with_returns_rows s2 = Ok wr2) in Hwr2.
  pose proof (with_returns_rows_close _ _ Hwr2) as C2.
  pose proof (with_returns_rows_volume _ _ Hwr2) as V2.
  pose proof (with_returns_rows_asset _ _ Hwr2) as A2.
  pose proof (with_returns_rows_date _ _ Hwr2) as D2.
  assert (Eret : map wr_daily_return_pct wr2 = map wr_daily_return_pct wr1).
  { symmetry. apply Forall2_map_eq.
    eapply Forall2_impl; [|exact R2]. now intros w1 w2 (E & _). }
  assert (Erng : Forall2 (fun w1 w2 => wr_daily_range_pct w2
                                        = wr_daily_range_pct w1) wr1 wr2).
  { eapply Forall2_impl; [|exact R2]. now intros w1 w2 (_ & E). }
  assert (Ecl : map wr_close wr2 = map wr_close wr1) by congruence.
  assert (Evl : map wr_volume_usd wr2 = map wr_volume_usd wr1) by congruence.
  assert (L2 : length wr1 = length wr2) by (eapply Forall2_length; eauto).
  unfold with_all_metrics_rows, for_each_row in H.
  match type of H with
  | for_each_row_from ?f _ _ = _ =>
  destruct (for_each_row_from_rel f
              (fun i wr =>
                 vr <- volume_ratio_30d wr2 i wr ;;
                 Ok {| dm_asset_id := wr_asset_id wr;
                       dm_date := wr_date wr;
                       dm_daily_return_pct := wr_daily_return_pct wr;
                       dm_daily_range_pct := wr_daily_range_pct wr;
                       dm_vol_7d := vol sqrt_num 7 wr2 i;
                       dm_vol_30d := vol sqrt_num 30 wr2 i;
                       dm_sma_7 := sma 7 wr2 i;
                       dm_sma_30 := sma 30 wr2 i;
                       dm_volume_ratio_30d := vr |})
              (fun m1 m2 =>
                 dm_daily_return_pct m2 = dm_daily_return_pct m1
                 /\ dm_daily_range_pct m2 = dm_daily_range_pct m1
                 /\ dm_vol_7d m2 = dm_vol_7d m1
                 /\ dm_vol_30d m2 = dm_vol_30d m1
                 /\ dm_sma_7 m2 = dm_sma_7 m1
                 /\ dm_sma_30 m2 = dm_sma_30 m1
                 /\ dm_volume_ratio_30d m2 = dm_volume_ratio_30d m1)
              wr1 wr2 0 ms1 L2)
    as (ms2 & Hms2 & R3); [|exact H|]
  end.
  { intros i w1 w2 b Hw1 Hw2 Hb. simpl in Hb |- *.
    apply bind_Ok in Hb. destruct Hb as (v1 & Hv1 & Hb).
    injection Hb as <-.
    assert (E1 : volume_ratio_30d wr2 i w2 = Ok v1).
    { rewrite <- Hv1. unfold volume_ratio_30d.
      now rewrite Evl,
        (map_eq_nth wr_volume_usd wr_volume_usd _ _ _ _ _ Evl Hw2 Hw1). }
    rewrite E1. simpl. eexists. split; [reflexivity|]. simpl.
    unfold vol, sma. rewrite Eret, Ecl.
    rewrite (map_eq_nth wr_daily_return_pct wr_daily_return_pct
               _ _ _ _ _ Eret Hw2 Hw1).
    rewrite (Forall2_nth_error _ _ _ Erng i w1 w2 Hw1 Hw2).
    repeat split; reflexivity. }
  change (with_all_metrics_rows sqrt_num wr2 = Ok ms2) in Hms2.
  exists ms2. split.
  { unfold series_metrics. rewrite Hwr2. exact Hms2. }
  split.
  { rewrite (with_all_metrics_rows_asset _ _ _ Hms2). exact A2. }
  split.
  { rewrite <- D2.
    apply (for_each_row_map _ dm_date wr_date) with (2 := Hms2).
    intros i r o Ho. apply bind_Ok in Ho. destruct Ho as (v & _ & Ho).
    now injection Ho as <-. }
  repeat split; symmetry; apply Forall2_map_eq;
    (eapply Forall2_impl; [|exact R3]); cbv beta;
    intros m1 m2 (E1 & E2 & E3 & E4 & E5 & E6 & E7); congruence.
Qed.

Lemma metrics_depend_on_four_columns_witness :
  map dp_high (ramp_series 1 40)
  = map dp_high (map every_other_day (ramp_series 1 40))
  /\ map dp_low (ramp_series 1 40)
     = map dp_low (map every_other_day (ramp_series 1 40))
  /\ map dp_close (ramp_series 1 40)
     = map dp_close (map every_other_day (ramp_series 1 40))
  /\ map dp_volume_usd (ramp_series 1 40)
     = map dp_volume_usd (map every_other_day (ramp_series 1 40))
  /\ series_metrics sqrt_6dp (ramp_series 1 40) = Ok ramp_rows
  /\ exists ms2,
       series_metrics sqrt_6dp (map every_other_day (ramp_series 1 40))
       = Ok ms2
       /\ map dm_asset_id ms2
          = map dp_asset_id (map every_other_day (ramp_series 1 40))
       /\ map dm_date ms2
          = map dp_date (map every_other_day (ramp_series 1 40))
       /\ map dm_daily_return_pct ms2 = map dm_daily_return_pct ramp_rows
       /\ map dm_daily_range_pct ms2 = map dm_daily_range_pct ramp_rows
       /\ map dm_vol_7d ms2 = map dm_vol_7d ramp_rows
       /\ map dm_vol_30d ms2 = map dm_vol_30d ramp_rows
       /\ map dm_sma_7 ms2 = map dm_sma_7 ramp_rows
       /\ map dm_sma_30 ms2 = map dm_sma_30 ramp_rows
       /\ map dm_volume_ratio_30d ms2 = map dm_volume_ratio_30d ramp_rows.
Proof.
  assert (Eh : map dp_high (ramp_series 1 40)
               = map dp_high (map every_other_day (ramp_series 1 40)))
    by reflexivity.
  assert (El : map dp_low (ramp_series 1 40)
               = map dp_low (map every_other_day (ramp_series 1 40)))
    by reflexivity.
  assert (Ec : map dp_close (ramp_series 1 40)
               = map dp_close (map every_other_day (ramp_series 1 40)))
    by reflexivity.
  assert (Ev : map dp_volume_usd (ramp_series 1 40)
               = map dp_volume_usd (map every_other_day (ramp_series 1 40)))
    by reflexivity.
  pose proof ramp_series_metrics as H.
  split; [exact Eh|]. split; [exact El|]. split; [exact Ec|].
  split; [exact Ev|]. split; [exact H|].
  exact (metrics_depend_on_four_columns sqrt_6dp _ _ _ Eh El Ec Ev H).
Defined.

(** ** Failures of the statement *)

Lemma bind_Raise {A B : Type} (r : result A) (k : A -> result B) (e : exn) :
  bind r k = Raise e -> r = Raise e \/ exists a, r = Ok a /\ k a = Raise e.
Proof.
  destruct r as [a|e']; simpl; intros H; [right; eauto | left].
  now injection H as <-.
Qed.

Lemma for_each_row_from_Raise {A B : Type} (f : nat -> A -> result B) :
  forall rows k e,
    for_each_row_from f k rows = Raise e ->
    exists i r, nth_error rows i = Some r /\ f (k + i) r = Raise e.
Proof.
  induction rows as [|r rows IH]; intros k e H; [discriminate|].
  simpl in H. apply bind_Raise in H. destruct H as [H|(y & Hy & H)].
  - exists 0, r. rewrite Nat.add_0_r. auto.
  - apply bind_Raise in H. destruct H as [H|(ys & _ & H)]; [|discriminate].
    destruct (IH _ _ H) as (i & r' & Hr' & Hf).
    exists (S i), r'. replace (k + S i) with (S k + i) by lia. auto.
Qed.

Lemma for_each_row_from_total {A B : Type} (f : nat -> A -> result B) :
  forall rows k,
    (forall i r, nth_error rows i = Some r -> exists o, f (k + i) r = Ok o) ->
    exists out, for_each_row_from f k rows = Ok out.
Proof.
  intros rows k H.
  destruct (for_each_row_from f k rows) as [out|e] eqn:E; [eauto|].
  destruct (for_each_row_from_Raise _ _ _ _ E) as (i & r & Hr & Hf).
  destruct (H i r Hr) as (o & Ho). congruence.
Qed.

Lemma for_each_row_Ok_row {A B : Type} (f : nat -> A -> result B) rows out
      i r :
  for_each_row f rows = Ok out -> nth_error rows i = Some r ->
  exists o, f i r = Ok o.
Proof.
  intros H Hr. pose proof (for_each_row_from_nth f rows 0 out H i) as Hn.
  rewrite Hr in Hn. destruct (nth_error out i) as [o|]; [eauto|contradiction].
Qed.

Lemma sequence_Raise {A : Type} (rs : list (result A)) e :
  sequence rs = Raise e -> In (Raise e) rs.
Proof.
  induction rs as [|r rs IH]; intros H; [discriminate|].
  simpl in H. apply bind_Raise in H. destruct H as [H|(x & _ & H)].
  - left. exact H.
  - apply bind_Raise in H. destruct H as [H|(xs & _ & H)]; [|discriminate].
    right. now apply IH.
Qed.

Lemma over_partitions_Raise {A B : Type} (pkey okey : A -> Z)
      (f : list A -> result (list B)) rows e :
  over_partitions pkey okey f rows = Raise e ->
  exists k, f (partition_of pkey okey rows k) = Raise e.
Proof.
  intros H. unfold over_partitions in H. apply bind_Raise in H.
  destruct H as [H|(parts & _ & H)]; [|discriminate].
  apply sequence_Raise in H. apply in_map_iff in H.
  destruct H as (k & Hk & _). eauto.
Qed.

Lemma sql_div_Raise a b e :
  sql_div a b = Raise e ->
  e = DivisionByZero /\ is_not_null a = true /\ holds b 0.
Proof.
  unfold sql_div. destruct a as [x|], b as [y|]; try discriminate.
  destruct (Qeq_bool y 0) eqn:E; [|discriminate].
  intros H. injection H as <-. apply Qeq_bool_eq in E. simpl. auto.
Qed.

Lemma daily_range_pct_Raise bd e :
  daily_range_pct bd = Raise e ->
  e = DivisionByZero /\ is_not_null (dp_high bd) = true
  /\ holds (dp_low bd) 0.
Proof.
  unfold daily_range_pct. intros H.
  destruct (is_not_null (dp_high bd)) eqn:Eh; [|discriminate].
  destruct (is_not_null (dp_low bd)); [|discriminate]. simpl in H.
  apply bind_Raise in H. destruct H as [H|(v & _ & H)]; [|discriminate].
  apply sql_div_Raise in H. destruct H as (-> & _ & Hz). auto.
Qed.

Lemma daily_return_pct_Raise part i bd e :
  daily_return_pct part i bd = Raise e ->
  e = DivisionByZero
  /\ exists j p, i = S j /\ nth_error part j = Some p /\ holds (dp_close p) 0.
Proof.
  unfold daily_return_pct. intros H.
  destruct (is_not_null _) eqn:En; [|discriminate].
  apply bind_Raise in H. destruct H as [H|(v & _ & H)]; [|discriminate].
  apply sql_div_Raise in H. destruct H as (-> & _ & Hz).
  split; [reflexivity|].
  destruct i as [|j]; [discriminate|]. simpl in Hz, En.
  destruct (nth_error part j) as [p|] eqn:Ep.
  - exists j, p. rewrite (nth_error_nth _ _ None
                            (eq_trans (nth_error_map _ _ _)
                                      (f_equal (option_map _) Ep))) in Hz.
    auto.
  - apply nth_error_None in Ep.
    rewrite nth_overflow in En by (rewrite length_map; lia). discriminate.
Qed.

Section Failures.

Variable sqrt_num : Q -> Q.

Lemma with_all_metrics_rows_total part :
  exists ms, with_all_metrics_rows sqrt_num part = Ok ms.
Proof.
  apply for_each_row_from_total. intros i wr _.
  destruct (volume_ratio_not_raise part (0 + i) wr) as (v & ->).
  simpl. eauto.
Qed.

(** What makes the statement fail. *)
Lemma METRICS_SQL_Raise db e :
  METRICS_SQL sqrt_num db = Raise e ->
  e = DivisionByZero
  /\ exists r, In r (base_data db)
               /\ ((is_not_null (dp_high r) = true /\ holds (dp_low r) 0)
                   \/ holds (dp_close r) 0).
Proof.
  intros H. unfold METRICS_SQL in H.
  apply bind_Raise in H. destruct H as [H|(wr & _ & H)].
  - apply over_partitions_Raise in H. destruct H as (k & H).
    apply for_each_row_from_Raise in H. destruct H as (i & r & Hr & H).
    simpl in H. apply bind_Raise in H. destruct H as [H|(v & _ & H)].
    + apply daily_return_pct_Raise in H.
      destruct H as (-> & j & p & _ & Hp & Hz). split; [reflexivity|].
      exists p. split; [|now right].
      apply nth_error_In in Hp. now apply partition_of_key in Hp.
    + apply bind_Raise in H. destruct H as [H|(v' & _ & H)]; [|discriminate].
      apply daily_range_pct_Raise in H. destruct H as (-> & Hh & Hz).
      split; [reflexivity|]. exists r. split; [|now left].
      apply nth_error_In in Hr. now apply partition_of_key in Hr.
  - apply bind_Raise in H. destruct H as [H|(wam & _ & H)]; [|discriminate].
    apply over_partitions_Raise in H. destruct H as (k & H).
    destruct (with_all_metrics_rows_total
                (partition_of wr_asset_id wr_date wr k)) as (ms & Hms).
    congruence.
Qed.

End Failures.

Lemma base_data_In db r a :
  In r (daily_prices db) -> In a (assets db) ->
  a_asset_id a = dp_asset_id r -> a_is_active a = true ->
  In r (base_data db).
Proof.
  intros Hr Ha Hid Hact. unfold base_data.
  rewrite !order_by_In, in_flat_map. exists r. split; [exact Hr|].
  apply in_map_iff. exists a. split; [reflexivity|].
  apply filter_In. split; [exact Ha|].
  rewrite Hact, andb_true_r. now apply Z.eqb_eq.
Qed.

Lemma partition_of_In {A : Type} (pkey okey : A -> Z) rows r :
  In r rows -> In r (partition_of pkey okey rows (pkey r)).
Proof.
  intros Hr. unfold partition_of. rewrite order_by_In, filter_In.
  split; [exact Hr | apply Z.eqb_refl].
Qed.

(** X11: the evaluation of the statement raises nothing but a division by
    zero, and only when the price row of some active asset has a zero low
    (its high not NULL) or a zero close. *)
Theorem METRICS_SQL_fails_on_zero_divisor_only (sqrt_num : Q -> Q)
        (db : database) (e : exn) :
  METRICS_SQL sqrt_num db = Raise e ->
  e = DivisionByZero
  /\ exists r a,
       In r (daily_prices db) /\ In a (assets db)
       /\ a_asset_id a = dp_asset_id r /\ a_is_active a = true
       /\ ((is_not_null (dp_high r) = true /\ holds (dp_low r) 0)
           \/ holds (dp_close r) 0).
Proof.
  intros H. apply METRICS_SQL_Raise in H. destruct H as (-> & r & Hr & Hz).
  split; [reflexivity|].
  apply base_data_active in Hr. destruct Hr as (Hr & a & Ha & Hid & Hact).
  exists r, a. auto.
Qed.

Lemma METRICS_SQL_fails_on_zero_divisor_only_witness :
  METRICS_SQL sqrt_6dp zero_low_db = Raise DivisionByZero
  /\ DivisionByZero = DivisionByZero
  /\ exists r a,
       In r (daily_prices zero_low_db) /\ In a (assets zero_low_db)
       /\ a_asset_id a = dp_asset_id r /\ a_is_active a = true
       /\ ((is_not_null (dp_high r) = true /\ holds (dp_low r) 0)
           \/ holds (dp_close r) 0).
Proof.
  assert (H : METRICS_SQL sqrt_6dp zero_low_db = Raise DivisionByZero)
    by (vm_compute; reflexivity).
  split; [exact H|].
  exact (METRICS_SQL_fails_on_zero_divisor_only sqrt_6dp zero_low_db _ H).
Defined.



(** X13: one price row of one active asset with a zero low, its high not
    NULL, makes the statement fail for every asset: no recompute goes
    through. *)
Theorem zero_low_aborts_recompute (sqrt_num : Q -> Q) (db : database)
        (r : price_row) (a : asset_row) :
  In r (daily_prices db) -> In a (assets db) ->
  a_asset_id a = dp_asset_id r -> a_is_active a = true ->
  is_not_null (dp_high r) = true -> holds (dp_low r) 0 ->
  METRICS_SQL sqrt_num db = Raise DivisionByZero
  /\ forall env n db', recompute sqrt_num env db <> Ok (n, db').
Proof.
  intros Hr Ha Hid Hact Hh Hz.
  assert (F : METRICS_SQL sqrt_num db = Raise DivisionByZero).
  { destruct (METRICS_SQL sqrt_num db) as [rows|e] eqn:E.
    - exfalso. unfold METRICS_SQL in E.
      apply bind_Ok in E. destruct E as (wr & Hwr & _).
      destruct (over_partitions_filter dp_asset_id dp_date wr_asset_id
                  with_returns_rows (base_data db) wr
                  with_returns_rows_asset eq_refl Hwr (dp_asset_id r))
        as (po & Hpo & _).
      pose proof (partition_of_In dp_asset_id dp_date (base_data db) r
                    (base_data_In _ _ _ Hr Ha Hid Hact)) as Hin.
      apply In_nth_error in Hin. destruct Hin as (i & Hi).
      destruct (for_each_row_Ok_row _ _ _ _ _ Hpo Hi) as (o & Ho).
      simpl in Ho. apply bind_Ok in Ho. destruct Ho as (v1 & _ & Ho).
      apply bind_Ok in Ho. destruct Ho as (v2 & Hv2 & _).
      unfold daily_range_pct in Hv2. rewrite Hh in Hv2.
      destruct (dp_low r) as [l|]; [|contradiction]. simpl in Hz, Hv2.
      destruct (dp_high r) as [h|]; [|discriminate]. simpl in Hv2.
      apply Qeq_bool_iff in Hz. rewrite Hz in Hv2. discriminate.
    - apply METRICS_SQL_Raise in E. now destruct E as (-> & _). }
  split; [exact F|].
  intros env n db' Hrec. apply recompute_Ok in Hrec.
  destruct Hrec as (rows & Hrows & _). congruence.
Qed.

Lemma zero_low_aborts_recompute_witness :
  In (nth 0 (daily_prices zero_low_db) (blank_row 0 0))
     (daily_prices zero_low_db)
  /\ In btc (assets zero_low_db)
  /\ a_asset_id btc
     = dp_asset_id (nth 0 (daily_prices zero_low_db) (blank_row 0 0))
  /\ a_is_active btc = true
  /\ is_not_null (dp_high (nth 0 (daily_prices zero_low_db) (blank_row 0 0)))
     = true
  /\ holds (dp_low (nth 0 (daily_prices zero_low_db) (blank_row 0 0))) 0
  /\ METRICS_SQL sqrt_6dp zero_low_db = Raise DivisionByZero
  /\ forall env n db', recompute sqrt_6dp env zero_low_db <> Ok (n, db').
Proof.
  assert (Hr : In (nth 0 (daily_prices zero_low_db) (blank_row 0 0))
                  (daily_prices zero_low_db)) by (left; reflexivity).
  assert (Ha : In btc (assets zero_low_db)) by (left; reflexivity).
  assert (Hz : holds (dp_low (nth 0 (daily_prices zero_low_db)
                                  (blank_row 0 0))) 0) by reflexivity.
  split; [exact Hr|]. split; [exact Ha|]. split; [reflexivity|].
  split; [reflexivity|]. split; [reflexivity|]. split; [exact Hz|].
  exact (zero_low_aborts_recompute sqrt_6dp zero_low_db _ btc
           Hr Ha eq_refl eq_refl eq_refl Hz).
Defined.

(** ** The rows written *)

Lemma filter_disjoint_perm {A : Type} (p q : A -> bool) (l : list A) :
  (forall x, p x = true -> q x = true -> False) ->
  Permutation (filter p l ++ filter q l) (filter (fun x => p x || q x) l).
Proof.
  intros D. induction l as [|x l IH]; simpl; [constructor|].
  destruct (p x) eqn:Ep, (q x) eqn:Eq; simpl.
  - destruct (D x Ep Eq).
  - now constructor.
  - etransitivity; [symmetry; apply Permutation_middle|]. now constructor.
  - exact IH.
Qed.

(** The partitions of a table, put together, are the table. *)
Lemma partitions_perm {A : Type} (pkey : A -> Z) (rows : list A) :
  forall keys, NoDup keys ->
    Permutation
      (flat_map (fun k => filter (fun r => (pkey r =? k)%Z) rows) keys)
      (filter (fun r => existsb (fun k => (pkey r =? k)%Z) keys) rows).
Proof.
  induction keys as [|k keys IH]; intros Hnd; simpl.
  - rewrite filter_none; [constructor|]. now apply Forall_forall.
  - inversion Hnd as [|? ? Hk Hnd']; subst.
    etransitivity; [apply Permutation_app_head, IH, Hnd'|].
    apply filter_disjoint_perm. intros r E1 E2.
    apply Z.eqb_eq in E1. apply existsb_exists in E2.
    destruct E2 as (k' & Hk' & E2). apply Z.eqb_eq in E2. congruence.
Qed.

Lemma all_partitions_perm {A : Type} (pkey : A -> Z) (rows : list A) :
  Permutation
    (flat_map (fun k => filter (fun r => (pkey r =? k)%Z) rows)
              (partition_keys pkey rows))
    rows.
Proof.
  etransitivity; [apply partitions_perm, NoDup_nodup|].
  rewrite filter_all; [reflexivity|].
  apply Forall_forall. intros r Hr. apply existsb_exists.
  exists (pkey r). split; [|apply Z.eqb_refl].
  unfold partition_keys. apply nodup_In. now apply in_map.
Qed.

Lemma sequence_keys {K B : Type} (key' : B -> K) (g : Z -> result (list B))
      (h : Z -> list K) :
  (forall k po, g k = Ok po -> Permutation (map key' po) (h k)) ->
  forall keys parts,
    sequence (map g keys) = Ok parts ->
    Permutation (map key' (concat parts)) (flat_map h keys).
Proof.
  intros Hg. induction keys as [|k keys IH]; intros parts H.
  - injection H as <-. constructor.
  - simpl in H.
    apply bind_Ok in H. destruct H as (po & Hpo & H).
    apply bind_Ok in H. destruct H as (pos & Hpos & H).
    injection H as <-. simpl. rewrite map_app.
    apply Permutation_app; [exact (Hg _ _ Hpo) | exact (IH _ Hpos)].
Qed.

(** A partitioned SELECT that keeps the key of each row returns the keys
    of its input. *)
Lemma over_partitions_keys {K A B : Type} (pkey okey : A -> Z)
      (key : A -> K) (key' : B -> K) (f : list A -> result (list B))
      rows out :
  (forall part po, f part = Ok po -> map key' po = map key part) ->
  over_partitions pkey okey f rows = Ok out ->
  Permutation (map key' out) (map key rows).
Proof.
  intros Hkey H. unfold over_partitions in H.
  apply bind_Ok in H. destruct H as (parts & Hparts & H). injection H as <-.
  etransitivity.
  - apply (sequence_keys key'
             (fun k => f (partition_of pkey okey rows k))
             (fun k => map key (filter (fun r => (pkey r =? k)%Z) rows)))
      with (2 := Hparts).
    intros k po Hpo. rewrite (Hkey _ _ Hpo). unfold partition_of.
    apply Permutation_map, order_by_perm.
  - assert (E : forall ks,
              flat_map (fun k => map key (filter (fun r => (pkey r =? k)%Z)
                                                 rows)) ks
              = map key (flat_map
                           (fun k => filter (fun r => (pkey r =? k)%Z) rows)
                           ks)).
    { induction ks as [|k ks IH]; simpl; [reflexivity|].
      now rewrite map_app, IH. }
    rewrite E. apply Permutation_map, all_partitions_perm.
Qed.

Lemma with_returns_rows_key part wr :
  with_returns_rows part = Ok wr ->
  map (fun w => (wr_asset_id w, wr_date w)) wr = map price_key part.
Proof.
  apply (for_each_row_map _ (fun w => (wr_asset_id w, wr_date w)) price_key).
  intros i r o H.
  apply bind_Ok in H. destruct H as (v1 & _ & H).
  apply bind_Ok in H. destruct H as (v2 & _ & H).
  now injection H as <-.
Qed.

Lemma with_all_metrics_rows_key sqrt_num part ms :
  with_all_metrics_rows sqrt_num part = Ok ms ->
  map metric_key ms = map (fun w => (wr_asset_id w, wr_date w)) part.
Proof.
  apply (for_each_row_map _ metric_key (fun w => (wr_asset_id w, wr_date w))).
  intros i r o H.
  apply bind_Ok in H. destruct H as (v1 & _ & H).
  now injection H as <-.
Qed.

(** The statement writes one row per row of base_data, under the same
    key. *)
Lemma METRICS_SQL_keys sqrt_num db rows :
  METRICS_SQL sqrt_num db = Ok rows ->
  Permutation (map metric_key rows) (map price_key (base_data db)).
Proof.
  intros H. unfold METRICS_SQL in H.
  apply bind_Ok in H. destruct H as (wr & Hwr & H).
  apply bind_Ok in H. destruct H as (wam & Hwam & H).
  injection H as <-.
  rewrite !order_by_perm.
  etransitivity.
  - exact (over_partitions_keys _ _ _ metric_key _ _ _
             (with_all_metrics_rows_key sqrt_num) Hwam).
  - exact (over_partitions_keys _ _ price_key _ _ _ _
             with_returns_rows_key Hwr).
Qed.

Lemma existsb_filter_nil {A : Type} (g : A -> bool) (l : list A) :
  existsb g l = false -> filter g l = [].
Proof.
  induction l as [|x l IH]; simpl; [reflexivity|].
  destruct (g x); simpl; [discriminate | exact IH].
Qed.

(** With asset_id the key of assets, the join keeps a price row once or
    not at all. *)
Lemma join_active_assets db dp :
  NoDup (map a_asset_id (assets db)) ->
  map (fun _ : asset_row => dp)
      (filter (fun a => (a_asset_id a =? dp_asset_id dp)%Z && a_is_active a)
              (assets db))
  = if of_active_asset db dp then [dp] else [].
Proof.
  intros Hnd. unfold of_active_asset.
  destruct (existsb _ (assets db)) eqn:E.
  - apply existsb_exists in E. destruct E as (a & Ha & E).
    apply andb_true_iff in E. destruct E as (Hid & Hact).
    apply Z.eqb_eq in Hid. rewrite <- Hid.
    rewrite (filter_key_unique a_asset_id a_is_active _ a Hnd Ha), Hact.
    reflexivity.
  - now rewrite (existsb_filter_nil _ _ E).
Qed.

Lemma base_data_perm db :
  NoDup (map a_asset_id (assets db)) ->
  Permutation (base_data db) (active_prices db).
Proof.
  intros Hnd. unfold base_data, active_prices.
  rewrite !order_by_perm.
  induction (daily_prices db) as [|dp l IH]; simpl; [constructor|].
  rewrite (join_active_assets db dp Hnd).
  destruct (of_active_asset db dp); simpl; [now constructor | exact IH].
Qed.

(** X14: asset_id being the key of assets, a successful recompute leaves in
    daily_metrics exactly one row per price row of an active asset, under
    the same (asset_id, date), and returns their number. *)
Theorem one_metric_row_per_active_price (sqrt_num : Q -> Q)
        (env : environment) (db : database) (n : nat) (db' : database) :
  NoDup (map a_asset_id (assets db)) ->
  recompute sqrt_num env db = Ok (n, db') ->
  Permutation (map metric_key (daily_metrics db'))
              (map price_key (active_prices db))
  /\ n = length (active_prices db).
Proof.
  intros Hnd H. apply recompute_Ok in H.
  destruct H as (rows & Hrows & -> & ->). simpl daily_metrics.
  assert (P : Permutation (map metric_key rows)
                          (map price_key (active_prices db))).
  { etransitivity; [exact (METRICS_SQL_keys _ _ _ Hrows)|].
    apply Permutation_map, base_data_perm, Hnd. }
  split; [exact P|].
  apply Permutation_length in P. now rewrite !length_map in P.
Qed.

Lemma two_assets_keys : NoDup (map a_asset_id two_assets).
Proof.
  constructor; [|constructor; [|constructor]]; simpl; intuition discriminate.
Qed.

Lemma flat_db_recompute :
  recompute sqrt_6dp no_faults flat_db
  = Ok (length flat_db_rows, with_daily_metrics flat_db flat_db_rows).
Proof. vm_compute. reflexivity. Qed.

Lemma one_metric_row_per_active_price_witness :
  NoDup (map a_asset_id (assets flat_db))
  /\ recompute sqrt_6dp no_faults flat_db
     = Ok (length flat_db_rows, with_daily_metrics flat_db flat_db_rows)
  /\ Permutation
       (map metric_key
            (daily_metrics (with_daily_metrics flat_db flat_db_rows)))
       (map price_key (active_prices flat_db))
  /\ length flat_db_rows = length (active_prices flat_db).
Proof.
  split; [exact two_assets_keys|]. split; [exact flat_db_recompute|].
  exact (one_metric_row_per_active_price sqrt_6dp no_faults flat_db _ _
           two_assets_keys flat_db_recompute).
Defined.

Lemma NoDup_map_filter {A K : Type} (key : A -> K) (f : A -> bool) l :
  NoDup (map key l) -> NoDup (map key (filter f l)).
Proof.
  induction l as [|x l IH]; simpl; intros H; [constructor|].
  inversion H as [|? ? Hx Hl]; subst.
  destruct (f x); simpl; [|now apply IH].
  constructor; [|now apply IH].
  intros Hin. apply Hx. apply in_map_iff in Hin.
  destruct Hin as (y & E & Hy). apply filter_In in Hy.
  apply in_map_iff. exists y. tauto.
Qed.

(** X15: when (asset_id, date) is unique in daily_prices, it is unique in
    the daily_metrics a recompute commits, whatever the table held before:
    the rows of the INSERT cannot violate the UNIQUE constraint of the
    table. *)
Theorem recompute_keeps_keys_unique (sqrt_num : Q -> Q) (env : environment)
        (db : database) (n : nat) (db' : database) :
  NoDup (map a_asset_id (assets db)) ->
  NoDup (map price_key (daily_prices db)) ->
  recompute sqrt_num env db = Ok (n, db') ->
  NoDup (map metric_key (daily_metrics db')).
Proof.
  intros Hnd Hk H. apply recompute_Ok in H.
  destruct H as (rows & Hrows & _ & ->). simpl daily_metrics.
  apply (Permutation_NoDup (l := map price_key (active_prices db))).
  - symmetry. etransitivity; [exact (METRICS_SQL_keys _ _ _ Hrows)|].
    apply Permutation_map, base_data_perm, Hnd.
  - now apply NoDup_map_filter.
Qed.

Lemma NoDup_by_nodup (l : list (Z * Z)) : nodup key_eq_dec l = l -> NoDup l.
Proof. intros <-. apply NoDup_nodup. Qed.

Lemma recompute_keeps_keys_unique_witness :
  NoDup (map a_asset_id (assets flat_db))
  /\ NoDup (map price_key (daily_prices flat_db))
  /\ recompute sqrt_6dp no_faults flat_db
     = Ok (length flat_db_rows, with_daily_metrics flat_db flat_db_rows)
  /\ NoDup (map metric_key
                (daily_metrics (with_daily_metrics flat_db flat_db_rows))).
Proof.
  assert (Hk : NoDup (map price_key (daily_prices flat_db))).
  { apply NoDup_by_nodup. vm_compute. reflexivity. }
  split; [exact two_assets_keys|]. split; [exact Hk|].
  split; [exact flat_db_recompute|].
  exact (recompute_keeps_keys_unique sqrt_6dp no_faults flat_db _ _
           two_assets_keys Hk flat_db_recompute).
Defined.

(** ** The order of the rows *)

Lemma key_le_trans k1 k2 k3 : key_le k1 k2 -> key_le k2 k3 -> key_le k1 k3.
Proof. unfold key_le. lia. Qed.

Lemma insert_by_lex {A : Type} (k1 k2 : A -> Z) (x : A) (l : list A) :
  StronglySorted (fun a b => key_le (k1 a, k2 a) (k1 b, k2 b)) l ->
  Forall (fun y => (k2 x <= k2 y)%Z) l ->
  StronglySorted (fun a b => key_le (k1 a, k2 a) (k1 b, k2 b))
                 (insert_by k1 x l).
Proof.
  induction 1 as [|y l Hl IH Hy]; intros Hx; simpl.
  - constructor; constructor.
  - inversion Hx as [|? ? Hxy Hxl]; subst.
    destruct (Z.leb_spec (k1 x) (k1 y)) as [Hle|Hgt].
    + constructor; [now constructor|].
      constructor.
      * unfold key_le. simpl. lia.
      * rewrite Forall_forall in Hy, Hxl |- *. intros z Hz.
        specialize (Hy z Hz). specialize (Hxl z Hz).
        unfold key_le in *. simpl in *. lia.
    + constructor; [now apply IH|].
      apply Forall_forall. intros z Hz.
      apply (Permutation_in _ (insert_by_perm k1 x l)) in Hz.
      destruct Hz as [<-|Hz].
      * unfold key_le. simpl. lia.
      * rewrite Forall_forall in Hy. now apply Hy.
Qed.

Lemma Sorted_StronglySorted_le (l : list Z) :
  Sorted Z.le l -> StronglySorted Z.le l.
Proof. apply Sorted_StronglySorted. intros a b c. apply Z.le_trans. Qed.

(** ORDER BY [k1], [k2], done as a stable sort on [k1] of the rows sorted
    on [k2]. *)
Lemma order_by_lex {A : Type} (k1 k2 : A -> Z) (l : list A) :
  StronglySorted (fun a b => key_le (k1 a, k2 a) (k1 b, k2 b))
                 (order_by k1 (order_by k2 l)).
Proof.
  pose proof (Sorted_StronglySorted_le _ (order_by_sorted k2 l)) as H.
  induction (order_by k2 l) as [|x l' IH]; simpl; [constructor|].
  simpl in H. inversion H as [|? ? Hl Hx]; subst.
  apply insert_by_lex; [now apply IH|].
  apply Forall_forall. intros y Hy. apply order_by_In in Hy.
  rewrite Forall_forall in Hx. apply Hx. now apply in_map.
Qed.

(** X16: the rows are inserted in the order of the final ORDER BY: by
    asset_id, and by date within an asset. *)
Theorem METRICS_SQL_rows_in_key_order (sqrt_num : Q -> Q) (db : database)
        (rows : list metric_row) :
  METRICS_SQL sqrt_num db = Ok rows ->
  StronglySorted key_le (map metric_key rows).
Proof.
  intros H. unfold METRICS_SQL in H.
  apply bind_Ok in H. destruct H as (wr & _ & H).
  apply bind_Ok in H. destruct H as (wam & _ & H).
  injection H as <-.
  pose proof (order_by_lex dm_asset_id dm_date wam) as S.
  induction S as [|m l Hl IH Hm]; simpl; constructor; [exact IH|].
  apply Forall_forall. intros k Hk. apply in_map_iff in Hk.
  destruct Hk as (m' & <- & Hm'). rewrite Forall_forall in Hm.
  exact (Hm m' Hm').
Qed.

Lemma flat_db_statement : METRICS_SQL sqrt_6dp flat_db = Ok flat_db_rows.
Proof. vm_compute. reflexivity. Qed.

Lemma METRICS_SQL_rows_in_key_order_witness :
  METRICS_SQL sqrt_6dp flat_db = Ok flat_db_rows
  /\ StronglySorted key_le (map metric_key flat_db_rows).
Proof.
  split; [exact flat_db_statement|].
  exact (METRICS_SQL_rows_in_key_order sqrt_6dp flat_db _ flat_db_statement).
Defined.

(** ** One asset at a time *)

(** X17: the metrics of an asset are computed from the price rows of that
    asset alone: two databases that hold the same assets and the same price
    rows for an asset give that asset the same metrics, whatever the rows of
    the other assets, provided the statement succeeds on both. *)
Theorem metrics_of_an_asset_ignore_other_assets (sqrt_num : Q -> Q)
        (db1 db2 : database) (rows1 rows2 : list metric_row) (a : asset_row) :
  NoDup (map a_asset_id (assets db1)) -> assets db2 = assets db1 ->
  In a (assets db1) -> a_is_active a = true ->
  filter (fun dp => (dp_asset_id dp =? a_asset_id a)%Z) (daily_prices db2)
  = filter (fun dp => (dp_asset_id dp =? a_asset_id a)%Z) (daily_prices db1) ->
  METRICS_SQL sqrt_num db1 = Ok rows1 ->
  METRICS_SQL sqrt_num db2 = Ok rows2 ->
  Permutation (asset_metrics rows2 (a_asset_id a))
              (asset_metrics rows1 (a_asset_id a)).
Proof.
  intros Hnd Ea Ha Hact Ep H1 H2.
  destruct (METRICS_SQL_asset _ _ _ (a_asset_id a) H1) as (ms1 & Hms1 & P1).
  destruct (METRICS_SQL_asset _ _ _ (a_asset_id a) H2) as (ms2 & Hms2 & P2).
  rewrite (price_series_asset_series db1 a Hnd Ha Hact) in Hms1.
  rewrite (price_series_asset_series db2 a) in Hms2
    by (rewrite ?Ea; assumption).
  unfold asset_series in Hms1, Hms2. rewrite Ep in Hms2.
  rewrite Hms1 in Hms2. injection Hms2 as <-.
  etransitivity; [exact P2 | symmetry; exact P1].
Qed.

Lemma metrics_of_an_asset_ignore_other_assets_witness :
  NoDup (map a_asset_id (assets flat_db))
  /\ assets btc_only_db = assets flat_db
  /\ In btc (assets flat_db) /\ a_is_active btc = true
  /\ filter (fun dp => (dp_asset_id dp =? a_asset_id btc)%Z)
            (daily_prices btc_only_db)
     = filter (fun dp => (dp_asset_id dp =? a_asset_id btc)%Z)
              (daily_prices flat_db)
  /\ METRICS_SQL sqrt_6dp flat_db = Ok flat_db_rows
  /\ METRICS_SQL sqrt_6dp btc_only_db = Ok flat_db_rows
  /\ Permutation (asset_metrics flat_db_rows (a_asset_id btc))
                 (asset_metrics flat_db_rows (a_asset_id btc)).
Proof.
  assert (Ha : In btc (assets flat_db)) by (left; reflexivity).
  assert (Ep : filter (fun dp => (dp_asset_id dp =? a_asset_id btc)%Z)
                      (daily_prices btc_only_db)
               = filter (fun dp => (dp_asset_id dp =? a_asset_id btc)%Z)
                        (daily_prices flat_db))
    by (vm_compute; reflexivity).
  assert (H2 : METRICS_SQL sqrt_6dp btc_only_db = Ok flat_db_rows)
    by (vm_compute; reflexivity).
  split; [exact two_assets_keys|]. split; [reflexivity|].
  split; [exact Ha|]. split; [reflexivity|]. split; [exact Ep|].
  split; [exact flat_db_statement|]. split; [exact H2|].
  exact (metrics_of_an_asset_ignore_other_assets sqrt_6dp flat_db
           btc_only_db _ _ btc two_assets_keys eq_refl Ha eq_refl Ep
           flat_db_statement H2).
Defined.

(** ** The ways a run ends *)

(** X18: a run changes neither assets nor daily_prices, and leaves in
    daily_metrics either the rows it found or the complete output of the
    statement, whatever fails and wherever. *)
Theorem run_replaces_metrics_or_nothing (sqrt_num : Q -> Q)
        (env : environment) (db : database) :
  assets (server (snd (run sqrt_num env db))) = assets db
  /\ daily_prices (server (snd (run sqrt_num env db))) = daily_prices db
  /\ (server (snd (run sqrt_num env db)) = db
      \/ exists rows,
           METRICS_SQL sqrt_num db = Ok rows
           /\ server (snd (run sqrt_num env db)) = with_daily_metrics db rows).
Proof.
  assert (H : server (snd (run sqrt_num env db)) = db
              \/ exists rows,
                   METRICS_SQL sqrt_num db = Ok rows
                   /\ server (snd (run sqrt_num env db))
                      = with_daily_metrics db rows).
  { destruct (run_outcome sqrt_num env db) as (_ & H).
    destruct (connect_error env); [left; apply H|].
    destruct (delete_error env); [left; apply H|].
    destruct (insert_error env); [left; apply H|].
    destruct (METRICS_SQL sqrt_num db) as [rows|e]; [|left; apply H].
    destruct (commit_error env); [left; apply H|].
    right. exists rows. split; [reflexivity | apply H]. }
  destruct H as [->|(rows & Hr & ->)].
  - auto.
  - split; [reflexivity|]. split; [reflexivity|]. right. exists rows. auto.
Qed.

Ltac run_main :=
  cbv beta iota zeta delta
      [run main try_finally try_except get_db_connection compute_metrics
       cursor execute_delete execute_metrics commit rollback close
       conn_is_not_None mbind logger the_connection set_conn fault ret
       raise lift released reraised server conn log txn closed is_not_null
       fst snd].

(** X19: when the connection cannot be made, the caller gets the exception
    of the connection attempt itself, whatever a rollback would do: with no
    connection there is nothing to roll back and nothing to close, and the
    line that reports the closing is not logged. *)
Theorem connect_failure_is_raised_as_is (sqrt_num : Q -> Q)
        (env : environment) (db : database) (e : exn) :
  connect_error env = Some e ->
  fst (run sqrt_num env db) = Raise e
  /\ server (snd (run sqrt_num env db)) = db
  /\ conn (snd (run sqrt_num env db)) = None
  /\ ~ In {| level := INFO; msg := "Database connection closed.";
             args := [] |}
          (log (snd (run sqrt_num env db))).
Proof.
  intros H. run_main. rewrite H. run_main.
  destruct (is_Exception e); run_main;
    (split; [reflexivity|]); (split; [reflexivity|]);
    (split; [reflexivity|]); simpl; intuition discriminate.
Qed.

Lemma connect_failure_is_raised_as_is_witness :
  connect_error no_server = Some (OperationalError 2)
  /\ fst (run sqrt_6dp no_server flat_db) = Raise (OperationalError 2)
  /\ server (snd (run sqrt_6dp no_server flat_db)) = flat_db
  /\ conn (snd (run sqrt_6dp no_server flat_db)) = None
  /\ ~ In {| level := INFO; msg := "Database connection closed.";
             args := [] |}
          (log (snd (run sqrt_6dp no_server flat_db))).
Proof.
  split; [reflexivity|].
  exact (connect_failure_is_raised_as_is sqrt_6dp no_server flat_db _
           eq_refl).
Defined.



(** X21: the commit is the point of no return: when the auditor's query
    fails after it, the run raises, and the rollback of the handler undoes
    nothing: the new metrics stay. *)
Theorem audit_failure_keeps_new_metrics (sqrt_num : Q -> Q)
        (env : environment) (db : database) (rows : list metric_row)
        (e : exn) :
  connect_error env = None -> delete_error env = None ->
  insert_error env = None -> METRICS_SQL sqrt_num db = Ok rows ->
  commit_error env = None -> select_error env = Some e ->
  fst (run sqrt_num env db) = reraised env e
  /\ server (snd (run sqrt_num env db)) = with_daily_metrics db rows
  /\ released (snd (run sqrt_num env db)).
Proof.
  intros Hc Hd Hi Hr Hco Hs.
  destruct (run_outcome sqrt_num env db) as (Hrel & H).
  rewrite Hc, Hd, Hi, Hr, Hco, Hs in H. destruct H as (H1 & H2). auto.
Qed.

Lemma audit_failure_keeps_new_metrics_witness :
  connect_error select_fails = None /\ delete_error select_fails = None
  /\ insert_error select_fails = None
  /\ METRICS_SQL sqrt_6dp flat_db = Ok flat_db_rows
  /\ commit_error select_fails = None
  /\ select_error select_fails = Some (OperationalError 4)
  /\ fst (run sqrt_6dp select_fails flat_db)
     = reraised select_fails (OperationalError 4)
  /\ server (snd (run sqrt_6dp select_fails flat_db))
     = with_daily_metrics flat_db flat_db_rows
  /\ released (snd (run sqrt_6dp select_fails flat_db)).
Proof.
  split; [reflexivity|]. split; [reflexivity|]. split; [reflexivity|].
  split; [exact flat_db_statement|]. split; [reflexivity|].
  split; [reflexivity|].
  exact (audit_failure_keeps_new_metrics sqrt_6dp select_fails flat_db _ _
           eq_refl eq_refl eq_refl flat_db_statement eq_refl eq_refl).
Defined.

(** ** The auditor's report *)

Lemma warnings_app l1 l2 : warnings (l1 ++ l2) = warnings l1 + warnings l2.
Proof. unfold warnings. now rewrite filter_app, length_app. Qed.

Lemma expect_warnings symbol expected got m ok w :
  exists l,
    expect symbol expected got m ok w
    = (Ok (ok && (got =? expected)),
       {| server := server w; conn := conn w; log := (log w ++ l)%list |})
    /\ warnings l = (if got =? expected then 0 else 1)
    /\ Forall (fun r => level r <> ERROR) l.
Proof.
  unfold expect, mbind, logger, ret.
  destruct (got =? expected); simpl.
  - exists []. rewrite app_nil_r, andb_true_r. destruct w; simpl.
    repeat split. constructor.
  - eexists. rewrite andb_false_r. split; [reflexivity|].
    split; [reflexivity|]. constructor; [discriminate | constructor].
Qed.

Lemma audit_row_warnings row ok w :
  exists l,
    audit_row row ok w
    = (Ok (ok && row_matches row),
       {| server := server w; conn := conn w; log := (log w ++ l)%list |})
    /\ warnings l = failed_tests row
    /\ Forall (fun r => level r <> ERROR) l.
Proof.
  unfold audit_row. cbv zeta. unfold mbind at 1. unfold logger at 1.
  cbv beta iota.
  repeat (try unfold mbind at 1;
          match goal with
          | |- context [expect ?s ?e ?g ?m ?b ?w0] =>
              let l := fresh "l" in
              let E := fresh "E" in
              let W := fresh "W" in
              let F := fresh "F" in
              destruct (expect_warnings s e g m b w0) as (l & E & W & F);
              rewrite E; clear E; cbv beta iota; cbn [server conn log]
          end).
  exists ({| level := INFO; msg := "%-6s %5d %6d %6d %6d %6d %6d %6d %6d";
             args := [arg_s (v_symbol row); d (total_rows row);
                      d (null_return row); d (null_range row);
                      d (null_vol7 row); d (null_vol30 row);
                      d (null_sma7 row); d (null_sma30 row);
                      d (null_volratio row)] |}
          :: l ++ l0 ++ l1 ++ l2 ++ l3 ++ l4 ++ l5)%list.
  split; [|split].
  - unfold row_matches. rewrite !andb_assoc.
    change (?x :: ?y ++ ?z)%list with ([x] ++ y ++ z)%list.
    rewrite !app_assoc. reflexivity.
  - unfold failed_tests.
    change (?x :: ?y ++ ?z)%list with ([x] ++ y ++ z)%list.
    rewrite !warnings_app, W, W0, W1, W2, W3, W4, W5.
    unfold warnings. simpl. lia.
  - constructor; [discriminate|]. repeat (apply Forall_app; split); assumption.
Qed.

Lemma audit_rows_warnings rows :
  forall ok w,
  exists l,
    audit_rows rows ok w
    = (Ok (ok && forallb row_matches rows),
       {| server := server w; conn := conn w; log := (log w ++ l)%list |})
    /\ warnings l = list_sum (map failed_tests rows)
    /\ Forall (fun r => level r <> ERROR) l.
Proof.
  induction rows as [|row rows IH]; intros ok w; simpl.
  - exists []. rewrite andb_true_r, app_nil_r. unfold ret.
    destruct w; simpl. repeat split. constructor.
  - unfold mbind.
    destruct (audit_row_warnings row ok w) as (l1 & E1 & W1 & F1).
    rewrite E1.
    destruct (IH (ok && row_matches row)
                 {| server := server w; conn := conn w;
                    log := (log w ++ l1)%list |}) as (l2 & E2 & W2 & F2).
    rewrite E2. cbn [server conn log].
    exists (l1 ++ l2)%list. rewrite andb_assoc, app_assoc.
    split; [reflexivity|]. split.
    + rewrite warnings_app. congruence.
    + apply Forall_app. auto.
Qed.

Lemma failed_tests_none row : failed_tests row = 0 <-> row_matches row = true.
Proof.
  unfold failed_tests, row_matches.
  destruct (null_return row =? 1), (null_range row =? 0),
    (null_vol7 row =? 7), (null_vol30 row =? 30), (null_sma7 row =? 6),
    (null_sma30 row =? 29), (null_volratio row =? 30); simpl;
    split; (reflexivity || discriminate).
Qed.

(** The log of the auditor on an open connection, when its query goes
    through. *)
Lemma log_validation_summary_log env w c :
  conn w = Some c -> closed c = false -> select_error env = None ->
  exists l,
    log_validation_summary env w
    = (Ok tt, {| server := server w; conn := conn w;
                 log := (log w ++ l)%list |})
    /\ warnings l
       = list_sum (map failed_tests (validation_sql (txn c)))
         + (if forallb row_matches (validation_sql (txn c)) then 0 else 1)
    /\ Forall (fun r => level r <> ERROR) l
    /\ In (summary_line (forallb row_matches (validation_sql (txn c)))) l.
Proof.
  intros Hc Hcl Hs.
  unfold log_validation_summary, cursor, execute_validation, mbind,
    the_connection, fault, ret, logger.
  do 3 (rewrite ?Hc, ?Hcl, ?Hs; cbv beta iota; cbn [server conn log]).
  match goal with
  | |- context [audit_rows ?rows ?ok ?w0] =>
      destruct (audit_rows_warnings rows ok w0) as (l1 & E1 & W1 & F1)
  end.
  cbn [server conn log] in E1.
  rewrite E1. cbn [andb]. unfold summary_line.
  destruct (forallb row_matches (validation_sql (txn c)));
    cbv beta iota; cbn [server conn log];
    (eexists (_ :: _ :: _ :: _ :: l1 ++ [_])%list; split;
     [repeat rewrite <- app_assoc; reflexivity|]; split;
     [unfold warnings in *; simpl; rewrite filter_app, length_app;
      simpl; lia|]; split;
     [repeat (constructor; [discriminate|]); apply Forall_app; split;
      [exact F1 | repeat (constructor; [discriminate|]); constructor]
     |do 4 right; apply in_or_app; right; left; reflexivity]).
Qed.

(** X22: the auditor logs one WARNING for each test a row fails, and one
    more, its closing line, when some test failed; it logs no error.  So it
    warns exactly when some row fails some test. *)
Theorem auditor_warns_once_per_failed_test (env : environment) (w : world)
        (c : connection) :
  conn w = Some c -> closed c = false -> select_error env = None ->
  exists l,
    log_validation_summary env w
    = (Ok tt, {| server := server w; conn := conn w;
                 log := (log w ++ l)%list |})
    /\ warnings l
       = list_sum (map failed_tests (validation_sql (txn c)))
         + (if forallb row_matches (validation_sql (txn c)) then 0 else 1)
    /\ (warnings l = 0
        <-> forallb row_matches (validation_sql (txn c)) = true)
    /\ Forall (fun r => level r <> ERROR) l.
Proof.
  intros Hc Hcl Hs.
  destruct (log_validation_summary_log env w c Hc Hcl Hs)
    as (l & E & W & F & _).
  exists l.
  split; [exact E|]. split; [exact W|]. split; [|exact F].
  rewrite W. clear.
  induction (validation_sql (txn c)) as [|row rows IH]; simpl.
  - split; reflexivity.
  - pose proof (failed_tests_none row) as Hn.
    destruct (row_matches row); simpl.
    + rewrite (proj2 Hn eq_refl). exact IH.
    + split; [|discriminate]. intros H.
      assert (H0 : failed_tests row = 0) by lia.
      apply Hn in H0. discriminate.
Qed.

Lemma auditor_warns_once_per_failed_test_witness :
  conn short_db_world
  = Some {| txn := with_daily_metrics short_db short_db_rows;
            closed := false |}
  /\ closed {| txn := with_daily_metrics short_db short_db_rows;
               closed := false |} = false
  /\ select_error no_faults = None
  /\ exists l,
       log_validation_summary no_faults short_db_world
       = (Ok tt, {| server := server short_db_world;
                    conn := conn short_db_world;
                    log := (log short_db_world ++ l)%list |})
       /\ warnings l
          = list_sum
              (map failed_tests
                   (validation_sql
                      (txn {| txn := with_daily_metrics short_db short_db_rows;
                              closed := false |})))
            + (if forallb row_matches
                    (validation_sql
                       (txn {| txn := with_daily_metrics short_db
                                        short_db_rows;
                               closed := false |}))
               then 0 else 1)
       /\ (warnings l = 0
           <-> forallb row_matches
                 (validation_sql
                    (txn {| txn := with_daily_metrics short_db short_db_rows;
                            closed := false |})) = true)
       /\ Forall (fun r => level r <> ERROR) l.
Proof.
  split; [reflexivity|]. split; [reflexivity|]. split; [reflexivity|].
  exact (auditor_warns_once_per_failed_test no_faults short_db_world _
           eq_refl eq_refl eq_refl).
Defined.

(** X23: the report has a row only for an asset that has rows in
    daily_metrics: every row counts at least one metrics row, no NULL count
    exceeds the number of rows, and the row carries the symbol of an asset
    of that id.  The rows come in ascending order of asset_id. *)
Theorem validation_rows_describe_nonempty_groups (db : database) :
  Sorted Z.le (map v_asset_id (validation_sql db))
  /\ forall row, In row (validation_sql db) ->
       1 <= total_rows row
       /\ null_return row <= total_rows row
       /\ null_range row <= total_rows row
       /\ null_vol7 row <= total_rows row
       /\ null_vol30 row <= total_rows row
       /\ null_sma7 row <= total_rows row
       /\ null_sma30 row <= total_rows row
       /\ null_volratio row <= total_rows row
       /\ exists a m, In a (assets db) /\ In m (daily_metrics db)
                      /\ a_asset_id a = v_asset_id row
                      /\ dm_asset_id m = v_asset_id row
                      /\ a_symbol a = v_symbol row.
Proof.
  unfold validation_sql. cbv zeta. split.
  - rewrite map_map. cbn [v_asset_id]. apply order_by_sorted.
  - intros row Hrow. apply in_map_iff in Hrow.
    destruct Hrow as (k & <- & Hk). cbn.
    apply order_by_In, nodup_In, in_map_iff in Hk.
    destruct Hk as (p & <- & Hp).
    assert (Hlen : 1 <= length
              (map snd
                 (filter
                    (fun p0 : string * metric_row =>
                       if group_key_dec (fst p0, dm_asset_id (snd p0))
                                        (fst p, dm_asset_id (snd p))
                       then true else false)
                    (flat_map
                       (fun dm =>
                          map (fun a => (a_symbol a, dm))
                              (filter
                                 (fun a => (a_asset_id a =? dm_asset_id dm)%Z)
                                 (assets db)))
                       (daily_metrics db))))).
    { rewrite length_map.
      assert (Hin : In p (filter
                    (fun p0 : string * metric_row =>
                       if group_key_dec (fst p0, dm_asset_id (snd p0))
                                        (fst p, dm_asset_id (snd p))
                       then true else false)
                    (flat_map
                       (fun dm =>
                          map (fun a => (a_symbol a, dm))
                              (filter
                                 (fun a => (a_asset_id a =? dm_asset_id dm)%Z)
                                 (assets db)))
                       (daily_metrics db)))).
      { apply filter_In. split; [exact Hp|].
        destruct (group_key_dec _ _); [reflexivity | congruence]. }
      destruct (filter _ _); [contradiction | simpl; lia]. }
    split; [exact Hlen|].
    unfold null_count.
    do 7 (split; [lia|]).
    apply in_flat_map in Hp. destruct Hp as (m & Hm & Hp).
    apply in_map_iff in Hp. destruct Hp as (a & <- & Ha).
    apply filter_In in Ha. destruct Ha as (Ha & E). apply Z.eqb_eq in E.
    exists a, m. simpl. auto.
Qed.

(** ** A run without faults *)

Ltac find_record :=
  repeat first [ apply in_or_app; right; left; reflexivity
               | apply in_or_app; left ].

(** X24: a run in which no call fails and the statement succeeds returns
    normally with the new metrics committed; its log reports the number of
    rows deleted and the number of rows inserted, holds no error, and ends
    with the line of success followed by the closing of the connection. *)
Theorem successful_run_reports_counts (sqrt_num : Q -> Q)
        (env : environment) (db : database) (rows : list metric_row) :
  fault_free env -> METRICS_SQL sqrt_num db = Ok rows ->
  fst (run sqrt_num env db) = Ok tt
  /\ server (snd (run sqrt_num env db)) = with_daily_metrics db rows
  /\ In {| level := INFO;
           msg := "Deleted %d existing rows from daily_metrics.";
           args := [d (length (daily_metrics db))] |}
        (log (snd (run sqrt_num env db)))
  /\ In {| level := INFO; msg := "Inserted %d rows into daily_metrics.";
           args := [d (length rows)] |}
        (log (snd (run sqrt_num env db)))
  /\ In {| level := INFO; msg := "  Rows inserted : %d";
           args := [d (length rows)] |}
        (log (snd (run sqrt_num env db)))
  /\ Forall (fun r => level r <> ERROR) (log (snd (run sqrt_num env db)))
  /\ exists l,
       log (snd (run sqrt_num env db))
       = (l ++ [{| level := INFO; msg := "Pipeline finished successfully.";
                   args := [] |};
                {| level := INFO; msg := "Database connection closed.";
                   args := [] |}])%list.
Proof.
  intros (Hc & Hd & Hi & Hco & Hs) Hr.
  run_main. rewrite Hc. run_main. rewrite Hd. run_main. rewrite Hi.
  run_main.
  change (METRICS_SQL sqrt_num (with_daily_metrics db []))
    with (METRICS_SQL sqrt_num db).
  rewrite Hr. run_main. rewrite Hco. run_main.
  match goal with
  | |- context [log_validation_summary env ?w0] =>
      destruct (log_validation_summary_log env w0 _ eq_refl eq_refl Hs)
        as (l1 & E1 & _ & F1 & _)
  end.
  cbn [server conn log] in E1. rewrite E1. run_main.
  split; [reflexivity|]. split; [reflexivity|].
  split; [find_record|]. split; [find_record|]. split; [find_record|].
  split.
  - repeat (apply Forall_app; split); try exact F1;
      repeat (constructor; try discriminate).
  - eexists. rewrite <- app_assoc. reflexivity.
Qed.

Lemma no_faults_fault_free : fault_free no_faults.
Proof. repeat split. Qed.

Lemma successful_run_reports_counts_witness :
  fault_free no_faults
  /\ METRICS_SQL sqrt_6dp flat_db = Ok flat_db_rows
  /\ fst (run sqrt_6dp no_faults flat_db) = Ok tt
  /\ server (snd (run sqrt_6dp no_faults flat_db))
     = with_daily_metrics flat_db flat_db_rows
  /\ In {| level := INFO;
           msg := "Deleted %d existing rows from daily_metrics.";
           args := [d (length (daily_metrics flat_db))] |}
        (log (snd (run sqrt_6dp no_faults flat_db)))
  /\ In {| level := INFO; msg := "Inserted %d rows into daily_metrics.";
           args := [d (length flat_db_rows)] |}
        (log (snd (run sqrt_6dp no_faults flat_db)))
  /\ In {| level := INFO; msg := "  Rows inserted : %d";
           args := [d (length flat_db_rows)] |}
        (log (snd (run sqrt_6dp no_faults flat_db)))
  /\ Forall (fun r => level r <> ERROR)
            (log (snd (run sqrt_6dp no_faults flat_db)))
  /\ exists l,
       log (snd (run sqrt_6dp no_faults flat_db))
       = (l ++ [{| level := INFO; msg := "Pipeline finished successfully.";
                   args := [] |};
                {| level := INFO; msg := "Database connection closed.";
                   args := [] |}])%list.
Proof.
  split; [exact no_faults_fault_free|]. split; [exact flat_db_statement|].
  exact (successful_run_reports_counts sqrt_6dp no_faults flat_db _
           no_faults_fault_free flat_db_statement).
Defined.

Lemma base_data_nil db :
  (forall r, In r (daily_prices db) -> of_active_asset db r = false) ->
  base_data db = [].
Proof.
  intros H. unfold base_data.
  assert (E : flat_map
                (fun dp =>
                   map (fun _ : asset_row => dp)
                       (filter (fun a => (a_asset_id a =? dp_asset_id dp)%Z
                                         && a_is_active a)
                               (assets db)))
                (daily_prices db) = []).
  { induction (daily_prices db) as [|dp l IH]; simpl; [reflexivity|].
    rewrite (existsb_filter_nil _ _ (H dp (or_introl eq_refl))). simpl.
    apply IH. intros r Hr. apply H. now right. }
  rewrite E. reflexivity.
Qed.

(** X25: with no price row of an active asset there is nothing to compute:
    the statement inserts no row, and the auditor, having no row to test,
    reports that the validation passed. *)
Theorem nothing_to_compute_passes (sqrt_num : Q -> Q) (env : environment)
        (db : database) :
  fault_free env ->
  (forall r, In r (daily_prices db) -> of_active_asset db r = false) ->
  METRICS_SQL sqrt_num db = Ok []
  /\ fst (run sqrt_num env db) = Ok tt
  /\ daily_metrics (server (snd (run sqrt_num env db))) = []
  /\ In (summary_line true) (log (snd (run sqrt_num env db))).
Proof.
  intros (Hc & Hd & Hi & Hco & Hs) H.
  assert (E : METRICS_SQL sqrt_num db = Ok []).
  { unfold METRICS_SQL. rewrite (base_data_nil db H). reflexivity. }
  split; [exact E|].
  destruct (run_outcome sqrt_num env db) as (_ & R).
  rewrite Hc, Hd, Hi, E, Hco, Hs in R. destruct R as (R1 & R2 & R3).
  split; [exact R2|]. split; [now rewrite R1|]. exact R3.
Qed.

Lemma nothing_to_compute_passes_witness :
  fault_free no_faults
  /\ (forall r, In r (daily_prices inactive_only_db) ->
                of_active_asset inactive_only_db r = false)
  /\ METRICS_SQL sqrt_6dp inactive_only_db = Ok []
  /\ fst (run sqrt_6dp no_faults inactive_only_db) = Ok tt
  /\ daily_metrics (server (snd (run sqrt_6dp no_faults inactive_only_db)))
     = []
  /\ In (summary_line true)
        (log (snd (run sqrt_6dp no_faults inactive_only_db))).
Proof.
  assert (H : forall r, In r (daily_prices inactive_only_db) ->
                        of_active_asset inactive_only_db r = false).
  { intros r Hr. apply in_map_iff in Hr. destruct Hr as (k & <- & _).
    reflexivity. }
  split; [exact no_faults_fault_free|]. split; [exact H|].
  exact (nothing_to_compute_passes sqrt_6dp no_faults inactive_only_db
           no_faults_fault_free H).
Defined.

(** ** Assets with a short history *)

Lemma COUNT_short_frame {A : Type} (p q i : nat) (col : list (option A)) :
  S i - q < S p - q -> COUNT (rows_between p q i col) <> S p - q.
Proof.
  intros H.
  pose proof (COUNT_le_length (rows_between p q i col)) as Hle.
  rewrite length_rows_between in Hle. lia.
Qed.

Lemma null_count_all_null (col : metric_row -> option Q) ms :
  (forall m, In m ms -> col m = None) -> null_count col ms = length ms.
Proof.
  intros H. rewrite <- (Nat.min_id (length ms)).
  apply null_count_null_before_min.
  intros j v Hj. apply nth_error_map_col in Hj. destruct Hj as (m & Hm & <-).
  assert (j < length ms) by (apply nth_error_Some; congruence).
  rewrite (H m (nth_error_In _ _ Hm)). simpl. symmetry.
  apply Nat.leb_gt. assumption.
Qed.

(** Whatever the prices, a series of fewer than 30 rows gets no vol_30d,
    no sma_30 and no volume_ratio_30d. *)
Lemma short_series_all_null sqrt_num series ms m :
  length series < 30 ->
  series_metrics sqrt_num series = Ok ms -> In m ms ->
  dm_vol_30d m = None /\ dm_sma_30 m = None /\ dm_volume_ratio_30d m = None.
Proof.
  intros Hlen H Hm. apply In_nth_error in Hm. destruct Hm as (i & Hm).
  destruct (series_metrics_inv _ _ _ H) as (wr & Hwr & Hms & Lwr & Lms).
  assert (Hi : i < 29).
  { assert (i < length ms) by (apply nth_error_Some; congruence). lia. }
  destruct (with_all_metrics_rows_nth _ _ _ _ _ Hms Hm)
    as (w & Hw & _ & _ & _ & _ & _ & V30 & _ & S30 & Hvr).
  pose proof (COUNT_short_frame 29 0 i (map wr_daily_return_pct wr)) as F1.
  pose proof (COUNT_short_frame 29 0 i (map wr_close wr)) as F2.
  pose proof (COUNT_short_frame 30 1 i (map wr_volume_usd wr)) as F3.
  rewrite V30, S30. 
  unfold vol, sma, volume_ratio_30d in *. cbv zeta in *.
  destruct (Nat.eqb_spec (COUNT (rows_between (30 - 1) 0 i
                                   (map wr_daily_return_pct wr))) 30)
    as [E|_]; [exfalso; apply F1; simpl in *; lia|].
  destruct (Nat.eqb_spec (COUNT (rows_between (30 - 1) 0 i
                                   (map wr_close wr))) 30)
    as [E|_]; [exfalso; apply F2; simpl in *; lia|].
  destruct (Nat.eqb_spec (COUNT (rows_between 30 1 i
                                   (map wr_volume_usd wr))) 30)
    as [E|_]; [exfalso; apply F3; simpl in *; lia|].
  injection Hvr as <-. auto.
Qed.

(** X26: an active asset with fewer than 30 price rows never passes the
    validation, whatever its prices: its row of the report counts as many
    NULLs of vol_30d and of volume_ratio_30d as it has rows, fewer than the
    30 expected. *)
Theorem short_history_fails_validation (sqrt_num : Q -> Q)
        (env : environment) (db : database) (n : nat) (db' : database)
        (a : asset_row) :
  recompute sqrt_num env db = Ok (n, db') ->
  NoDup (map a_asset_id (assets db)) ->
  In a (assets db) -> a_is_active a = true ->
  0 < length (asset_series db (a_asset_id a)) < 30 ->
  exists row,
    In row (validation_sql db')
    /\ v_symbol row = a_symbol a /\ v_asset_id row = a_asset_id a
    /\ total_rows row = length (asset_series db (a_asset_id a))
    /\ null_vol30 row = total_rows row
    /\ null_volratio row = total_rows row
    /\ row_matches row = false
    /\ forallb row_matches (validation_sql db') = false.
Proof.
  intros H Hnd Ha Hact Hlen. apply recompute_Ok in H.
  destruct H as (rows & Hrows & _ & ->).
  destruct (METRICS_SQL_asset _ _ _ (a_asset_id a) Hrows) as (ms & Hms & P).
  rewrite (price_series_asset_series db a Hnd Ha Hact) in Hms.
  destruct (series_metrics_inv _ _ _ Hms) as (_ & _ & _ & _ & Lms).
  pose proof (Permutation_length P) as LP.
  assert (Hne : asset_metrics (daily_metrics (with_daily_metrics db rows))
                              (a_asset_id a) <> []).
  { simpl daily_metrics. intros E. rewrite E in LP. simpl in LP. lia. }
  pose proof (validation_sql_asset (with_daily_metrics db rows) a Hnd Ha Hne)
    as Hrow.
  simpl daily_metrics in Hrow.
  assert (N30 : null_count dm_vol_30d (asset_metrics rows (a_asset_id a))
                = length (asset_series db (a_asset_id a))).
  { rewrite (Permutation_null_count _ _ _ P), <- Lms.
    apply null_count_all_null. intros m Hm.
    now destruct (short_series_all_null _ _ _ m (proj2 Hlen) Hms Hm). }
  assert (NVR : null_count dm_volume_ratio_30d
                           (asset_metrics rows (a_asset_id a))
                = length (asset_series db (a_asset_id a))).
  { rewrite (Permutation_null_count _ _ _ P), <- Lms.
    apply null_count_all_null. intros m Hm.
    now destruct (short_series_all_null _ _ _ m (proj2 Hlen) Hms Hm). }
  eexists. split; [exact Hrow|]. cbn.
  split; [reflexivity|]. split; [reflexivity|].
  split; [congruence|]. split; [congruence|]. split; [congruence|].
  assert (M : forall row, In row (validation_sql (with_daily_metrics db rows))
                -> row_matches row = false
                -> forallb row_matches
                           (validation_sql (with_daily_metrics db rows))
                   = false).
  { intros row Hin Hf.
    destruct (forallb row_matches _) eqn:E; [|reflexivity].
    rewrite forallb_forall in E. rewrite (E row Hin) in Hf. discriminate. }
  assert (R : forall x y z u v t,
            row_matches
              {| v_symbol := a_symbol a; v_asset_id := a_asset_id a;
                 total_rows := x; null_return := y; null_range := z;
                 null_vol7 := u;
                 null_vol30 := null_count dm_vol_30d
                                 (asset_metrics rows (a_asset_id a));
                 null_sma7 := v; null_sma30 := t;
                 null_volratio := null_count dm_volume_ratio_30d
                                    (asset_metrics rows (a_asset_id a)) |}
            = false).
  { intros. unfold row_matches. cbn. rewrite N30.
    replace (length (asset_series db (a_asset_id a)) =? 30) with false
      by (symmetry; apply Nat.eqb_neq; lia).
    now rewrite !andb_false_r. }
  split; [apply R|]. eapply M; [exact Hrow | apply R].
Qed.

Lemma short_db_recompute :
  recompute sqrt_6dp no_faults short_db
  = Ok (length short_db_rows, with_daily_metrics short_db short_db_rows).
Proof. vm_compute. reflexivity. Qed.

Lemma short_db_series_length :
  length (asset_series short_db (a_asset_id btc)) = 9.
Proof. vm_compute. reflexivity. Qed.

Lemma short_history_fails_validation_witness :
  recompute sqrt_6dp no_faults short_db
  = Ok (length short_db_rows, with_daily_metrics short_db short_db_rows)
  /\ NoDup (map a_asset_id (assets short_db))
  /\ In btc (assets short_db) /\ a_is_active btc = true
  /\ 0 < length (asset_series short_db (a_asset_id btc)) < 30
  /\ exists row,
       In row (validation_sql (with_daily_metrics short_db short_db_rows))
       /\ v_symbol row = a_symbol btc /\ v_asset_id row = a_asset_id btc
       /\ total_rows row = length (asset_series short_db (a_asset_id btc))
       /\ null_vol30 row = total_rows row
       /\ null_volratio row = total_rows row
       /\ row_matches row = false
       /\ forallb row_matches
                  (validation_sql (with_daily_metrics short_db short_db_rows))
          = false.
Proof.
  assert (Ha : In btc (assets short_db)) by (left; reflexivity).
  assert (Hl : 0 < length (asset_series short_db (a_asset_id btc)) < 30).
  { rewrite short_db_series_length. lia. }
  split; [exact short_db_recompute|]. split; [exact two_assets_keys|].
  split; [exact Ha|]. split; [reflexivity|]. split; [exact Hl|].
  exact (short_history_fails_validation sqrt_6dp no_faults short_db _ _ btc
           short_db_recompute two_assets_keys Ha eq_refl Hl).
Defined.
